(** * dist/sign-release.go: the release-signing archive transformer

    A shallow embedding of the Go program [dist/sign-release.go] of
    quick-lint-js, and the properties of its recursive archive
    transformation engine: Deep Paths, the transform registry
    ([filesToTransform]), the content-addressed [TransformCache], the
    dispatcher [TransformFile], the tar+gzip and zip rebuilders, and the two
    post-run checks [CheckUnsignedFiles] and [CheckDoubleSigning].

    Go maps are stdpp [gmap]s; a lookup of a missing key yields the value
    type's zero value, written [default zero (m !! k)].  Package-level
    mutable variables are fields of an explicit [State] that every
    operation threads.  The Go standard library (archive/tar, archive/zip,
    compress/gzip, crypto/sha256, path/filepath) and the external signing
    tools are collaborators of the program and are taken as parameters,
    bundled in the record [Externals]; the file system calls of
    [CopyFileOrTransformArchive] are bundled in the record [FileSystem]. *)

From Stdlib Require Import ZArith.
From Stdlib.Strings Require Import Byte Ascii.
From stdpp Require Import base option list gmap strings fin_maps countable.

Local Open Scope Z_scope.
Local Open Scope string_scope.

(** ** Bytes, hashes and errors *)

#[global] Instance byte_eq_dec : EqDecision byte := Byte.byte_eq_dec.

#[global] Program Instance byte_countable : Countable byte :=
  inj_countable Byte.to_N Byte.of_N _.
Next Obligation. intros b. apply Byte.of_to_N. Qed.

(** A Go [[]byte]. *)
Abbreviation bytes := (list byte).

(** [type SHA256Hash [32]byte]: the array is kept as its list of bytes. *)
Abbreviation SHA256Hash := (list byte) (only parsing).

(** The zero value of [SHA256Hash]: thirty-two zero bytes. *)
Definition zeroHash : SHA256Hash := replicate 32 x00.

(** Go [error] values: the ones [fmt.Errorf] builds in this file, and the
    ones the standard library, the file system or a signing tool hand back. *)
Inductive error : Type :=
  | Errorf (msg : string)
  | ExternalError (code : nat).

(** How a call ends.  [Fatal] is [log.Fatal] (the process exits), [Panic]
    a Go run-time panic; [OutOfFuel] belongs to the embedding only: the
    dispatcher recurses on decoded archive content, which is not a
    structural argument, so it is defined by recursion on a step budget. *)
Inductive Outcome (A : Type) : Type :=
  | Ok (a : A)
  | Err (e : error)
  | Fatal
  | Panic
  | OutOfFuel.
Arguments Ok {A} a.
Arguments Err {A} e.
Arguments Fatal {A}.
Arguments Panic {A}.
Arguments OutOfFuel {A}.

(** An [io.Reader] read to its end: either it delivers its bytes or the
    read fails. *)
Inductive Reader : Type :=
  | BytesReader (content : bytes)
  | BrokenReader (e : error).

(** [io.ReadAll]. *)
Definition io_ReadAll (r : Reader) : Outcome bytes :=
  match r with
  | BytesReader content => Ok content
  | BrokenReader e => Err e
  end.

(** ** Deep Paths *)

(** [type DeepPath struct { parts [3]string }]: the three array cells. *)
Record DeepPath : Type := mkDeepPath {
  parts0 : string;
  parts1 : string;
  parts2 : string;
}.

#[global] Instance DeepPath_eq_dec : EqDecision DeepPath.
Proof. solve_decision. Defined.

#[global] Program Instance DeepPath_countable : Countable DeepPath :=
  inj_countable' (fun p => (parts0 p, parts1 p, parts2 p))
                 (fun t => mkDeepPath t.1.1 t.1.2 t.2) _.
Next Obligation. by intros []. Qed.

Definition NewDeepPath (path : string) : DeepPath := mkDeepPath path "" "".
Definition NewDeepPath2 (path0 path1 : string) : DeepPath := mkDeepPath path0 path1 "".
Definition NewDeepPath3 (path0 path1 path2 : string) : DeepPath :=
  mkDeepPath path0 path1 path2.

(** [func (path *DeepPath) Append(child string) DeepPath].  The method has a
    pointer receiver, so the embedding returns the receiver's value after
    the call next to the method's result.  The body copies [*path] into the
    local [newPath] and assigns to the copy only. *)
Definition Append (path : DeepPath) (child : string) : DeepPath * Outcome DeepPath :=
  let newPath := path in
  if String.eqb (parts0 newPath) "" then
    (path, Ok (mkDeepPath child (parts1 newPath) (parts2 newPath)))
  else if String.eqb (parts1 path) "" then
    (path, Ok (mkDeepPath (parts0 newPath) child (parts2 newPath)))
  else if String.eqb (parts2 path) "" then
    (path, Ok (mkDeepPath (parts0 newPath) (parts1 newPath) child))
  else
    (path, Fatal).

(** [func (path *DeepPath) Last() string]. *)
Definition Last (path : DeepPath) : string :=
  if negb (String.eqb (parts2 path) "") then parts2 path
  else if negb (String.eqb (parts1 path) "") then parts1 path
  else parts0 path.

(** [strings.HasSuffix]:
    [len(s) >= len(suffix) && s[len(s)-len(suffix):] == suffix]. *)
Definition HasSuffix (s suffix : string) : bool :=
  (String.length suffix <=? String.length s)%nat
  && String.eqb
       (String.substring (String.length s - String.length suffix)
                         (String.length suffix) s)
       suffix.

Definition PathLooksLikeTarGz (path : string) : bool :=
  HasSuffix path ".tar.gz" || HasSuffix path ".tgz".

Definition PathLooksLikeZip (path : string) : bool :=
  HasSuffix path ".nupkg" || HasSuffix path ".vsix" || HasSuffix path ".zip".

(** The cells of a Deep Path by index, and the index of its first unused
    (empty) cell, if any. *)
Definition part (i : nat) (p : DeepPath) : string :=
  match i with
  | O => parts0 p
  | 1%nat => parts1 p
  | _ => parts2 p
  end.

Definition firstUnused (p : DeepPath) : option nat :=
  if String.eqb (parts0 p) "" then Some 0%nat
  else if String.eqb (parts1 p) "" then Some 1%nat
  else if String.eqb (parts2 p) "" then Some 2%nat
  else None.

(** ** Go's fixed-width integers

    [len] yields an [int]; the conversions [int64(..)], [uint32(..)] and
    [uint64(..)] wrap around. *)

Definition int64 (z : Z) : Z := (z + 2 ^ 63) mod 2 ^ 64 - 2 ^ 63.
Definition uint32 (z : Z) : Z := z mod 2 ^ 32.
Definition uint64 (z : Z) : Z := z mod 2 ^ 64.

(** [len(b)] of a byte slice. *)
Definition len (b : bytes) : Z := Z.of_nat (length b).

(** [time.Time], as an instant on the time line. *)
Definition Time : Type := Z.

(** ** archive/tar and archive/zip headers *)

Module tar.

(** [tar.Format] values: [FormatUSTAR], [FormatPAX] and [FormatGNU] are the
    powers of two the package gives them. *)
Definition FormatUnknown : Z := 0.
Definition FormatUSTAR : Z := 2.
Definition FormatPAX : Z := 4.
Definition FormatGNU : Z := 8.

(** [tar.TypeReg], the character ['0']. *)
Definition TypeReg : Z := 48.

(** [tar.Header]. *)
Record Header : Type := mkHeader {
  Typeflag : Z;
  Name : string;
  Linkname : string;
  Size : Z;
  Mode : Z;
  Uid : Z;
  Gid : Z;
  Uname : string;
  Gname : string;
  ModTime : Time;
  AccessTime : Time;
  ChangeTime : Time;
  Devmajor : Z;
  Devminor : Z;
  Xattrs : gmap string string;
  PAXRecords : gmap string string;
  Format : Z;
}.

(** The zero value of every field a composite literal leaves out. *)
Definition zeroTime : Time := 0.

End tar.

Module zip.

(** [zip.FileHeader]. *)
Record FileHeader : Type := mkFileHeader {
  Name : string;
  Comment : string;
  NonUTF8 : bool;
  CreatorVersion : Z;
  ReaderVersion : Z;
  Flags : Z;
  Method : Z;
  Modified : Time;
  ModifiedTime : Z;
  ModifiedDate : Z;
  CRC32 : Z;
  CompressedSize : Z;
  UncompressedSize : Z;
  CompressedSize64 : Z;
  UncompressedSize64 : Z;
  Extra : bytes;
  ExternalAttrs : Z;
}.

(** [zip.File]: the embedded header, and the entry's body as the archive
    stores it (the package keeps it behind unexported fields). *)
Record File : Type := mkFile {
  Header : FileHeader;
  body : bytes;
}.

(** What the rebuilder hands to a [zip.Writer], entry by entry:
    [CreateRaw] with raw bytes, [CreateHeader] with fresh content, or
    [Create] of a named entry with fresh content. *)
Inductive Written : Type :=
  | Raw (header : FileHeader) (raw : bytes)
  | WithHeader (header : FileHeader) (content : bytes)
  | Created (name : string) (content : bytes).

End zip.

(** ** Transform results, the registry's operation tags, the log *)

(** [type FileTransformResult struct]: a nil pointer is [None]. *)
Record FileTransformResult : Type := mkFileTransformResult {
  newFile : option bytes;
  siblingFile : option bytes;
  siblingFileName : string;
}.

(** The composite literal [FileTransformResult{}], also what a lookup of a
    missing key in [TransformCache] yields. *)
Definition zeroFileTransformResult : FileTransformResult :=
  {| newFile := None; siblingFile := None; siblingFileName := "" |}.

Definition NoOpTransform : FileTransformResult :=
  {| newFile := None; siblingFile := None; siblingFileName := "" |}.

Inductive FileTransformType : Type :=
  | NoTransform
  | AppleCodesign
  | GPGSign
  | MicrosoftOsslsigncode.

#[global] Instance FileTransformType_eq_dec : EqDecision FileTransformType.
Proof. solve_decision. Defined.

(** What the program does to the outside, in order: the lines it logs with
    [log.Printf], and the runs of an external signing tool (with the
    operation and the content handed to the tool).  The message that
    [log.Fatal] prints before it ends the process is not among them: a
    call that ends in [Fatal] has printed it on top of the events. *)
Inductive Event : Type :=
  | LogSigningWithAppleCodesign (deepPath : DeepPath)
  | LogSigningWithGPG (deepPath : DeepPath)
  | LogSigningWithOsslsigncode (deepPath : DeepPath)
  | LogShouldHaveBeenSigned (deepPath : DeepPath)
  | LogDifferentHashes (path previousPath : DeepPath)
  | SignerRun (transformType : FileTransformType) (content : bytes).

(** The entries of the map literal that initialises [filesToTransform]. *)
Definition filesToTransform_literal : list (DeepPath * FileTransformType) :=
  [
    (NewDeepPath3 "chocolatey/quick-lint-js.nupkg" "tools/windows-x64.zip" "bin/quick-lint-js.exe", MicrosoftOsslsigncode);
    (NewDeepPath3 "chocolatey/quick-lint-js.nupkg" "tools/windows-x86.zip" "bin/quick-lint-js.exe", MicrosoftOsslsigncode);
    (NewDeepPath2 "manual/linux-aarch64.tar.gz" "quick-lint-js/bin/quick-lint-js", GPGSign);
    (NewDeepPath2 "manual/linux-armhf.tar.gz" "quick-lint-js/bin/quick-lint-js", GPGSign);
    (NewDeepPath2 "manual/linux.tar.gz" "quick-lint-js/bin/quick-lint-js", GPGSign);
    (NewDeepPath2 "manual/macos-aarch64.tar.gz" "quick-lint-js/bin/quick-lint-js", AppleCodesign);
    (NewDeepPath2 "manual/macos.tar.gz" "quick-lint-js/bin/quick-lint-js", AppleCodesign);
    (NewDeepPath2 "manual/windows-arm64.zip" "bin/quick-lint-js.exe", MicrosoftOsslsigncode);
    (NewDeepPath2 "manual/windows-arm.zip" "bin/quick-lint-js.exe", MicrosoftOsslsigncode);
    (NewDeepPath2 "manual/windows-x86.zip" "bin/quick-lint-js.exe", MicrosoftOsslsigncode);
    (NewDeepPath2 "manual/windows.zip" "bin/quick-lint-js.exe", MicrosoftOsslsigncode);
    (NewDeepPath2 "npm/quick-lint-js-2.3.0.tgz" "package/darwin-arm64/bin/quick-lint-js", AppleCodesign);
    (NewDeepPath2 "npm/quick-lint-js-2.3.0.tgz" "package/darwin-x64/bin/quick-lint-js", AppleCodesign);
    (NewDeepPath2 "npm/quick-lint-js-2.3.0.tgz" "package/linux-arm/bin/quick-lint-js", GPGSign);
    (NewDeepPath2 "npm/quick-lint-js-2.3.0.tgz" "package/linux-arm64/bin/quick-lint-js", GPGSign);
    (NewDeepPath2 "npm/quick-lint-js-2.3.0.tgz" "package/linux-x64/bin/quick-lint-js", GPGSign);
    (NewDeepPath2 "npm/quick-lint-js-2.3.0.tgz" "package/win32-arm64/bin/quick-lint-js.exe", MicrosoftOsslsigncode);
    (NewDeepPath2 "npm/quick-lint-js-2.3.0.tgz" "package/win32-ia32/bin/quick-lint-js.exe", MicrosoftOsslsigncode);
    (NewDeepPath2 "npm/quick-lint-js-2.3.0.tgz" "package/win32-x64/bin/quick-lint-js.exe", MicrosoftOsslsigncode);
    (NewDeepPath2 "vscode/quick-lint-js-2.3.0.vsix" "extension/dist/quick-lint-js-vscode-node_darwin-arm64.node", AppleCodesign);
    (NewDeepPath2 "vscode/quick-lint-js-2.3.0.vsix" "extension/dist/quick-lint-js-vscode-node_darwin-x64.node", AppleCodesign);
    (NewDeepPath2 "vscode/quick-lint-js-2.3.0.vsix" "extension/dist/quick-lint-js-vscode-node_linux-arm.node", GPGSign);
    (NewDeepPath2 "vscode/quick-lint-js-2.3.0.vsix" "extension/dist/quick-lint-js-vscode-node_linux-arm64.node", GPGSign);
    (NewDeepPath2 "vscode/quick-lint-js-2.3.0.vsix" "extension/dist/quick-lint-js-vscode-node_linux-x64.node", GPGSign);
    (NewDeepPath2 "vscode/quick-lint-js-2.3.0.vsix" "extension/dist/quick-lint-js-vscode-node_win32-arm.node", MicrosoftOsslsigncode);
    (NewDeepPath2 "vscode/quick-lint-js-2.3.0.vsix" "extension/dist/quick-lint-js-vscode-node_win32-arm64.node", MicrosoftOsslsigncode);
    (NewDeepPath2 "vscode/quick-lint-js-2.3.0.vsix" "extension/dist/quick-lint-js-vscode-node_win32-ia32.node", MicrosoftOsslsigncode);
    (NewDeepPath2 "vscode/quick-lint-js-2.3.0.vsix" "extension/dist/quick-lint-js-vscode-node_win32-x64.node", MicrosoftOsslsigncode)
  ].

(** [filesToTransform] as [main] finds it. *)
Definition filesToTransform_initial : gmap DeepPath FileTransformType :=
  list_to_map filesToTransform_literal.

(** ** The program's collaborators

    [World] is whatever the signing tools depend on besides their input
    (the clock, the key store, the timestamp server): a tool is run in a
    world and leaves a new one, so two runs on the same bytes may differ. *)
Record Externals (World : Type) : Type := mkExternals {
  (** [var ProgramStartTime time.Time = time.Now()]. *)
  ProgramStartTime : Time;
  (** crypto/sha256 over a whole byte slice. *)
  sha256_Sum : bytes -> SHA256Hash;
  (** path/filepath. *)
  filepath_Base : string -> string;
  filepath_Dir : string -> string;
  filepath_Join : string -> string -> string;
  (** [gzip.NewReader], then [tarReader.Next] and [io.ReadAll] until the
      stream ends: the entries read in order, and [None] when the stream
      ended in [io.EOF] or the error that cut it short. *)
  targz_Read : Reader -> list (tar.Header * bytes) * option error;
  (** [tar.Writer.WriteHeader] and [tar.Writer.Write] (the count of bytes
      written and the error). *)
  tar_WriteHeader : tar.Header -> option error;
  tar_Write : tar.Header -> bytes -> Z * option error;
  (** The bytes in the buffer once the tar and gzip writers are closed. *)
  targz_Bytes : list (tar.Header * bytes) -> bytes;
  (** [zip.NewReader], [zip.File.Open], [zip.File.OpenRaw] read to the end. *)
  zip_NewReader : bytes -> error + list zip.File;
  zip_Open : zip.File -> error + Reader;
  zip_OpenRaw : zip.File -> error + bytes;
  (** [zip.Writer.CreateRaw], [CreateHeader] and [Create]. *)
  zip_CreateRaw : zip.FileHeader -> option error;
  zip_CreateHeader : zip.FileHeader -> option error;
  zip_Create : string -> option error;
  (** The bytes in the buffer once the zip writer is closed. *)
  zip_Bytes : list zip.Written -> bytes;
  (** codesign: sign a temporary copy named like the original, verify it,
      read it back. *)
  codesign : string -> bytes -> World -> World * (error + bytes);
  (** gpg: detach-sign a temporary copy, verify the signature, read the
      signature file. *)
  gpg : bytes -> World -> World * (error + bytes);
  (** osslsigncode: sign a temporary copy, verify it, read it back. *)
  osslsigncode : bytes -> World -> World * (error + bytes);
  (** [DeepHasher.DeepHashDirectory] (declared in another file of the
      package): the error it returns, or the [Hashes] map it fills. *)
  DeepHashDirectory : string -> error + gmap DeepPath SHA256Hash;
}.

Arguments ProgramStartTime {World} _.
Arguments sha256_Sum {World} _ _.
Arguments filepath_Base {World} _ _.
Arguments filepath_Dir {World} _ _.
Arguments filepath_Join {World} _ _ _.
Arguments targz_Read {World} _ _.
Arguments tar_WriteHeader {World} _ _.
Arguments tar_Write {World} _ _ _.
Arguments targz_Bytes {World} _ _.
Arguments zip_NewReader {World} _ _.
Arguments zip_Open {World} _ _.
Arguments zip_OpenRaw {World} _ _.
Arguments zip_CreateRaw {World} _ _.
Arguments zip_CreateHeader {World} _ _.
Arguments zip_Create {World} _ _.
Arguments zip_Bytes {World} _ _.
Arguments codesign {World} _ _ _ _.
Arguments gpg {World} _ _ _.
Arguments osslsigncode {World} _ _ _.
Arguments DeepHashDirectory {World} _ _.

(** The order in which a [for ... range] loop visits a map: Go leaves it
    unspecified, so it is a parameter, some enumeration of the entries. *)
Record MapRange : Type := mkMapRange {
  range : forall {K} `{Countable K} {V}, gmap K V -> list (K * V);
  range_Permutation :
    forall K `{Countable K} V (m : gmap K V), range m ≡ₚ map_to_list m;
}.

(** ** The state of the process *)

Record State (World : Type) : Type := mkState {
  (** [var filesToTransform map[DeepPath]FileTransformType]. *)
  filesToTransform : gmap DeepPath FileTransformType;
  (** [var TransformCache map[SHA256Hash]FileTransformResult]. *)
  TransformCache : gmap SHA256Hash FileTransformResult;
  (** The outside the signing tools run in. *)
  world : World;
  (** What has been logged and which tools have been run, oldest first. *)
  events : list Event;
}.
Arguments mkState {World} _ _ _ _.
Arguments filesToTransform {World} _.
Arguments TransformCache {World} _.
Arguments world {World} _.
Arguments events {World} _.

(** The state when [main] starts: the registry literal and the empty cache. *)
Definition initialState {World} (w : World) : State World :=
  mkState filesToTransform_initial ∅ w [].

(** ** The program *)

Section Program.

Context {World : Type}.
Variable ext : Externals World.
Variable mr : MapRange.

(** A Go function that may touch the package-level variables and may end in
    an error, in [log.Fatal] or in a panic. *)
Definition M (A : Type) : Type := State World -> State World * Outcome A.

Definition ret {A} (a : A) : M A := fun st => (st, Ok a).

Definition bind {A B} (m : M A) (k : A -> M B) : M B := fun st =>
  match m st with
  | (st', Ok a) => k a st'
  | (st', Err e) => (st', Err e)
  | (st', Fatal) => (st', Fatal)
  | (st', Panic) => (st', Panic)
  | (st', OutOfFuel) => (st', OutOfFuel)
  end.

Notation "x <- c1 ;; c2" := (bind c1 (fun x => c2))
  (at level 100, c1 at next level, right associativity).

Definition fail {A} (e : error) : M A := fun st => (st, Err e).

Definition lift {A} (o : Outcome A) : M A := fun st => (st, o).

Definition gets {A} (f : State World -> A) : M A := fun st => (st, Ok (f st)).

(** [log.Printf], or the start of a tool: one more event. *)
Definition emit (ev : Event) : M unit := fun st =>
  (mkState (filesToTransform st) (TransformCache st) (world st) (events st ++ [ev])%list, Ok tt).

(** Running an external tool in the current world. *)
Definition runTool (tool : World -> World * (error + bytes)) : M bytes := fun st =>
  let '(w, r) := tool (world st) in
  (mkState (filesToTransform st) (TransformCache st) w (events st),
   match r with inl e => Err e | inr b => Ok b end).

(** [delete(filesToTransform, deepPath)]. *)
Definition deleteFileToTransform (deepPath : DeepPath) : M unit := fun st =>
  (mkState (delete deepPath (filesToTransform st)) (TransformCache st) (world st) (events st),
   Ok tt).

(** [TransformCache[fileHash] = transform]. *)
Definition storeTransform (fileHash : SHA256Hash) (transform : FileTransformResult) : M unit :=
  fun st =>
  (mkState (filesToTransform st) (<[fileHash := transform]> (TransformCache st)) (world st)
           (events st),
   Ok tt).

(** [func (self *FileTransformResult) UpdateTarHeader(header *tar.Header)]:
    the header after the call. *)
Definition UpdateTarHeader (self : FileTransformResult) (header : tar.Header) : tar.Header :=
  match newFile self with
  | Some newFileContent =>
    let gnuOrPax :=
      bool_decide (tar.Format header = tar.FormatGNU)
      || bool_decide (tar.Format header = tar.FormatPAX) in
    {| tar.Typeflag := tar.Typeflag header;
       tar.Name := tar.Name header;
       tar.Linkname := tar.Linkname header;
       tar.Size := int64 (len newFileContent);
       tar.Mode := tar.Mode header;
       tar.Uid := tar.Uid header;
       tar.Gid := tar.Gid header;
       tar.Uname := tar.Uname header;
       tar.Gname := tar.Gname header;
       tar.ModTime := ProgramStartTime ext;
       tar.AccessTime := if gnuOrPax then ProgramStartTime ext else tar.AccessTime header;
       tar.ChangeTime := if gnuOrPax then ProgramStartTime ext else tar.ChangeTime header;
       tar.Devmajor := tar.Devmajor header;
       tar.Devminor := tar.Devminor header;
       tar.Xattrs := tar.Xattrs header;
       tar.PAXRecords := tar.PAXRecords header;
       tar.Format := tar.Format header |}
  | None => header
  end.

(** [func (self *FileTransformResult) UpdateZipHeader(header *zip.FileHeader)]:
    the header after the call. *)
Definition UpdateZipHeader (self : FileTransformResult) (header : zip.FileHeader) :
    zip.FileHeader :=
  match newFile self with
  | Some newFileContent =>
    let size := len newFileContent in
    {| zip.Name := zip.Name header;
       zip.Comment := zip.Comment header;
       zip.NonUTF8 := zip.NonUTF8 header;
       zip.CreatorVersion := zip.CreatorVersion header;
       zip.ReaderVersion := zip.ReaderVersion header;
       zip.Flags := zip.Flags header;
       zip.Method := zip.Method header;
       zip.Modified := ProgramStartTime ext;
       zip.ModifiedTime := zip.ModifiedTime header;
       zip.ModifiedDate := zip.ModifiedDate header;
       zip.CRC32 := zip.CRC32 header;
       zip.CompressedSize := zip.CompressedSize header;
       zip.UncompressedSize := uint32 size;
       zip.CompressedSize64 := zip.CompressedSize64 header;
       zip.UncompressedSize64 := uint64 size;
       zip.Extra := zip.Extra header;
       zip.ExternalAttrs := zip.ExternalAttrs header |}
  | None => header
  end.

(** [AppleCodesignTransform]: the file is copied out, signed, verified and
    read back; the signed bytes replace the file. *)
Definition AppleCodesignTransform (originalPath : string) (exe : Reader) :
    M FileTransformResult :=
  content <- lift (io_ReadAll exe) ;;
  _ <- emit (SignerRun AppleCodesign content) ;;
  signedFileContent <- runTool (codesign ext (filepath_Base ext originalPath) content) ;;
  ret {| newFile := Some signedFileContent; siblingFile := None; siblingFileName := "" |}.

(** [GPGSignTransform]: the detached signature becomes a sibling file
    named after the original; [newFile] is left nil. *)
Definition GPGSignTransform (originalPath : string) (exe : Reader) : M FileTransformResult :=
  content <- lift (io_ReadAll exe) ;;
  _ <- emit (SignerRun GPGSign content) ;;
  signatureFileContent <- runTool (gpg ext content) ;;
  ret {| newFile := None;
         siblingFile := Some signatureFileContent;
         siblingFileName := filepath_Base ext originalPath ++ ".asc" |}.

(** [MicrosoftOsslsigncodeTransform]. *)
Definition MicrosoftOsslsigncodeTransform (exe : Reader) : M FileTransformResult :=
  content <- lift (io_ReadAll exe) ;;
  _ <- emit (SignerRun MicrosoftOsslsigncode content) ;;
  signedFileContent <- runTool (osslsigncode ext content) ;;
  ret {| newFile := Some signedFileContent; siblingFile := None; siblingFileName := "" |}.

(** [WriteTarEntry]. *)
Definition WriteTarEntry (header : tar.Header) (fileContent : bytes) : M unit :=
  match tar_WriteHeader ext header with
  | Some e => fail e
  | None =>
    let '(bytesWritten, err) := tar_Write ext header fileContent in
    match err with
    | Some e => fail e
    | None =>
      if decide (int64 bytesWritten = tar.Size header) then ret tt
      else fail (Errorf "failed to write entire file")
    end
  end.

(** The header of the sibling entry [TransformTarGzToFile] synthesises. *)
Definition siblingTarHeader (header : tar.Header) (transformResult : FileTransformResult)
    (sibling : bytes) : tar.Header :=
  {| tar.Typeflag := tar.TypeReg;
     tar.Name := filepath_Join ext (filepath_Dir ext (tar.Name header))
                   (siblingFileName transformResult);
     tar.Linkname := "";
     tar.Size := int64 (len sibling);
     tar.Mode := Z.ldiff (tar.Mode header) 73;
     tar.Uid := tar.Uid header;
     tar.Gid := tar.Gid header;
     tar.Uname := tar.Uname header;
     tar.Gname := tar.Gname header;
     tar.ModTime := ProgramStartTime ext;
     tar.AccessTime := tar.zeroTime;
     tar.ChangeTime := tar.zeroTime;
     tar.Devmajor := 0;
     tar.Devminor := 0;
     tar.Xattrs := ∅;
     tar.PAXRecords := ∅;
     tar.Format := tar.FormatUSTAR |}.

(** One turn of the loop of [TransformTarGzToFile], for the entry read;
    [rec] is the dispatcher the loop calls back.  The result lists what was
    written to the tar writer. *)
Definition TransformTarGzEntry (rec : DeepPath -> Reader -> M FileTransformResult)
    (tarGzDeepPath : DeepPath) (entry : tar.Header * bytes) : M (list (tar.Header * bytes)) :=
  let '(header, fileContent) := entry in
  if decide (int64 (len fileContent) = tar.Size header) then
    deepPath <- lift (Append tarGzDeepPath (tar.Name header)).2 ;;
    transformResult <- rec deepPath (BytesReader fileContent) ;;
    let header := UpdateTarHeader transformResult header in
    let newFileContent := default fileContent (newFile transformResult) in
    _ <- WriteTarEntry header newFileContent ;;
    match siblingFile transformResult with
    | Some sibling =>
      let siblingHeader := siblingTarHeader header transformResult sibling in
      _ <- WriteTarEntry siblingHeader sibling ;;
      ret [(header, newFileContent); (siblingHeader, sibling)]
    | None => ret [(header, newFileContent)]
    end
  else fail (Errorf "failed to read entire file").

Fixpoint TransformTarGzEntries (rec : DeepPath -> Reader -> M FileTransformResult)
    (tarGzDeepPath : DeepPath) (entries : list (tar.Header * bytes)) (ending : option error) :
    M (list (tar.Header * bytes)) :=
  match entries with
  | [] => match ending with None => ret [] | Some e => fail e end
  | entry :: entries =>
    written <- TransformTarGzEntry rec tarGzDeepPath entry ;;
    more <- TransformTarGzEntries rec tarGzDeepPath entries ending ;;
    ret (written ++ more)%list
  end.

(** [TransformTarGzToFile]: what ends up in the tar writer. *)
Definition TransformTarGzToFile (rec : DeepPath -> Reader -> M FileTransformResult)
    (tarGzDeepPath : DeepPath) (sourceFile : Reader) : M (list (tar.Header * bytes)) :=
  let '(entries, ending) := targz_Read ext sourceFile in
  TransformTarGzEntries rec tarGzDeepPath entries ending.

Definition TransformTarGz (rec : DeepPath -> Reader -> M FileTransformResult)
    (tarGzDeepPath : DeepPath) (sourceFile : Reader) : M FileTransformResult :=
  written <- TransformTarGzToFile rec tarGzDeepPath sourceFile ;;
  let destinationFileContent := targz_Bytes ext written in
  ret {| newFile := Some destinationFileContent; siblingFile := None; siblingFileName := "" |}.

Definition liftSum {A} (r : error + A) : M A :=
  match r with inl e => fail e | inr a => ret a end.

Definition liftErr (r : option error) : M unit :=
  match r with Some e => fail e | None => ret tt end.

(** One turn of the loop of [TransformZipToFile]. *)
Definition TransformZipEntry (rec : DeepPath -> Reader -> M FileTransformResult)
    (zipDeepPath : DeepPath) (zipEntry : zip.File) : M (list zip.Written) :=
  zipEntryFile <- liftSum (zip_Open ext zipEntry) ;;
  deepPath <- lift (Append zipDeepPath (zip.Name (zip.Header zipEntry))).2 ;;
  transformResult <- rec deepPath zipEntryFile ;;
  let header := UpdateZipHeader transformResult (zip.Header zipEntry) in
  first <-
    match newFile transformResult with
    | None =>
      rawZIPEntryFile <- liftSum (zip_OpenRaw ext zipEntry) ;;
      _ <- liftErr (zip_CreateRaw ext header) ;;
      ret (zip.Raw header rawZIPEntryFile)
    | Some newFileContent =>
      _ <- liftErr (zip_CreateHeader ext header) ;;
      ret (zip.WithHeader header newFileContent)
    end ;;
  match siblingFile transformResult with
  | Some sibling =>
    let siblingName :=
      filepath_Join ext (filepath_Dir ext (zip.Name (zip.Header zipEntry)))
        (siblingFileName transformResult) in
    _ <- liftErr (zip_Create ext siblingName) ;;
    ret [first; zip.Created siblingName sibling]
  | None => ret [first]
  end.

Fixpoint TransformZipEntries (rec : DeepPath -> Reader -> M FileTransformResult)
    (zipDeepPath : DeepPath) (files : list zip.File) : M (list zip.Written) :=
  match files with
  | [] => ret []
  | zipEntry :: files =>
    written <- TransformZipEntry rec zipDeepPath zipEntry ;;
    more <- TransformZipEntries rec zipDeepPath files ;;
    ret (written ++ more)%list
  end.

(** [TransformZipToFile]: what ends up in the zip writer. *)
Definition TransformZipToFile (rec : DeepPath -> Reader -> M FileTransformResult)
    (zipDeepPath : DeepPath) (sourceFile : bytes) : M (list zip.Written) :=
  sourceZipFile <- liftSum (zip_NewReader ext sourceFile) ;;
  TransformZipEntries rec zipDeepPath sourceZipFile.

Definition TransformZip (rec : DeepPath -> Reader -> M FileTransformResult)
    (zipDeepPath : DeepPath) (sourceFile : bytes) : M FileTransformResult :=
  written <- TransformZipToFile rec zipDeepPath sourceFile ;;
  let destinationFileContent := zip_Bytes ext written in
  ret {| newFile := Some destinationFileContent; siblingFile := None; siblingFileName := "" |}.

(** The test [cachedTransform.newFile != nil || cachedTransform.siblingFile != nil]. *)
Definition isCacheHit (cachedTransform : FileTransformResult) : bool :=
  bool_decide (newFile cachedTransform ≠ None)
  || bool_decide (siblingFile cachedTransform ≠ None).

(** The tail of [TransformFile] once a signer has answered. *)
Definition finishTransform (deepPath : DeepPath) (fileHash : SHA256Hash)
    (transform : FileTransformResult) : M FileTransformResult :=
  _ <- deleteFileToTransform deepPath ;;
  _ <- storeTransform fileHash transform ;;
  ret transform.

(** The body of [TransformFile]; [rec] stands for its recursive calls, made
    by the two rebuilders. *)
Definition TransformFile_body (rec : DeepPath -> Reader -> M FileTransformResult)
    (deepPath : DeepPath) (file : Reader) : M FileTransformResult :=
  if PathLooksLikeTarGz (Last deepPath) then TransformTarGz rec deepPath file
  else if PathLooksLikeZip (Last deepPath) then
    fileContent <- lift (io_ReadAll file) ;;
    TransformZip rec deepPath fileContent
  else
    transformType <- gets (fun st => default NoTransform (filesToTransform st !! deepPath)) ;;
    prepared <-
      (if decide (transformType = NoTransform) then ret (inr (file, zeroHash))
       else
         fileContent <- lift (io_ReadAll file) ;;
         let fileHash := sha256_Sum ext fileContent in
         cachedTransform <-
           gets (fun st => default zeroFileTransformResult (TransformCache st !! fileHash)) ;;
         if isCacheHit cachedTransform then
           _ <- deleteFileToTransform deepPath ;;
           ret (inl cachedTransform)
         else ret (inr (BytesReader fileContent, fileHash))) ;;
    match prepared with
    | inl cachedTransform => ret cachedTransform
    | inr (file, fileHash) =>
      match transformType with
      | AppleCodesign =>
        _ <- emit (LogSigningWithAppleCodesign deepPath) ;;
        transform <- AppleCodesignTransform (Last deepPath) file ;;
        finishTransform deepPath fileHash transform
      | GPGSign =>
        _ <- emit (LogSigningWithGPG deepPath) ;;
        transform <- GPGSignTransform (Last deepPath) file ;;
        finishTransform deepPath fileHash transform
      | MicrosoftOsslsigncode =>
        _ <- emit (LogSigningWithOsslsigncode deepPath) ;;
        transform <- MicrosoftOsslsigncodeTransform file ;;
        finishTransform deepPath fileHash transform
      | NoTransform => ret NoOpTransform
      end
    end.

(** [func TransformFile(deepPath DeepPath, file io.Reader)], with a budget
    for the depth of its recursion through nested archives. *)
Fixpoint TransformFile (fuel : nat) (deepPath : DeepPath) (file : Reader) :
    M FileTransformResult :=
  match fuel with
  | O => lift OutOfFuel
  | S fuel => TransformFile_body (TransformFile fuel) deepPath file
  end.

(** ** The checks after the walk *)

Fixpoint CheckUnsignedFiles_loop (visit : list (DeepPath * FileTransformType))
    (foundError : bool) : M bool :=
  match visit with
  | [] => ret foundError
  | (deepPath, _) :: visit =>
    _ <- emit (LogShouldHaveBeenSigned deepPath) ;;
    CheckUnsignedFiles_loop visit true
  end.

(** [func CheckUnsignedFiles() error]: [Ok tt] is the nil error. *)
Definition CheckUnsignedFiles : M unit :=
  visit <- gets (fun st => range mr (filesToTransform st)) ;;
  foundError <- CheckUnsignedFiles_loop visit false ;;
  if foundError then fail (Errorf "one or more files were not signed") else ret tt.

(** The three maps the first loop of [CheckDoubleSigning] fills. *)
Record HashTables : Type := mkHashTables {
  sourceToDestinationHashes : gmap SHA256Hash (gmap SHA256Hash bool);
  sourceHashToPaths : gmap SHA256Hash (list DeepPath);
  destinationHashToPaths : gmap SHA256Hash (list DeepPath);
}.

Definition emptyHashTables : HashTables := mkHashTables ∅ ∅ ∅.

(** One turn of the first loop, for [path, sourceHash]. *)
Definition recordHashes (destinationDirHashes : gmap DeepPath SHA256Hash)
    (t : HashTables) (entry : DeepPath * SHA256Hash) : HashTables :=
  let '(path, sourceHash) := entry in
  let destinationHash := default zeroHash (destinationDirHashes !! path) in
  let s2d :=
    match sourceToDestinationHashes t !! sourceHash with
    | Some _ => sourceToDestinationHashes t
    | None => <[sourceHash := ∅]> (sourceToDestinationHashes t)
    end in
  let s2d :=
    <[sourceHash := <[destinationHash := true]> (default ∅ (s2d !! sourceHash))]> s2d in
  mkHashTables s2d
    (<[sourceHash := (default [] (sourceHashToPaths t !! sourceHash) ++ [path])%list]>
       (sourceHashToPaths t))
    (<[destinationHash :=
         (default [] (destinationHashToPaths t !! destinationHash) ++ [path])%list]>
       (destinationHashToPaths t)).

(** The closure [prettyPrintBadConversion]: its loop over
    [destinationHashes], with the local [previousPath]. *)
Fixpoint prettyPrintBadConversion_loop (destinationHashToPaths : gmap SHA256Hash (list DeepPath))
    (visit : list (SHA256Hash * bool)) (previousPath : option DeepPath) : M unit :=
  match visit with
  | [] => ret tt
  | (destinationHash, _) :: visit =>
    match default [] (destinationHashToPaths !! destinationHash) with
    | [] => lift Panic
    | path :: _ =>
      _ <- match previousPath with
           | Some previous => emit (LogDifferentHashes path previous)
           | None => ret tt
           end ;;
      prettyPrintBadConversion_loop destinationHashToPaths visit (Some path)
    end
  end.

Definition prettyPrintBadConversion (destinationHashes : gmap SHA256Hash bool)
    (destinationHashToPaths : gmap SHA256Hash (list DeepPath)) : M unit :=
  prettyPrintBadConversion_loop destinationHashToPaths (range mr destinationHashes) None.

Fixpoint CheckDoubleSigning_loop (destinationHashToPaths : gmap SHA256Hash (list DeepPath))
    (visit : list (SHA256Hash * gmap SHA256Hash bool)) (detectedBug : bool) : M bool :=
  match visit with
  | [] => ret detectedBug
  | (_, destinationHashes) :: visit =>
    if decide (1 < size destinationHashes)%nat then
      _ <- prettyPrintBadConversion destinationHashes destinationHashToPaths ;;
      CheckDoubleSigning_loop destinationHashToPaths visit true
    else CheckDoubleSigning_loop destinationHashToPaths visit detectedBug
  end.

(** [func CheckDoubleSigning(sourceDir string, destinationDir string) error]. *)
Definition CheckDoubleSigning (sourceDir destinationDir : string) : M unit :=
  sourceDirHashes <- liftSum (DeepHashDirectory ext sourceDir) ;;
  destinationDirHashes <- liftSum (DeepHashDirectory ext destinationDir) ;;
  let t := foldl (recordHashes destinationDirHashes) emptyHashTables
             (range mr sourceDirHashes) in
  detectedBug <-
    CheckDoubleSigning_loop (destinationHashToPaths t)
      (range mr (sourceToDestinationHashes t)) false ;;
  if detectedBug then fail (Errorf "bug detected in sign-release.go") else ret tt.

End Program.

(** ** A small concrete world

    Stand-ins for the collaborators, small enough to run the program on:
    two nested tar+gzip archives, two nested zip archives, signing tools
    whose output depends on the world they run in (a counter), and a deep
    hasher that knows one source and one destination tree.  They serve the
    examples and witnesses below. *)

Module Fixture.

Definition tarEntryHeader (name : string) (size : Z) : tar.Header :=
  {| tar.Typeflag := tar.TypeReg; tar.Name := name; tar.Linkname := "";
     tar.Size := size; tar.Mode := 493; tar.Uid := 0; tar.Gid := 0;
     tar.Uname := "root"; tar.Gname := "root";
     tar.ModTime := 7; tar.AccessTime := 0; tar.ChangeTime := 0;
     tar.Devmajor := 0; tar.Devminor := 0; tar.Xattrs := ∅; tar.PAXRecords := ∅;
     tar.Format := tar.FormatUSTAR |}.

Definition zipEntryHeader (name : string) (size : Z) : zip.FileHeader :=
  {| zip.Name := name; zip.Comment := ""; zip.NonUTF8 := false;
     zip.CreatorVersion := 20; zip.ReaderVersion := 20; zip.Flags := 0;
     zip.Method := 0; zip.Modified := 7; zip.ModifiedTime := 0; zip.ModifiedDate := 0;
     zip.CRC32 := 0; zip.CompressedSize := size; zip.UncompressedSize := size;
     zip.CompressedSize64 := size; zip.UncompressedSize64 := size;
     zip.Extra := []; zip.ExternalAttrs := 0 |}.

(** The archives the stand-in decoders know, by their bytes.  The inner
    archives have two encodings each, as a real archive has many (other
    compression settings, other header time stamps): the one found in the
    source tree, and the one the stand-in writers produce. *)
Definition innerTarGz : bytes := [x02].
Definition innerTarGzRewritten : bytes := [x1f; x8b; x52].
Definition outerTarGz : bytes := [x01].
Definition flatTarGz : bytes := [x03].
Definition innerZip : bytes := [x05].
Definition innerZipRewritten : bytes := [x50; x4b; x74].
Definition outerZip : bytes := [x04].
Definition flatZip : bytes := [x06].

Definition fx_targz_Read (r : Reader) : list (tar.Header * bytes) * option error :=
  match r with
  | BrokenReader e => ([], Some e)
  | BytesReader b =>
    if decide (b = outerTarGz) then ([(tarEntryHeader "inner.tar.gz" 1, innerTarGz)], None)
    else if decide (b = innerTarGz \/ b = innerTarGzRewritten) then
      ([(tarEntryHeader "README" 1, [x52])], None)
    else if decide (b = flatTarGz) then
      ([(tarEntryHeader "README" 1, [x52]); (tarEntryHeader "bin/tool" 2, [x7f; x45])], None)
    else ([], Some (ExternalError 1))
  end.

Definition fx_tar_Write (header : tar.Header) (content : bytes) : Z * option error :=
  if (int64 (len content) <=? tar.Size header)%Z then (len content, None)
  else (tar.Size header, Some (ExternalError 2)).

Definition fx_targz_Bytes (written : list (tar.Header * bytes)) : bytes :=
  x1f :: x8b :: flat_map snd written.

Definition fx_zip_NewReader (b : bytes) : error + list zip.File :=
  if decide (b = outerZip) then inr [zip.mkFile (zipEntryHeader "inner.zip" 1) innerZip]
  else if decide (b = innerZip \/ b = innerZipRewritten) then
    inr [zip.mkFile (zipEntryHeader "tool.txt" 1) [x74]]
  else if decide (b = flatZip) then
    inr [zip.mkFile (zipEntryHeader "tool.txt" 1) [x74];
         zip.mkFile (zipEntryHeader "bin/tool.exe" 2) [x4d; x5a]]
  else inl (ExternalError 3).

Definition writtenContent (w : zip.Written) : bytes :=
  match w with
  | zip.Raw _ raw => raw
  | zip.WithHeader _ content => content
  | zip.Created _ content => content
  end.

Definition fx_zip_Bytes (written : list zip.Written) : bytes :=
  x50 :: x4b :: flat_map writtenContent written.

Fixpoint lastElement (s current : string) : string :=
  match s with
  | EmptyString => current
  | String c s' =>
    if Ascii.eqb c "/"%char then lastElement s' "" else lastElement s' (current ++ String c "")
  end.

Definition fx_filepath_Base (path : string) : string := lastElement path "".

Definition fx_filepath_Dir (path : string) : string :=
  let n := (String.length path - String.length (fx_filepath_Base path))%nat in
  match n with
  | O => "."
  | S n' => String.substring 0 n' path
  end.

Definition fx_filepath_Join (dir name : string) : string :=
  if String.eqb dir "." then name else dir ++ "/" ++ name.

(** Signing tools: the output carries the tick of the world they ran in. *)
Definition fx_codesign (name : string) (content : bytes) (w : nat) : nat * (error + bytes) :=
  (S w, inr (content ++ x53 :: replicate w x2e)%list).

Definition fx_gpg (content : bytes) (w : nat) : nat * (error + bytes) :=
  (S w, inr (x2d :: replicate w x2e)).

Definition fx_osslsigncode (content : bytes) (w : nat) : nat * (error + bytes) :=
  (S w, inr (content ++ x4f :: replicate w x2e)%list).

Definition fx_sha256_Sum (b : bytes) : SHA256Hash := take 32 (b ++ zeroHash).

(** Three source files with the same content; in the destination tree the
    first two agree and the third differs. *)
Definition sourceHashes : gmap DeepPath SHA256Hash :=
  list_to_map [(NewDeepPath "a.exe", fx_sha256_Sum [x01]);
               (NewDeepPath "b.exe", fx_sha256_Sum [x01]);
               (NewDeepPath "c.exe", fx_sha256_Sum [x01])].

Definition destinationHashes : gmap DeepPath SHA256Hash :=
  list_to_map [(NewDeepPath "a.exe", fx_sha256_Sum [x0a]);
               (NewDeepPath "b.exe", fx_sha256_Sum [x0a]);
               (NewDeepPath "c.exe", fx_sha256_Sum [x0b])].

Definition fx_DeepHashDirectory (dir : string) : error + gmap DeepPath SHA256Hash :=
  if String.eqb dir "source" then inr sourceHashes
  else if String.eqb dir "destination" then inr destinationHashes
  else inl (ExternalError 4).

Definition ext : Externals nat :=
  {| ProgramStartTime := 1000;
     sha256_Sum := fx_sha256_Sum;
     filepath_Base := fx_filepath_Base;
     filepath_Dir := fx_filepath_Dir;
     filepath_Join := fx_filepath_Join;
     targz_Read := fx_targz_Read;
     tar_WriteHeader := fun _ => None;
     tar_Write := fx_tar_Write;
     targz_Bytes := fx_targz_Bytes;
     zip_NewReader := fx_zip_NewReader;
     zip_Open := fun f => inr (BytesReader (zip.body f));
     zip_OpenRaw := fun f => inr (zip.body f);
     zip_CreateRaw := fun _ => None;
     zip_CreateHeader := fun _ => None;
     zip_Create := fun _ => None;
     zip_Bytes := fx_zip_Bytes;
     codesign := fx_codesign;
     gpg := fx_gpg;
     osslsigncode := fx_osslsigncode;
     DeepHashDirectory := fx_DeepHashDirectory |}.

(** The enumeration stdpp gives is one admissible visiting order. *)
Definition mr : MapRange :=
  {| range := fun K _ _ V m => map_to_list m;
     range_Permutation := fun K _ _ V m => reflexivity (map_to_list m) |}.

End Fixture.

(** ** Specifications of calls

    [triple I R E m Q]: run from a state satisfying [I], a call [m] that
    returns [a] leaves a state satisfying [I], related to the first by [R],
    and [Q a] holds; a call that ends otherwise (an error, [log.Fatal], a
    panic, the budget spent) leaves a state related to the first by [E]. *)
Definition triple {World A} (I : State World -> Prop) (R E : State World -> State World -> Prop)
    (m : M A) (Q : A -> Prop) : Prop :=
  forall st, I st ->
    match m st with
    | (st', Ok a) => I st' /\ R st st' /\ Q a
    | (st', _) => E st st'
    end.

(** A path the dispatcher treats as a leaf file, not as an archive. *)
Definition looksLikeArchive (deepPath : DeepPath) : bool :=
  PathLooksLikeTarGz (Last deepPath) || PathLooksLikeZip (Last deepPath).

(** ** Copying a file of the source tree *)

(** What [CopyFileOrTransformArchive] asks of its [fs.FileInfo]:
    [Mode().IsRegular()], [Mode().Perm()] and [ModTime()]. *)
Record FileInfo : Type := mkFileInfo {
  IsRegular : bool;
  Perm : Z;
  FileInfo_ModTime : Time;
}.

(** The file system as [CopyFileOrTransformArchive] reaches it.  A call is
    made in a world and leaves a new one; an open file is named by the path
    it was opened at. *)
Record FileSystem (World : Type) : Type := mkFileSystem {
  (** [os.Open]: the error, or the file as a reader of its content. *)
  os_Open : string -> World -> World * (error + Reader);
  (** [os.OpenFile(path, os.O_WRONLY|os.O_CREATE|os.O_TRUNC, perm)]. *)
  os_OpenFile : string -> Z -> World -> World * option error;
  (** Bytes written to the open file: [File.Write], and the writes of
      [io.Copy]. *)
  File_Write : string -> bytes -> World -> World * option error;
  (** [File.Close]; the program drops its error. *)
  File_Close : string -> World -> World;
  (** [os.Chtimes(path, atime, mtime)]. *)
  os_Chtimes : string -> Time -> Time -> World -> World * option error;
  (** [os.Remove]; the program drops its error. *)
  os_Remove : string -> World -> World;
  (** The verb [%q] of [fmt.Errorf]. *)
  strconv_Quote : string -> string;
}.

Arguments os_Open {World} _ _ _.
Arguments os_OpenFile {World} _ _ _ _.
Arguments File_Write {World} _ _ _ _.
Arguments File_Close {World} _ _ _.
Arguments os_Chtimes {World} _ _ _ _ _.
Arguments os_Remove {World} _ _ _.
Arguments strconv_Quote {World} _ _.

(** The state with another world. *)
Definition withWorld {World} (st : State World) (w : World) : State World :=
  mkState (filesToTransform st) (TransformCache st) w (events st).

Section CopyFile.

Context {World : Type}.
Variable ext : Externals World.
Variable fs : FileSystem World.

(** A file system call that may fail, made in the current world. *)
Definition fsCall (call : World -> World * option error) :
    State World -> State World * option error :=
  fun st => let '(w, err) := call (world st) in (withWorld st w, err).

(** [io.Copy(destinationFile, sourceFile)]: what [sourceFile] still has to
    deliver is read, and written to the destination (the writes taken as
    one); a source at its end leads to no write. *)
Definition io_Copy (destinationPath : string) (sourceFile : Reader) :
    World -> World * option error :=
  match sourceFile with
  | BrokenReader e => fun w => (w, Some e)
  | BytesReader [] => fun w => (w, None)
  | BytesReader content => File_Write fs destinationPath content
  end.

(** What [sourceFile] still has to deliver when [TransformFile] has
    returned a result without replacement bytes.  Both rebuilders return
    replacement bytes, so the call has gone through the registry look-up
    at [deepPath]; there it has read the file to its end with [io.ReadAll],
    unless the operation it found was [NoTransform] ([st] is the state the
    call started in). *)
Definition unreadSourceFile (deepPath : DeepPath) (sourceFile : Reader) (st : State World) :
    Reader :=
  if decide (default NoTransform (filesToTransform st !! deepPath) = NoTransform)
  then sourceFile
  else BytesReader [].

(** [CopyFileOrTransformArchive] from the call of [TransformFile] on: the
    state it leaves, the local [fileComplete], and how it ends. *)
Definition copyOrTransform (fuel : nat) (deepPath : DeepPath) (sourceFile : Reader)
    (destinationPath : string) (sourceInfo : FileInfo) :
    State World -> State World * bool * Outcome unit :=
  fun st =>
  match TransformFile ext fuel deepPath sourceFile st with
  | (st1, Ok transformResult) =>
    let '(st2, fileComplete, err) :=
      match newFile transformResult with
      | None =>
        match fsCall (io_Copy destinationPath (unreadSourceFile deepPath sourceFile st)) st1
        with
        | (st2, Some e) => (st2, false, Some e)
        | (st2, None) =>
          match fsCall (os_Chtimes fs destinationPath (FileInfo_ModTime sourceInfo)
                          (FileInfo_ModTime sourceInfo)) st2 with
          | (st3, Some e) => (st3, false, Some e)
          | (st3, None) => (st3, true, None)
          end
        end
      | Some newFileContent =>
        match fsCall (File_Write fs destinationPath newFileContent) st1 with
        | (st2, Some e) => (st2, false, Some e)
        | (st2, None) => (st2, true, None)
        end
      end in
    match err with
    | Some e => (st2, fileComplete, Err e)
    | None =>
      match siblingFile transformResult with
      | Some _ => (st2, fileComplete, Panic)
      | None => (st2, fileComplete, Ok tt)
      end
    end
  | (st1, Err e) => (st1, false, Err e)
  | (st1, Fatal) => (st1, false, Fatal)
  | (st1, Panic) => (st1, false, Panic)
  | (st1, OutOfFuel) => (st1, false, OutOfFuel)
  end.

(** Whether the deferred calls run: they do when the function returns or
    panics, not when [log.Fatal] has ended the process. *)
Definition deferredCallsRun {A} (o : Outcome A) : bool :=
  match o with
  | Ok _ | Err _ | Panic => true
  | Fatal | OutOfFuel => false
  end.

(** [func CopyFileOrTransformArchive(deepPath DeepPath, sourcePath string,
    destinationPath string, sourceInfo fs.FileInfo) error].  The deferred
    calls run last, in reverse order: the closure that closes the
    destination and removes it unless [fileComplete], then
    [sourceFile.Close()]. *)
Definition CopyFileOrTransformArchive (fuel : nat) (deepPath : DeepPath)
    (sourcePath destinationPath : string) (sourceInfo : FileInfo) : M unit :=
  fun st =>
  if negb (IsRegular sourceInfo) then
    (st, Err (Errorf ("expected regular file: " ++ strconv_Quote fs sourcePath)))
  else
    match os_Open fs sourcePath (world st) with
    | (w, inl e) => (withWorld st w, Err e)
    | (w, inr sourceFile) =>
      let st := withWorld st w in
      let '(st, o) :=
        match fsCall (os_OpenFile fs destinationPath (Perm sourceInfo)) st with
        | (st, Some e) => (st, Err e)
        | (st, None) =>
          let '(st, fileComplete, o) :=
            copyOrTransform fuel deepPath sourceFile destinationPath sourceInfo st in
          if deferredCallsRun o then
            let w := File_Close fs destinationPath (world st) in
            let w := if fileComplete then w else os_Remove fs destinationPath w in
            (withWorld st w, o)
          else (st, o)
        end in
      if deferredCallsRun o then (withWorld st (File_Close fs sourcePath (world st)), o)
      else (st, o)
    end.

End CopyFile.

(** A file system for the examples: every call succeeds and ticks the
    world; [source/flat.tar.gz] is the fixture's flat archive, every other
    file holds one byte. *)
Definition fixtureFileSystem : FileSystem nat :=
  {| os_Open := fun path w =>
       (S w, inr (BytesReader (if String.eqb path "source/flat.tar.gz"
                               then Fixture.flatTarGz else [x52])));
     os_OpenFile := fun _ _ w => (S w, None);
     File_Write := fun _ _ w => (S w, None);
     File_Close := fun _ w => S w;
     os_Chtimes := fun _ _ _ w => (S w, None);
     os_Remove := fun _ w => S w;
     strconv_Quote := fun s => String (ascii_of_nat 34) (s ++ String (ascii_of_nat 34) "") |}.

(** ** Vocabulary of the statements *)

(** The shapes a [FileTransformResult] can have. *)
Definition isUnchanged (r : FileTransformResult) : Prop :=
  newFile r = None /\ siblingFile r = None.
Definition isReplace (r : FileTransformResult) : Prop :=
  newFile r <> None /\ siblingFile r = None.
Definition isAddSibling (r : FileTransformResult) : Prop :=
  newFile r = None /\ siblingFile r <> None.
Definition isReplaceAndAddSibling (r : FileTransformResult) : Prop :=
  newFile r <> None /\ siblingFile r <> None.

(** The registry maps the path to a real signing operation. *)
Definition registeredForSigning {World} (st : State World) (deepPath : DeepPath) : Prop :=
  exists transformType,
    filesToTransform st !! deepPath = Some transformType /\ transformType <> NoTransform.

Section LeafOutcome.

Context {World : Type}.
Variable ext : Externals World.

(** The tool behind each signing operation, the result its transform
    builds from the tool's output, and the line logged before it runs. *)
Definition signerTool (transformType : FileTransformType) (originalPath : string)
    (content : bytes) : World -> World * (error + bytes) :=
  match transformType with
  | AppleCodesign => codesign ext (filepath_Base ext originalPath) content
  | GPGSign => gpg ext content
  | MicrosoftOsslsigncode => osslsigncode ext content
  | NoTransform => fun w => (w, inr [])
  end.

Definition signerResult (transformType : FileTransformType) (originalPath : string)
    (output : bytes) : FileTransformResult :=
  match transformType with
  | AppleCodesign | MicrosoftOsslsigncode =>
    {| newFile := Some output; siblingFile := None; siblingFileName := "" |}
  | GPGSign =>
    {| newFile := None; siblingFile := Some output;
       siblingFileName := filepath_Base ext originalPath ++ ".asc" |}
  | NoTransform => NoOpTransform
  end.

Definition signingLogLine (transformType : FileTransformType) (deepPath : DeepPath) : Event :=
  match transformType with
  | AppleCodesign => LogSigningWithAppleCodesign deepPath
  | GPGSign => LogSigningWithGPG deepPath
  | _ => LogSigningWithOsslsigncode deepPath
  end.

(** What [TransformFile] does on a path without an archive suffix. *)
Definition leafOutcome (deepPath : DeepPath) (file : Reader) (st : State World) :
    State World * Outcome FileTransformResult :=
  let transformType := default NoTransform (filesToTransform st !! deepPath) in
  if decide (transformType = NoTransform) then (st, Ok NoOpTransform)
  else
    match file with
    | BrokenReader e => (st, Err e)
    | BytesReader content =>
      let fileHash := sha256_Sum ext content in
      let cached := default zeroFileTransformResult (TransformCache st !! fileHash) in
      if isCacheHit cached then
        (mkState (delete deepPath (filesToTransform st)) (TransformCache st) (world st)
           (events st), Ok cached)
      else
        let evs :=
          (events st ++ [signingLogLine transformType deepPath;
                         SignerRun transformType content])%list in
        match signerTool transformType (Last deepPath) content (world st) with
        | (w, inl e) => (mkState (filesToTransform st) (TransformCache st) w evs, Err e)
        | (w, inr output) =>
          let transform := signerResult transformType (Last deepPath) output in
          (mkState (delete deepPath (filesToTransform st))
             (<[fileHash := transform]> (TransformCache st)) w evs, Ok transform)
        end
    end.

End LeafOutcome.

(** [walk ext st st']: from [st], a sequence of calls of [TransformFile]
    that all returned without error leads to [st'].  This is how [main]
    drives the dispatcher: one call per file of the source tree, and any
    error ends the run. *)
Inductive walk {World} (ext : Externals World) : State World -> State World -> Prop :=
  | walk_done st : walk ext st st
  | walk_call st fuel deepPath file st1 r st2 :
      TransformFile ext fuel deepPath file st = (st1, Ok r) ->
      walk ext st1 st2 ->
      walk ext st st2.

(** Every entry of the cache replaces the file or adds a sibling. *)
Definition cacheHoldsSignerOutputs {World} (st : State World) : Prop :=
  forall fileHash r,
    TransformCache st !! fileHash = Some r -> isReplace r \/ isAddSibling r.

Definition anyStates {World} (st st' : State World) : Prop := True.

Definition anyState {World} (st : State World) : Prop := True.

Definition cacheStaysSigned {World} (st st' : State World) : Prop :=
  cacheHoldsSignerOutputs st -> cacheHoldsSignerOutputs st'.

(** The registry has lost entries at most. *)
Definition registryShrinks {World} (st st' : State World) : Prop :=
  filesToTransform st' ⊆ filesToTransform st.

(** The results the operations of the program produce: the literal of
    [NoOpTransform], what the three signer transforms and the two
    rebuilders return, and what [TransformFile] returns in a run that
    started from the initial state. *)
Inductive produced {World} (ext : Externals World) : FileTransformResult -> Prop :=
  | produced_NoOpTransform : produced ext NoOpTransform
  | produced_AppleCodesignTransform originalPath exe st st' r :
      AppleCodesignTransform ext originalPath exe st = (st', Ok r) -> produced ext r
  | produced_GPGSignTransform originalPath exe st st' r :
      GPGSignTransform ext originalPath exe st = (st', Ok r) -> produced ext r
  | produced_MicrosoftOsslsigncodeTransform exe st st' r :
      MicrosoftOsslsigncodeTransform ext exe st = (st', Ok r) -> produced ext r
  | produced_TransformTarGz rec deepPath file st st' r :
      TransformTarGz ext rec deepPath file st = (st', Ok r) -> produced ext r
  | produced_TransformZip rec deepPath content st st' r :
      TransformZip ext rec deepPath content st = (st', Ok r) -> produced ext r
  | produced_TransformFile w st fuel deepPath file st' r :
      walk ext (initialState w) st ->
      TransformFile ext fuel deepPath file st = (st', Ok r) -> produced ext r.

Definition exactlyOneOf (A B C : Prop) : Prop :=
  (A /\ ~ B /\ ~ C) \/ (~ A /\ B /\ ~ C) \/ (~ A /\ ~ B /\ C).

(** The first file of the fixture run: the Linux binary inside
    [manual/linux.tar.gz], registered for a detached GPG signature. *)
Definition linuxBinary : DeepPath :=
  NewDeepPath2 "manual/linux.tar.gz" "quick-lint-js/bin/quick-lint-js".

Definition linuxArmhfBinary : DeepPath :=
  NewDeepPath2 "manual/linux-armhf.tar.gz" "quick-lint-js/bin/quick-lint-js".

(** The state after the fixture run has signed [linuxBinary], holding the
    bytes [[x7f]]. *)
Definition stateAfterFirstSigning : State nat :=
  (TransformFile Fixture.ext 1 linuxBinary (BytesReader [x7f]) (initialState 0%nat)).1.

Definition detachedSignature : FileTransformResult :=
  {| newFile := None; siblingFile := Some [x2d]; siblingFileName := "quick-lint-js.asc" |}.

(** The digest of the content a signing tool was run on. *)
Definition signerRunDigest {World} (ext : Externals World) (ev : Event) : option SHA256Hash :=
  match ev with
  | SignerRun _ content => Some (sha256_Sum ext content)
  | _ => None
  end.

(** The digests of all runs of signing tools, oldest first. *)
Definition signerRunDigests {World} (ext : Externals World) (evs : list Event) :
    list SHA256Hash :=
  omap (signerRunDigest ext) evs.

(** Every entry that the cache-hit test accepts is still there, unchanged. *)
Definition cachePersists {World} (st st' : State World) : Prop :=
  forall fileHash r,
    TransformCache st !! fileHash = Some r -> isCacheHit r = true ->
    TransformCache st' !! fileHash = Some r.

(** No digest was handed to a signing tool twice, and every digest that
    was is a hit in the cache. *)
Definition signedOncePerDigest {World} (ext : Externals World) (st : State World) : Prop :=
  NoDup (signerRunDigests ext (events st))
  /\ forall fileHash, fileHash ∈ signerRunDigests ext (events st) ->
       isCacheHit (default zeroFileTransformResult (TransformCache st !! fileHash)) = true.

Definition noDigestSignedTwice {World} (ext : Externals World) (st st' : State World) : Prop :=
  NoDup (signerRunDigests ext (events st')).

(** The path a "signing with ..." log line names. *)
Definition signingLogPath (ev : Event) : option DeepPath :=
  match ev with
  | LogSigningWithAppleCodesign deepPath => Some deepPath
  | LogSigningWithGPG deepPath => Some deepPath
  | LogSigningWithOsslsigncode deepPath => Some deepPath
  | _ => None
  end.

(** Between two states, no registry entry of an archive-looking path was
    touched and no signing of an archive-looking path was logged. *)
Definition archivesUntouched {World} (st st' : State World) : Prop :=
  (forall deepPath, looksLikeArchive deepPath = true ->
     filesToTransform st' !! deepPath = filesToTransform st !! deepPath)
  /\ exists evs,
       events st' = (events st ++ evs)%list
       /\ forall ev deepPath,
            ev ∈ evs -> signingLogPath ev = Some deepPath -> looksLikeArchive deepPath = false.

(** A registry that holds the fixture's [outer.tar.gz], registered (against
    the program's design) for GPG signing. *)
Definition registeredArchive : State nat :=
  mkState {[NewDeepPath "outer.tar.gz" := GPGSign]} ∅ 0%nat [].

(** A tar entry that the rebuilder has to pass through: its declared
    size is the size of its content, the tar writer takes the header and
    the content back, and the entry's Deep Path is neither an archive by
    its name nor in the registry. *)
Definition plainTarEntry {World} (ext : Externals World) (st : State World)
    (tarGzDeepPath : DeepPath) (entry : tar.Header * bytes) : Prop :=
  int64 (len entry.2) = tar.Size entry.1
  /\ tar_WriteHeader ext entry.1 = None
  /\ (exists bytesWritten,
        tar_Write ext entry.1 entry.2 = (bytesWritten, None)
        /\ int64 bytesWritten = tar.Size entry.1)
  /\ exists deepPath,
       (Append tarGzDeepPath (tar.Name entry.1)).2 = Ok deepPath
       /\ looksLikeArchive deepPath = false
       /\ filesToTransform st !! deepPath = None.

(** The same for a zip entry: it can be opened, its raw bytes can be
    read, and the zip writer takes its header back. *)
Definition plainZipEntry {World} (ext : Externals World) (st : State World)
    (zipDeepPath : DeepPath) (zipEntry : zip.File) : Prop :=
  (exists zipEntryFile, zip_Open ext zipEntry = inr zipEntryFile)
  /\ (exists raw, zip_OpenRaw ext zipEntry = inr raw)
  /\ zip_CreateRaw ext (zip.Header zipEntry) = None
  /\ exists deepPath,
       (Append zipDeepPath (zip.Name (zip.Header zipEntry))).2 = Ok deepPath
       /\ looksLikeArchive deepPath = false
       /\ filesToTransform st !! deepPath = None.

(** The raw copy of a zip entry: its header and its stored bytes. *)
Definition rawCopy {World} (ext : Externals World) (zipEntry : zip.File) : zip.Written :=
  zip.Raw (zip.Header zipEntry)
    (match zip_OpenRaw ext zipEntry with inr raw => raw | inl _ => [] end).

(** The replace result that carries [b]. *)
Definition replaceWith (b : bytes) : FileTransformResult :=
  {| newFile := Some b; siblingFile := None; siblingFileName := "" |}.

(** The tar writer takes an entry: [WriteHeader] succeeds and [Write]
    writes as many bytes as the header declares. *)
Definition tarWriterTakes {World} (ext : Externals World) (header : tar.Header)
    (content : bytes) : Prop :=
  tar_WriteHeader ext header = None
  /\ exists bytesWritten,
       tar_Write ext header content = (bytesWritten, None)
       /\ int64 bytesWritten = tar.Size header.





(** The header an entry is written under. *)
Definition writtenName (written : zip.Written) : string :=
  match written with
  | zip.Raw header _ => zip.Name header
  | zip.WithHeader header _ => zip.Name header
  | zip.Created name _ => name
  end.


Section PassesThrough.

Context {World : Type}.
Variable ext : Externals World.
Variable st : State World.


End PassesThrough.

(** A state in which nothing is registered and nothing is cached. *)
Definition nothingRegistered : State nat := mkState ∅ ∅ 0%nat [].

(** The destination digest the check pairs with a source path: the entry of
    the destination tree's hash map, or the zero digest Go's map look-up
    yields when the path is missing there. *)
Definition destinationHashOf (destinationDirHashes : gmap DeepPath SHA256Hash)
    (path : DeepPath) : SHA256Hash :=
  default zeroHash (destinationDirHashes !! path).

(** Two source paths have the same source digest and different
    destination digests. *)
Definition violatingPair (sourceDirHashes destinationDirHashes : gmap DeepPath SHA256Hash)
    (sourceHash : SHA256Hash) (path1 path2 : DeepPath) : Prop :=
  sourceDirHashes !! path1 = Some sourceHash
  /\ sourceDirHashes !! path2 = Some sourceHash
  /\ destinationHashOf destinationDirHashes path1
     <> destinationHashOf destinationDirHashes path2.

Definition doubleSigned (sourceDirHashes destinationDirHashes : gmap DeepPath SHA256Hash) :
    Prop :=
  exists sourceHash path1 path2,
    violatingPair sourceDirHashes destinationDirHashes sourceHash path1 path2.

(** The lines [prettyPrintBadConversion] logs when its loop meets the
    given paths in turn. *)
Fixpoint badConversionLines (paths : list DeepPath) (previousPath : option DeepPath) :
    list Event :=
  match paths with
  | [] => []
  | path :: paths =>
    (match previousPath with
     | Some previous => [LogDifferentHashes path previous]
     | None => []
     end ++ badConversionLines paths (Some path))%list
  end.

(** [destinationHashToPaths[destinationHash][0]]. *)
Definition representative (destinationHashToPaths : gmap SHA256Hash (list DeepPath))
    (destinationHash : SHA256Hash) : DeepPath :=
  default (NewDeepPath "") (head (default [] (destinationHashToPaths !! destinationHash))).

(** A state with more events logged. *)
Definition withEvents {World} (st : State World) (evs : list Event) : State World :=
  mkState (filesToTransform st) (TransformCache st) (world st) (events st ++ evs)%list.

(** What a logged pair of paths has to do with a source digest: both paths
    were hashed in the source tree, their destination digests differ, and
    each of the two destination digests is the destination digest of a
    file with that source digest. *)
Definition reportedFor (sourceDirHashes destinationDirHashes : gmap DeepPath SHA256Hash)
    (sourceHash : SHA256Hash) (path previousPath : DeepPath) : Prop :=
  is_Some (sourceDirHashes !! path) /\ is_Some (sourceDirHashes !! previousPath)
  /\ destinationHashOf destinationDirHashes path
     <> destinationHashOf destinationDirHashes previousPath
  /\ (exists path1, sourceDirHashes !! path1 = Some sourceHash
        /\ destinationHashOf destinationDirHashes path1
           = destinationHashOf destinationDirHashes path)
  /\ (exists path2, sourceDirHashes !! path2 = Some sourceHash
        /\ destinationHashOf destinationDirHashes path2
           = destinationHashOf destinationDirHashes previousPath).

(** The lines the second loop of [CheckDoubleSigning] logs for one group. *)
Definition groupLines (mr : MapRange) (destinationHashToPaths : gmap SHA256Hash (list DeepPath))
    (group : SHA256Hash * gmap SHA256Hash bool) : list Event :=
  if decide (1 < size group.2)%nat
  then badConversionLines
         (representative destinationHashToPaths <$> (range mr group.2).*1) None
  else [].

#[global] Instance Event_eq_dec : EqDecision Event.
Proof. solve_decision. Defined.

(** ** Vocabulary of the further properties *)

(** No filled cell of the Deep Path follows an empty one: the Deep Paths
    that [NewDeepPath] and [Append] build from non-empty segments. *)
Definition contiguous (p : DeepPath) : Prop :=
  (parts0 p = "" -> parts1 p = "") /\ (parts1 p = "" -> parts2 p = "").

(** The registry has lost entries at most, and the cache has gained
    entries at most. *)
Definition registryShrinksCacheGrows {World} (st st' : State World) : Prop :=
  filesToTransform st' ⊆ filesToTransform st /\ TransformCache st ⊆ TransformCache st'.

(** The tar writer takes what the rebuilder hands it for an entry whose
    dispatch returned [r]: the entry under its updated header, and the
    sibling entry if [r] carries one. *)
Definition tarWriterTakesResult {World} (ext : Externals World) (header : tar.Header)
    (content : bytes) (r : FileTransformResult) : Prop :=
  tarWriterTakes ext (UpdateTarHeader ext r header) (default content (newFile r))
  /\ forall sibling,
       siblingFile r = Some sibling ->
       tarWriterTakes ext (siblingTarHeader ext (UpdateTarHeader ext r header) r sibling)
         sibling.

(** The same for the zip writer: [CreateRaw] or [CreateHeader] of the
    updated header, and [Create] of the sibling. *)
Definition zipWriterTakesResult {World} (ext : Externals World) (zipEntry : zip.File)
    (r : FileTransformResult) : Prop :=
  match newFile r with
  | None => zip_CreateRaw ext (UpdateZipHeader ext r (zip.Header zipEntry)) = None
  | Some _ => zip_CreateHeader ext (UpdateZipHeader ext r (zip.Header zipEntry)) = None
  end
  /\ forall sibling,
       siblingFile r = Some sibling ->
       zip_Create ext
         (filepath_Join ext (filepath_Dir ext (zip.Name (zip.Header zipEntry)))
            (siblingFileName r)) = None.

(** What signing leaves in the log: for every file handed to a tool, the
    line that announces it and the run of the tool. *)
Definition signingsOf (signings : list (DeepPath * FileTransformType * bytes)) : list Event :=
  flat_map (fun s => [signingLogLine s.1.2 s.1.1; SignerRun s.1.2 s.2]) signings.

(** Between two states, the registry has lost entries at most, and the
    events have grown by signings of paths that the first registry holds,
    each with the operation the registry names for it. *)
Definition signsRegisteredOnly {World} (st st' : State World) : Prop :=
  filesToTransform st' ⊆ filesToTransform st
  /\ exists signings,
       events st' = (events st ++ signingsOf signings)%list
       /\ Forall (fun s => filesToTransform st !! s.1.1 = Some s.1.2 /\ s.1.2 <> NoTransform)
            signings.

(** The number of cells of a Deep Path in use, for one without gaps. *)
Definition filled (p : DeepPath) : nat :=
  match firstUnused p with
  | Some i => i
  | None => 3
  end.

(** The archive readers deliver no entry with an empty name. *)
Definition entriesAreNamed {World} (ext : Externals World) : Prop :=
  (forall file entries ending,
     targz_Read ext file = (entries, ending) ->
     Forall (fun entry => tar.Name entry.1 <> "") entries)
  /\ (forall content files,
        zip_NewReader ext content = inr files ->
        Forall (fun zipEntry => zip.Name (zip.Header zipEntry) <> "") files).

(** The Windows binary inside [manual/windows.zip], registered for
    osslsigncode. *)
Definition windowsBinary : DeepPath :=
  NewDeepPath2 "manual/windows.zip" "bin/quick-lint-js.exe".

(** The runs of signing tools among the events, oldest first: the
    operation, and the content handed to the tool. *)
Definition toolRuns (evs : list Event) : list (FileTransformType * bytes) :=
  omap (fun ev => match ev with
                  | SignerRun transformType content => Some (transformType, content)
                  | _ => None
                  end) evs.

(** ** Reasoning about calls *)

Section Triples.

Context {World : Type}.
Variable ext : Externals World.
Variable I : State World -> Prop.
Variables R E : State World -> State World -> Prop.
Hypothesis R_refl : forall st, R st st.
Hypothesis R_trans : forall a b c, R a b -> R b c -> R a c.
Hypothesis E_refl : forall st, I st -> E st st.
Hypothesis R_E : forall a b c, R a b -> E b c -> E a c.

Local Abbreviation triple := (triple I R E).

Lemma triple_ret {A} (a : A) (Q : A -> Prop) : Q a -> triple (ret a) Q.
Proof. intros HQ st HI. cbn. auto. Qed.

Lemma triple_fail {A} (e : error) (Q : A -> Prop) : triple (fail e) Q.
Proof. intros st HI. cbn. auto. Qed.

Lemma triple_lift {A} (o : Outcome A) (Q : A -> Prop) :
  (forall a, o = Ok a -> Q a) -> triple (lift o) Q.
Proof. intros HQ st HI. unfold lift. destruct o; auto. Qed.

Lemma triple_bind {A B} (m : M A) (k : A -> M B) (Q1 : A -> Prop) (Q2 : B -> Prop) :
  triple m Q1 -> (forall a, Q1 a -> triple (k a) Q2) -> triple (bind m k) Q2.
Proof.
  intros Hm Hk st HI. unfold bind.
  specialize (Hm st HI). destruct (m st) as [st1 [a| | | |]]; auto.
  destruct Hm as (HI1 & HR1 & HQ1).
  specialize (Hk a HQ1 st1 HI1).
  destruct (k a st1) as [st2 [b| | | |]]; eauto.
  destruct Hk as (HI2 & HR2 & HQ2). eauto.
Qed.

Lemma triple_weaken {A} (m : M A) (Q1 Q2 : A -> Prop) :
  triple m Q1 -> (forall a, Q1 a -> Q2 a) -> triple m Q2.
Proof.
  intros Hm HQ st HI. specialize (Hm st HI).
  destruct (m st) as [st1 [a| | | |]]; auto.
  destruct Hm as (? & ? & ?). auto.
Qed.

(** A call that does not touch the state. *)
Lemma triple_pure {A} (m : M A) (Q : A -> Prop) :
  (forall st, (m st).1 = st) -> (forall st a, (m st).2 = Ok a -> Q a) -> triple m Q.
Proof.
  intros Hst HQ st HI. specialize (Hst st). specialize (HQ st).
  destruct (m st) as [st1 [a| | | |]]; cbn in *; subst; auto.
Qed.

Lemma liftSum_pure {A} (r : error + A) (st : State World) : (liftSum r st).1 = st.
Proof. by destruct r. Qed.

Lemma liftErr_pure (r : option error) (st : State World) : (liftErr r st).1 = st.
Proof. by destruct r. Qed.

Lemma WriteTarEntry_pure header fileContent (st : State World) :
  (WriteTarEntry ext header fileContent st).1 = st.
Proof.
  unfold WriteTarEntry. destruct (tar_WriteHeader ext header); [done|].
  destruct (tar_Write ext header fileContent) as [n [e|]]; [done|].
  by case_decide.
Qed.

Section Rebuilders.

Variable rec : DeepPath -> Reader -> @M World FileTransformResult.
Variable Q : FileTransformResult -> Prop.
Hypothesis rec_triple : forall deepPath file, triple (rec deepPath file) Q.

Lemma TransformTarGzEntry_triple tarGzDeepPath entry :
  triple (TransformTarGzEntry ext rec tarGzDeepPath entry) (fun _ => True).
Proof.
  destruct entry as [header fileContent]. unfold TransformTarGzEntry.
  case_decide; [|apply triple_fail].
  eapply triple_bind; [apply triple_lift with (Q := fun _ => True); done|].
  intros deepPath _. eapply triple_bind; [apply rec_triple|].
  intros transformResult _.
  eapply triple_bind;
    [apply triple_pure with (Q := fun _ => True); [apply WriteTarEntry_pure|done]|].
  intros _ _. destruct (siblingFile transformResult); [|by apply triple_ret].
  eapply triple_bind;
    [apply triple_pure with (Q := fun _ => True); [apply WriteTarEntry_pure|done]|].
  intros _ _. by apply triple_ret.
Qed.

Lemma TransformTarGzEntries_triple tarGzDeepPath entries ending :
  triple (TransformTarGzEntries ext rec tarGzDeepPath entries ending) (fun _ => True).
Proof.
  induction entries as [|entry entries IH]; cbn.
  - destruct ending; [apply triple_fail|by apply triple_ret].
  - eapply triple_bind; [apply TransformTarGzEntry_triple|].
    intros written _. eapply triple_bind; [apply IH|].
    intros more _. by apply triple_ret.
Qed.

Lemma TransformTarGz_triple tarGzDeepPath sourceFile :
  (forall b, Q {| newFile := Some b; siblingFile := None; siblingFileName := "" |}) ->
  triple (TransformTarGz ext rec tarGzDeepPath sourceFile) Q.
Proof.
  intros HQ. unfold TransformTarGz, TransformTarGzToFile.
  destruct (targz_Read ext sourceFile) as [entries ending].
  eapply triple_bind; [apply TransformTarGzEntries_triple|].
  intros written _. apply triple_ret, HQ.
Qed.

Lemma TransformZipEntry_triple zipDeepPath zipEntry :
  triple (TransformZipEntry ext rec zipDeepPath zipEntry) (fun _ => True).
Proof.
  unfold TransformZipEntry.
  eapply triple_bind;
    [apply triple_pure with (Q := fun _ => True); [apply liftSum_pure|done]|].
  intros zipEntryFile _.
  eapply triple_bind; [apply triple_lift with (Q := fun _ => True); done|].
  intros deepPath _. eapply triple_bind; [apply rec_triple|].
  intros transformResult _.
  eapply triple_bind with (Q1 := fun _ => True).
  - destruct (newFile transformResult).
    + eapply triple_bind;
        [apply triple_pure with (Q := fun _ => True); [apply liftErr_pure|done]|].
      intros _ _. by apply triple_ret.
    + eapply triple_bind;
        [apply triple_pure with (Q := fun _ => True); [apply liftSum_pure|done]|].
      intros raw _.
      eapply triple_bind;
        [apply triple_pure with (Q := fun _ => True); [apply liftErr_pure|done]|].
      intros _ _. by apply triple_ret.
  - intros first _. destruct (siblingFile transformResult); [|by apply triple_ret].
    eapply triple_bind;
      [apply triple_pure with (Q := fun _ => True); [apply liftErr_pure|done]|].
    intros _ _. by apply triple_ret.
Qed.

Lemma TransformZipEntries_triple zipDeepPath files :
  triple (TransformZipEntries ext rec zipDeepPath files) (fun _ => True).
Proof.
  induction files as [|zipEntry files IH]; cbn.
  - by apply triple_ret.
  - eapply triple_bind; [apply TransformZipEntry_triple|].
    intros written _. eapply triple_bind; [apply IH|].
    intros more _. by apply triple_ret.
Qed.

Lemma TransformZip_triple zipDeepPath sourceFile :
  (forall b, Q {| newFile := Some b; siblingFile := None; siblingFileName := "" |}) ->
  triple (TransformZip ext rec zipDeepPath sourceFile) Q.
Proof.
  intros HQ. unfold TransformZip, TransformZipToFile.
  eapply triple_bind with (Q1 := fun _ => True).
  - eapply triple_bind;
      [apply triple_pure with (Q := fun _ => True); [apply liftSum_pure|done]|].
    intros files _. apply TransformZipEntries_triple.
  - intros written _. apply triple_ret, HQ.
Qed.

End Rebuilders.

(** The dispatcher satisfies whatever its leaf case satisfies, since the
    rebuilders only pass the state along. *)
Lemma TransformFile_triple (Q : FileTransformResult -> Prop) :
  (forall b, Q {| newFile := Some b; siblingFile := None; siblingFileName := "" |}) ->
  (forall rec deepPath file, looksLikeArchive deepPath = false ->
     triple (TransformFile_body ext rec deepPath file) Q) ->
  forall fuel deepPath file, triple (TransformFile ext fuel deepPath file) Q.
Proof.
  intros HQ Hleaf. induction fuel as [|fuel IH]; intros deepPath file; cbn.
  - by apply triple_lift.
  - destruct (looksLikeArchive deepPath) eqn:Harchive; [|by apply Hleaf].
    unfold TransformFile_body. unfold looksLikeArchive in Harchive.
    destruct (PathLooksLikeTarGz (Last deepPath)).
    + by apply TransformTarGz_triple.
    + cbn in Harchive. rewrite Harchive.
      eapply triple_bind; [apply triple_lift with (Q := fun _ => True); done|].
      intros fileContent _. by apply TransformZip_triple.
Qed.

End Triples.

(** ** Deep Paths *)

(** C9.  [p.Append(c)] leaves the receiver [p] as it was; when [p] has an
    unused (empty) cell, it returns a Deep Path equal to [p] except that [c]
    occupies the first unused cell; when all three cells of [p] are filled,
    it ends in [log.Fatal] instead of returning. *)
Theorem Append_fills_first_unused_slot (p : DeepPath) (c : string) :
  (Append p c).1 = p
  /\ (forall i, (i < 3)%nat -> part i p = "" ->
        (forall j, (j < i)%nat -> part j p <> "") ->
        exists q, (Append p c).2 = Ok q /\ part i q = c
                  /\ forall j, (j < 3)%nat -> j <> i -> part j q = part j p)
  /\ ((forall i, (i < 3)%nat -> part i p <> "") -> (Append p c).2 = Fatal).
Proof.
  destruct p as [a b d]. unfold Append. cbn [parts0 parts1 parts2].
  split; [|split].
  - by repeat case_match.
  - intros i Hi Hempty Hfirst.
    pose proof (Hfirst 0%nat) as H0. pose proof (Hfirst 1%nat) as H1. cbn in H0, H1.
    destruct i as [|[|[|i]]]; [| | |lia]; cbn in Hempty; subst.
    + cbn. eexists; split; [done|]. split; [done|].
      intros [|[|j]] ? ?; done.
    + destruct (String.eqb_spec a ""); [exfalso; apply H0; [lia|done]|].
      cbn. eexists; split; [done|]. split; [done|].
      intros [|[|j]] ? ?; done.
    + destruct (String.eqb_spec a ""); [exfalso; apply H0; [lia|done]|].
      destruct (String.eqb_spec b ""); [exfalso; apply H1; [lia|done]|].
      cbn. eexists; split; [done|]. split; [done|].
      intros [|[|j]] ? ?; try done. lia.
  - intros Hfull.
    pose proof (Hfull 0%nat ltac:(lia)) as H0.
    pose proof (Hfull 1%nat ltac:(lia)) as H1.
    pose proof (Hfull 2%nat ltac:(lia)) as H2. cbn in H0, H1, H2.
    destruct (String.eqb_spec a ""); [done|].
    destruct (String.eqb_spec b ""); [done|].
    by destruct (String.eqb_spec d "").
Qed.

Example Append_demo :
  Append (NewDeepPath "manual/linux.tar.gz") "quick-lint-js/bin/quick-lint-js"
  = (NewDeepPath "manual/linux.tar.gz",
     Ok (NewDeepPath2 "manual/linux.tar.gz" "quick-lint-js/bin/quick-lint-js")).
Proof. reflexivity. Qed.

Example Append_full_demo :
  (Append (NewDeepPath3 "a.nupkg" "b.zip" "c.exe") "d").2 = Fatal.
Proof. reflexivity. Qed.

Example PathLooksLike_demo :
  PathLooksLikeTarGz "npm/quick-lint-js-2.3.0.tgz" = true
  /\ PathLooksLikeZip "vscode/quick-lint-js-2.3.0.vsix" = true
  /\ PathLooksLikeZip "bin/quick-lint-js.exe" = false
  /\ PathLooksLikeTarGz "zip" = false.
Proof. repeat split; reflexivity. Qed.

(** ** Header updates *)

Lemma int64_small (z : Z) : 0 <= z < 2 ^ 63 -> int64 z = z.
Proof. intros Hz. unfold int64. rewrite Z.mod_small; lia. Qed.

Lemma uint64_small (z : Z) : 0 <= z < 2 ^ 63 -> uint64 z = z.
Proof. intros Hz. unfold uint64. rewrite Z.mod_small; lia. Qed.

Lemma len_nonneg (b : bytes) : 0 <= len b.
Proof. unfold len. lia. Qed.

Section Headers.

Context {World : Type}.
Variable ext : Externals World.

(** C8, as the code has it.  A result without replacement bytes leaves both
    headers as they were.  With replacement bytes [b] (a Go slice, so its
    length fits an [int]): the tar header gets [Size = len b] and
    [ModTime = ProgramStartTime], and [AccessTime] and [ChangeTime] are set
    to [ProgramStartTime] exactly for the GNU and PAX formats; the zip
    header gets [Modified = ProgramStartTime], [UncompressedSize64 = len b]
    and [UncompressedSize = len b mod 2^32], which is [len b] when the
    length fits 32 bits; every other field keeps its value. *)
Theorem UpdateHeader_changes_only_size_and_times (self : FileTransformResult)
    (th : tar.Header) (zh : zip.FileHeader) :
  (forall b, newFile self = Some b -> len b < 2 ^ 63) ->
  let th' := UpdateTarHeader ext self th in
  let zh' := UpdateZipHeader ext self zh in
  match newFile self with
  | None => th' = th /\ zh' = zh
  | Some b =>
    (tar.Size th' = len b /\ tar.ModTime th' = ProgramStartTime ext
     /\ (if bool_decide (tar.Format th = tar.FormatGNU \/ tar.Format th = tar.FormatPAX)
         then tar.AccessTime th' = ProgramStartTime ext
              /\ tar.ChangeTime th' = ProgramStartTime ext
         else tar.AccessTime th' = tar.AccessTime th
              /\ tar.ChangeTime th' = tar.ChangeTime th)
     /\ tar.Typeflag th' = tar.Typeflag th /\ tar.Name th' = tar.Name th
     /\ tar.Linkname th' = tar.Linkname th /\ tar.Mode th' = tar.Mode th
     /\ tar.Uid th' = tar.Uid th /\ tar.Gid th' = tar.Gid th
     /\ tar.Uname th' = tar.Uname th /\ tar.Gname th' = tar.Gname th
     /\ tar.Devmajor th' = tar.Devmajor th /\ tar.Devminor th' = tar.Devminor th
     /\ tar.Xattrs th' = tar.Xattrs th /\ tar.PAXRecords th' = tar.PAXRecords th
     /\ tar.Format th' = tar.Format th)
    /\ (zip.Modified zh' = ProgramStartTime ext
        /\ zip.UncompressedSize64 zh' = len b
        /\ zip.UncompressedSize zh' = len b mod 2 ^ 32
        /\ (len b < 2 ^ 32 -> zip.UncompressedSize zh' = len b)
        /\ zip.Name zh' = zip.Name zh /\ zip.Comment zh' = zip.Comment zh
        /\ zip.NonUTF8 zh' = zip.NonUTF8 zh
        /\ zip.CreatorVersion zh' = zip.CreatorVersion zh
        /\ zip.ReaderVersion zh' = zip.ReaderVersion zh
        /\ zip.Flags zh' = zip.Flags zh /\ zip.Method zh' = zip.Method zh
        /\ zip.ModifiedTime zh' = zip.ModifiedTime zh
        /\ zip.ModifiedDate zh' = zip.ModifiedDate zh
        /\ zip.CRC32 zh' = zip.CRC32 zh
        /\ zip.CompressedSize zh' = zip.CompressedSize zh
        /\ zip.CompressedSize64 zh' = zip.CompressedSize64 zh
        /\ zip.Extra zh' = zip.Extra zh
        /\ zip.ExternalAttrs zh' = zip.ExternalAttrs zh)
  end.
Proof.
  intros Hint th' zh'. subst th' zh'. unfold UpdateTarHeader, UpdateZipHeader.
  destruct (newFile self) as [b|]; [|done].
  specialize (Hint b eq_refl). pose proof (len_nonneg b) as Hlen.
  split.
  - cbn. rewrite int64_small by lia.
    repeat (split; [done|]).
    split; [|done].
    destruct (decide (tar.Format th = tar.FormatGNU)) as [HG|HG];
      destruct (decide (tar.Format th = tar.FormatPAX)) as [HP|HP].
    + rewrite bool_decide_eq_true_2 by auto.
      rewrite (bool_decide_eq_true_2 _ HG). done.
    + rewrite bool_decide_eq_true_2 by auto.
      rewrite (bool_decide_eq_true_2 _ HG). done.
    + rewrite bool_decide_eq_true_2 by auto.
      rewrite (bool_decide_eq_false_2 _ HG), (bool_decide_eq_true_2 _ HP). done.
    + rewrite bool_decide_eq_false_2 by (intros [?|?]; done).
      rewrite (bool_decide_eq_false_2 _ HG), (bool_decide_eq_false_2 _ HP). done.
  - cbn. rewrite uint64_small by lia. unfold uint32.
    repeat (split; [done|]).
    split; [intros Hsmall; apply Z.mod_small; lia|]. done.
Qed.

End Headers.

(** C8 at a concrete input: a replace result of three bytes on a GNU tar
    header and on a zip header. *)
Lemma UpdateHeader_changes_only_size_and_times_witness :
  tar.Size (UpdateTarHeader Fixture.ext
              {| newFile := Some [x01; x02; x03]; siblingFile := None; siblingFileName := "" |}
              (Fixture.tarEntryHeader "bin/tool" 2)) = 3
  /\ zip.UncompressedSize (UpdateZipHeader Fixture.ext
              {| newFile := Some [x01; x02; x03]; siblingFile := None; siblingFileName := "" |}
              (Fixture.zipEntryHeader "bin/tool.exe" 2)) = 3.
Proof.
  pose proof (UpdateHeader_changes_only_size_and_times Fixture.ext
    {| newFile := Some [x01; x02; x03]; siblingFile := None; siblingFileName := "" |}
    (Fixture.tarEntryHeader "bin/tool" 2) (Fixture.zipEntryHeader "bin/tool.exe" 2)) as H.
  cbn zeta in H. cbn [newFile] in H.
  destruct H as [Htar Hzip].
  - intros b [= <-]. reflexivity.
  - split; [apply Htar|]. destruct Hzip as (_ & _ & _ & Hsmall & _). apply Hsmall. reflexivity.
Defined.

(** C8 as stated fails: for a replacement of 2^32 bytes the 32-bit field
    [UncompressedSize] is set to [uint32(size)], which is 0, not the new
    length. *)
Lemma UpdateZipHeader_UncompressedSize_wraps :
  let content := replicate (Z.to_nat (2 ^ 32)) x00 in
  let self := {| newFile := Some content; siblingFile := None; siblingFileName := "" |} in
  let header := UpdateZipHeader Fixture.ext self (Fixture.zipEntryHeader "bin/tool.exe" 2) in
  len content = 2 ^ 32
  /\ zip.UncompressedSize header = 0
  /\ zip.UncompressedSize header <> len content
  /\ zip.UncompressedSize64 header = len content.
Proof.
  cbv zeta.
  assert (Hlen : len (replicate (Z.to_nat (2 ^ 32)) x00) = 2 ^ 32).
  { unfold len. rewrite length_replicate. apply Z2Nat.id. by apply Z.pow_nonneg. }
  unfold UpdateZipHeader. cbn [newFile zip.UncompressedSize zip.UncompressedSize64].
  rewrite Hlen. repeat split; done.
Qed.

(** ** The dispatcher on leaf files *)

Section Dispatcher.

Context {World : Type}.
Variable ext : Externals World.

(** C7.  On a Deep Path whose last segment has no archive suffix and which
    is absent from the registry, [TransformFile] returns the unchanged
    result (no replacement bytes, no sibling) and leaves the registry, the
    cache, the world and the log exactly as they were; the reader is not
    even read, so this holds for a failing reader too. *)
Theorem TransformFile_unregistered_is_unchanged (fuel : nat) (deepPath : DeepPath)
    (file : Reader) (st : State World) :
  PathLooksLikeTarGz (Last deepPath) = false ->
  PathLooksLikeZip (Last deepPath) = false ->
  filesToTransform st !! deepPath = None ->
  TransformFile ext (S fuel) deepPath file st = (st, Ok NoOpTransform)
  /\ newFile NoOpTransform = None /\ siblingFile NoOpTransform = None.
Proof.
  intros Htar Hzip Hreg. split; [|done].
  cbn [TransformFile]. unfold TransformFile_body. rewrite Htar, Hzip.
  unfold bind, gets. rewrite Hreg. cbn. done.
Qed.

End Dispatcher.

(** C7 at a concrete input: a top-level [README.md], with the registry the
    program starts from, read through a reader that would fail. *)
Lemma TransformFile_unregistered_is_unchanged_witness :
  TransformFile Fixture.ext 1 (NewDeepPath "README.md") (BrokenReader (ExternalError 5))
    (initialState 0%nat)
  = (initialState 0%nat, Ok NoOpTransform)
  /\ newFile NoOpTransform = None /\ siblingFile NoOpTransform = None.
Proof.
  apply (TransformFile_unregistered_is_unchanged Fixture.ext 0 (NewDeepPath "README.md")
           (BrokenReader (ExternalError 5)) (initialState 0%nat)).
  - reflexivity.
  - reflexivity.
  - vm_compute. reflexivity.
Defined.

(** ** The completeness check *)

Section Completeness.

Context {World : Type}.
Variable mr : MapRange.

Lemma CheckUnsignedFiles_loop_spec (visit : list (DeepPath * FileTransformType))
    (foundError : bool) (st : State World) :
  CheckUnsignedFiles_loop visit foundError st
  = (mkState (filesToTransform st) (TransformCache st) (world st)
       (events st ++ map (fun e => LogShouldHaveBeenSigned e.1) visit),
     Ok (foundError || negb (bool_decide (visit = [])))).
Proof.
  revert foundError st. induction visit as [|[deepPath t] visit IH]; intros foundError st.
  - cbn. rewrite app_nil_r, orb_false_r. by destruct st.
  - cbn [CheckUnsignedFiles_loop]. unfold bind, emit. rewrite IH. cbn.
    rewrite <- app_assoc, orb_true_r. done.
Qed.

(** C6.  [CheckUnsignedFiles] logs one line for every Deep Path left in the
    registry (each exactly once, whatever order the map is visited in) and
    changes nothing else; it returns an error if and only if the registry
    is not empty, and nil when it is empty. *)
Theorem CheckUnsignedFiles_reports_every_remaining_path (st : State World) :
  exists logged,
    (CheckUnsignedFiles mr st).1
    = mkState (filesToTransform st) (TransformCache st) (world st) (events st ++ logged)
    /\ logged ≡ₚ map (fun e => LogShouldHaveBeenSigned e.1) (map_to_list (filesToTransform st))
    /\ (forall deepPath,
          LogShouldHaveBeenSigned deepPath ∈ logged
          <-> is_Some (filesToTransform st !! deepPath))
    /\ ((exists e, (CheckUnsignedFiles mr st).2 = Err e) <-> filesToTransform st <> ∅)
    /\ (filesToTransform st <> ∅ ->
          (CheckUnsignedFiles mr st).2 = Err (Errorf "one or more files were not signed"))
    /\ (filesToTransform st = ∅ ->
          (CheckUnsignedFiles mr st).2 = Ok tt /\ logged = []).
Proof.
  pose proof (range_Permutation mr _ _ (filesToTransform st)) as Hperm.
  exists (map (fun e => LogShouldHaveBeenSigned e.1) (range mr (filesToTransform st))).
  assert (Hrun : CheckUnsignedFiles mr st
    = (mkState (filesToTransform st) (TransformCache st) (world st)
         (events st ++ map (fun e => LogShouldHaveBeenSigned e.1)
                         (range mr (filesToTransform st))),
       if bool_decide (range mr (filesToTransform st) = [])
       then Ok tt else Err (Errorf "one or more files were not signed"))).
  { unfold CheckUnsignedFiles, bind, gets. rewrite CheckUnsignedFiles_loop_spec. cbn.
    by case_bool_decide. }
  assert (Hnil : range mr (filesToTransform st) = [] <-> filesToTransform st = ∅).
  { rewrite <- map_to_list_empty_iff. split; intros Heq.
    - rewrite Heq in Hperm. by apply Permutation_nil in Hperm.
    - rewrite Heq in Hperm. symmetry in Hperm. by apply Permutation_nil in Hperm. }
  rewrite Hrun. cbn [fst snd].
  split; [done|]. split; [by rewrite Hperm|]. split; [|split; [|split]].
  - intros deepPath. rewrite Hperm, list_elem_of_fmap. split.
    + intros ([p t] & [= ->] & Hin). apply elem_of_map_to_list in Hin. by eexists.
    + intros [t Ht]. exists (deepPath, t). split; [done|]. by apply elem_of_map_to_list.
  - case_bool_decide as Hempty; rewrite Hnil in Hempty.
    + split; [by intros [e ?]|done].
    + split; [done|]. intros _. by eexists.
  - intros Hne. rewrite bool_decide_eq_false_2; [done|]. by rewrite Hnil.
  - intros Hempty. pose proof Hempty as Hr. rewrite <- Hnil in Hr. rewrite Hr.
    rewrite bool_decide_eq_true_2 by done. done.
Qed.

End Completeness.

(** ** The leaf case of the dispatcher, in closed form *)

Section Leaf.

Context {World : Type}.
Variable ext : Externals World.

Lemma looksLikeArchive_false (deepPath : DeepPath) :
  looksLikeArchive deepPath = false ->
  PathLooksLikeTarGz (Last deepPath) = false /\ PathLooksLikeZip (Last deepPath) = false.
Proof. unfold looksLikeArchive. apply orb_false_elim. Qed.

Lemma TransformFile_body_leaf rec (deepPath : DeepPath) (file : Reader) (st : State World) :
  looksLikeArchive deepPath = false ->
  TransformFile_body ext rec deepPath file st = leafOutcome ext deepPath file st.
Proof.
  intros [Htar Hzip]%looksLikeArchive_false.
  unfold TransformFile_body, leafOutcome. rewrite Htar, Hzip.
  destruct st as [reg cache w evs]. unfold bind at 1, gets at 1. cbn [filesToTransform].
  cbv zeta. cbn [filesToTransform].
  destruct (default NoTransform (reg !! deepPath)) eqn:Htype;
    [by repeat case_decide|..];
    (destruct file as [content|e]; [|by repeat case_decide]);
    repeat (case_decide; [done|]);
    unfold bind, gets, lift, io_ReadAll; cbn;
    (destruct (isCacheHit (default zeroFileTransformResult (cache !! sha256_Sum ext content)));
     [done|]);
    cbn; unfold runTool, bind; cbn; rewrite <- app_assoc; cbn.
  - by destruct (codesign ext (filepath_Base ext (Last deepPath)) content w) as [w' [e|b]].
  - by destruct (gpg ext content w) as [w' [e|b]].
  - by destruct (osslsigncode ext content w) as [w' [e|b]].
Qed.

Lemma TransformFile_leaf (fuel : nat) (deepPath : DeepPath) (file : Reader) (st : State World) :
  looksLikeArchive deepPath = false ->
  TransformFile ext (S fuel) deepPath file st = leafOutcome ext deepPath file st.
Proof. apply TransformFile_body_leaf. Qed.

(** Every result a signer transform builds replaces the file or adds a
    sibling, never both and never neither. *)
Lemma signerResult_shape transformType originalPath output :
  transformType <> NoTransform ->
  isReplace (signerResult ext transformType originalPath output)
  \/ isAddSibling (signerResult ext transformType originalPath output).
Proof. intros Hne. destruct transformType; [done|left|right|left]; by split. Qed.

Lemma isCacheHit_true (r : FileTransformResult) :
  isCacheHit r = true <-> newFile r <> None \/ siblingFile r <> None.
Proof.
  unfold isCacheHit. rewrite orb_true_iff, !bool_decide_eq_true. done.
Qed.

Lemma isCacheHit_shape (r : FileTransformResult) :
  isReplace r \/ isAddSibling r -> isCacheHit r = true.
Proof. rewrite isCacheHit_true. intros [[? ?]|[? ?]]; auto. Qed.

(** The five ways the leaf case can go. *)
Lemma leafOutcome_cases (deepPath : DeepPath) (file : Reader) (st : State World)
    (P : State World * Outcome FileTransformResult -> Prop) :
  let transformType := default NoTransform (filesToTransform st !! deepPath) in
  (transformType = NoTransform -> P (st, Ok NoOpTransform)) ->
  (forall e, transformType <> NoTransform -> file = BrokenReader e -> P (st, Err e)) ->
  (forall content cached,
     transformType <> NoTransform -> file = BytesReader content ->
     TransformCache st !! sha256_Sum ext content = Some cached ->
     isCacheHit cached = true ->
     P (mkState (delete deepPath (filesToTransform st)) (TransformCache st) (world st)
          (events st), Ok cached)) ->
  (forall content w e,
     transformType <> NoTransform -> file = BytesReader content ->
     isCacheHit (default zeroFileTransformResult
                   (TransformCache st !! sha256_Sum ext content)) = false ->
     signerTool ext transformType (Last deepPath) content (world st) = (w, inl e) ->
     P (mkState (filesToTransform st) (TransformCache st) w
          (events st ++ [signingLogLine transformType deepPath;
                         SignerRun transformType content]), Err e)) ->
  (forall content w output,
     transformType <> NoTransform -> file = BytesReader content ->
     isCacheHit (default zeroFileTransformResult
                   (TransformCache st !! sha256_Sum ext content)) = false ->
     signerTool ext transformType (Last deepPath) content (world st) = (w, inr output) ->
     P (mkState (delete deepPath (filesToTransform st))
          (<[sha256_Sum ext content := signerResult ext transformType (Last deepPath) output]>
             (TransformCache st)) w
          (events st ++ [signingLogLine transformType deepPath;
                         SignerRun transformType content]),
        Ok (signerResult ext transformType (Last deepPath) output))) ->
  P (leafOutcome ext deepPath file st).
Proof.
  intros transformType Hnone Hbroken Hhit Herr Hok. unfold leafOutcome. cbv zeta.
  fold transformType. case_decide as Htype; [by apply Hnone|].
  destruct file as [content|e]; [|by apply Hbroken].
  destruct (isCacheHit _) eqn:Hcached.
  - destruct (TransformCache st !! sha256_Sum ext content) as [cached|] eqn:Hlookup;
      [|done].
    by apply (Hhit content cached).
  - destruct (signerTool _ _ _ _ _) as [w [e|output]] eqn:Htool.
    + by apply (Herr content w e).
    + by apply (Hok content w output).
Qed.

End Leaf.

(** ** Runs of the program *)

Section CacheInvariant.

Context {World : Type}.
Variable ext : Externals World.

Lemma leaf_cacheHoldsSignerOutputs rec (deepPath : DeepPath) (file : Reader) :
  looksLikeArchive deepPath = false ->
  triple cacheHoldsSignerOutputs anyStates anyStates
    (TransformFile_body ext rec deepPath file)
    (fun r => isUnchanged r \/ isReplace r \/ isAddSibling r).
Proof.
  intros Hleaf st HI. rewrite TransformFile_body_leaf by done.
  apply leafOutcome_cases; try done.
  - intros _. repeat split; auto. by left.
  - intros content cached _ _ Hcached _. repeat split; auto.
    right. by apply (HI _ _ Hcached).
  - intros content w output Htype _ _ _.
    pose proof (signerResult_shape ext _ (Last deepPath) output Htype) as Hshape.
    split; [|split; [done|auto]].
    intros h r. cbn [TransformCache]. rewrite lookup_insert.
    case_decide; [intros [= <-]; done|apply HI].
Qed.

Lemma TransformFile_cacheHoldsSignerOutputs fuel deepPath file :
  triple cacheHoldsSignerOutputs anyStates anyStates
    (TransformFile ext fuel deepPath file)
    (fun r => isUnchanged r \/ isReplace r \/ isAddSibling r).
Proof.
  apply TransformFile_triple; try done.
  - intros b. right. left. by split.
  - apply leaf_cacheHoldsSignerOutputs.
Qed.

(** A call that ends in an error leaves the cache with signer outputs
    only, too. *)
Lemma leaf_cacheStaysSigned rec (deepPath : DeepPath) (file : Reader) :
  looksLikeArchive deepPath = false ->
  triple anyState cacheStaysSigned cacheStaysSigned
    (TransformFile_body ext rec deepPath file) (fun _ => True).
Proof.
  intros Hleaf st _. rewrite TransformFile_body_leaf by done.
  apply leafOutcome_cases.
  - intros _. split; [done|]. split; [|done]. by intros ?.
  - intros e _ _. by intros ?.
  - intros content cached _ _ _ _. split; [done|]. split; [|done]. by intros ?.
  - intros content w e _ _ _ _. by intros ?.
  - intros content w output Htype _ _ _.
    pose proof (signerResult_shape ext _ (Last deepPath) output Htype) as Hshape.
    split; [done|]. split; [|done].
    intros HI h r. cbn [TransformCache]. rewrite lookup_insert.
    case_decide; [intros [= <-]; done|apply HI].
Qed.

Lemma TransformFile_cacheStaysSigned fuel deepPath file (st : State World) :
  cacheHoldsSignerOutputs st ->
  cacheHoldsSignerOutputs (TransformFile ext fuel deepPath file st).1.
Proof.
  intros HI.
  assert (H : triple anyState cacheStaysSigned cacheStaysSigned
                (TransformFile ext fuel deepPath file) (fun _ => True)).
  { apply TransformFile_triple; try done.
    - by intros a ?.
    - intros a b c Hab Hbc Ha. auto.
    - by intros a _ ?.
    - intros a b c Hab Hbc Ha. auto.
    - apply leaf_cacheStaysSigned. }
  specialize (H st I).
  destruct (TransformFile ext fuel deepPath file st) as [st' [r| | | |]]; cbn.
  - destruct H as (_ & H & _). by apply H.
  - by apply H.
  - by apply H.
  - by apply H.
  - by apply H.
Qed.

Lemma initialState_cacheHoldsSignerOutputs (w : World) :
  cacheHoldsSignerOutputs (initialState w).
Proof. intros h r. cbn. by rewrite lookup_empty. Qed.

Lemma walk_cacheHoldsSignerOutputs (st st' : State World) :
  walk ext st st' -> cacheHoldsSignerOutputs st -> cacheHoldsSignerOutputs st'.
Proof.
  induction 1 as [|st fuel deepPath file st1 r st2 Hcall _ IH]; [done|].
  intros HI. apply IH.
  pose proof (TransformFile_cacheHoldsSignerOutputs fuel deepPath file st HI) as H.
  rewrite Hcall in H. apply H.
Qed.

End CacheInvariant.

Section Registry.

Context {World : Type}.
Variable ext : Externals World.

Lemma leaf_registryShrinks rec (deepPath : DeepPath) (file : Reader) :
  looksLikeArchive deepPath = false ->
  triple anyState registryShrinks anyStates (TransformFile_body ext rec deepPath file)
    (fun _ => True).
Proof.
  intros Hleaf st _. rewrite TransformFile_body_leaf by done.
  apply leafOutcome_cases; try done.
  - intros _. split; [done|]. split; [|done]. unfold registryShrinks. reflexivity.
  - intros content cached _ _ _ _. split; [done|]. split; [|done]. apply delete_subseteq.
  - intros content w output _ _ _ _. split; [done|]. split; [|done]. apply delete_subseteq.
Qed.

Lemma TransformFile_registryShrinks fuel deepPath file :
  triple anyState registryShrinks anyStates (TransformFile ext fuel deepPath file)
    (fun _ => True).
Proof.
  apply TransformFile_triple; try done.
  - intros st. unfold registryShrinks. reflexivity.
  - intros a b c Hab Hbc. unfold registryShrinks in *. by etrans.
  - apply leaf_registryShrinks.
Qed.

Lemma walk_registryShrinks (st st' : State World) : walk ext st st' -> registryShrinks st st'.
Proof.
  induction 1 as [|st fuel deepPath file st1 r st2 Hcall _ IH];
    [unfold registryShrinks; reflexivity|].
  pose proof (TransformFile_registryShrinks fuel deepPath file st I) as H.
  rewrite Hcall in H. destruct H as (_ & H & _).
  unfold registryShrinks in *. by etrans.
Qed.

(** No path of the registry literal looks like an archive. *)
Lemma filesToTransform_initial_leaves (deepPath : DeepPath) (t : FileTransformType) :
  filesToTransform_initial !! deepPath = Some t -> looksLikeArchive deepPath = false.
Proof.
  intros Hin%elem_of_list_to_map_2%list_elem_of_In.
  assert (Hall : forallb (fun e => negb (looksLikeArchive e.1)) filesToTransform_literal
                 = true) by (vm_compute; reflexivity).
  rewrite forallb_forall in Hall. specialize (Hall _ Hin). by apply negb_true_iff in Hall.
Qed.

(** So in a run from the initial state every registered path is a leaf
    path for the dispatcher. *)
Lemma registered_paths_are_leaves (w : World) (st : State World) (deepPath : DeepPath) :
  walk ext (initialState w) st ->
  is_Some (filesToTransform st !! deepPath) -> looksLikeArchive deepPath = false.
Proof.
  intros Hwalk%walk_registryShrinks [t Ht].
  apply (filesToTransform_initial_leaves deepPath t).
  unfold registryShrinks in Hwalk. rewrite map_subseteq_spec in Hwalk. by apply Hwalk.
Qed.

End Registry.

(** ** The shapes of transform results *)

Lemma shape_exactlyOneOf (r : FileTransformResult) :
  isUnchanged r \/ isReplace r \/ isAddSibling r ->
  exactlyOneOf (isUnchanged r) (isReplace r) (isAddSibling r)
  /\ ~ isReplaceAndAddSibling r.
Proof.
  unfold exactlyOneOf, isUnchanged, isReplace, isAddSibling, isReplaceAndAddSibling.
  intros [[Hn Hs]|[[Hn Hs]|[Hn Hs]]].
  - split; [left|]; tauto.
  - split; [right; left|]; tauto.
  - split; [right; right|]; tauto.
Qed.

Section Shapes.

Context {World : Type}.
Variable ext : Externals World.

Lemma AppleCodesignTransform_shape originalPath exe (st st' : State World) r :
  AppleCodesignTransform ext originalPath exe st = (st', Ok r) -> isReplace r.
Proof.
  unfold AppleCodesignTransform, bind, lift, emit, runTool, ret.
  destruct exe as [content|e]; cbn; [|done].
  destruct (codesign ext _ content (world st)) as [w [e|b]]; [done|].
  intros [= _ <-]. by split.
Qed.

Lemma GPGSignTransform_shape originalPath exe (st st' : State World) r :
  GPGSignTransform ext originalPath exe st = (st', Ok r) -> isAddSibling r.
Proof.
  unfold GPGSignTransform, bind, lift, emit, runTool, ret.
  destruct exe as [content|e]; cbn; [|done].
  destruct (gpg ext content (world st)) as [w [e|b]]; [done|].
  intros [= _ <-]. by split.
Qed.

Lemma MicrosoftOsslsigncodeTransform_shape exe (st st' : State World) r :
  MicrosoftOsslsigncodeTransform ext exe st = (st', Ok r) -> isReplace r.
Proof.
  unfold MicrosoftOsslsigncodeTransform, bind, lift, emit, runTool, ret.
  destruct exe as [content|e]; cbn; [|done].
  destruct (osslsigncode ext content (world st)) as [w [e|b]]; [done|].
  intros [= _ <-]. by split.
Qed.

Lemma TransformTarGz_shape rec deepPath file (st st' : State World) r :
  TransformTarGz ext rec deepPath file st = (st', Ok r) -> isReplace r.
Proof.
  unfold TransformTarGz, bind, ret.
  destruct (TransformTarGzToFile ext rec deepPath file st) as [st1 [written| | | |]];
    try done.
  intros [= _ <-]. by split.
Qed.

Lemma TransformZip_shape rec deepPath content (st st' : State World) r :
  TransformZip ext rec deepPath content st = (st', Ok r) -> isReplace r.
Proof.
  unfold TransformZip, bind, ret.
  destruct (TransformZipToFile ext rec deepPath content st) as [st1 [written| | | |]];
    try done.
  intros [= _ <-]. by split.
Qed.

(** C4, as the code has it.  Every transform result the program produces
    has exactly one of three shapes: unchanged (no replacement bytes, no
    sibling), replace (replacement bytes, no sibling), or add-sibling (a
    named sibling blob and no replacement bytes: the original entry is kept
    as it is).  No result carries both replacement bytes and a sibling. *)
Theorem produced_results_have_one_shape (r : FileTransformResult) :
  produced ext r ->
  exactlyOneOf (isUnchanged r) (isReplace r) (isAddSibling r)
  /\ ~ isReplaceAndAddSibling r.
Proof.
  intros Hproduced. apply shape_exactlyOneOf.
  destruct Hproduced as [|? ? ? ? ? H|? ? ? ? ? H|? ? ? ? H|? ? ? ? ? ? H|? ? ? ? ? ? H
                         |w st fuel deepPath file st' r Hwalk H].
  - left. by split.
  - right. left. by eapply AppleCodesignTransform_shape.
  - right. right. by eapply GPGSignTransform_shape.
  - right. left. by eapply MicrosoftOsslsigncodeTransform_shape.
  - right. left. by eapply TransformTarGz_shape.
  - right. left. by eapply TransformZip_shape.
  - pose proof (walk_cacheHoldsSignerOutputs ext _ _ Hwalk
                  (initialState_cacheHoldsSignerOutputs w)) as HI.
    pose proof (TransformFile_cacheHoldsSignerOutputs ext fuel deepPath file st HI) as Hcall.
    rewrite H in Hcall. apply Hcall.
Qed.

(** C10.  In a run from the initial state, every entry stored in the cache
    has replacement bytes or a sibling blob (only results of signer
    transforms are stored, also by a call that ends in an error), so the
    cache-hit test accepts it: a later look-up of that digest on a path
    registered for signing returns exactly the stored entry, and no result
    that [TransformFile] returns for a path registered for signing is the
    unchanged one. *)
Theorem TransformCache_entries_are_hits (w : World) (st : State World)
    (fileHash : SHA256Hash) (r : FileTransformResult) :
  walk ext (initialState w) st ->
  TransformCache st !! fileHash = Some r ->
  (newFile r <> None \/ siblingFile r <> None)
  /\ isCacheHit r = true
  /\ ~ isUnchanged r
  /\ (forall fuel deepPath content,
        registeredForSigning st deepPath ->
        sha256_Sum ext content = fileHash ->
        TransformFile ext (S fuel) deepPath (BytesReader content) st
        = (mkState (delete deepPath (filesToTransform st)) (TransformCache st) (world st)
             (events st), Ok r))
  /\ (forall fuel deepPath file st' r',
        registeredForSigning st deepPath ->
        TransformFile ext (S fuel) deepPath file st = (st', Ok r') ->
        ~ isUnchanged r')
  /\ (forall fuel deepPath file,
        cacheHoldsSignerOutputs (TransformFile ext fuel deepPath file st).1).
Proof.
  intros Hwalk Hstored.
  assert (Hleaves : forall deepPath,
            registeredForSigning st deepPath -> looksLikeArchive deepPath = false).
  { intros deepPath (t & Ht & _). apply (registered_paths_are_leaves ext w st); [done|].
    by exists t. }
  pose proof (walk_cacheHoldsSignerOutputs ext _ _ Hwalk
                (initialState_cacheHoldsSignerOutputs w)) as HI.
  pose proof (HI _ _ Hstored) as Hshape.
  pose proof (isCacheHit_shape r Hshape) as Hhit.
  split; [by apply isCacheHit_true|]. split; [done|].
  split; [intros [? ?]; destruct Hshape as [[? ?]|[? ?]]; done|].
  split; [|split]; [| |by intros; apply TransformFile_cacheStaysSigned].
  - intros fuel deepPath content Hregistered <-.
    pose proof (Hleaves _ Hregistered) as Hleaf. destruct Hregistered as (t & Ht & Hreal).
    rewrite TransformFile_leaf by done. unfold leafOutcome. cbv zeta.
    rewrite Ht. cbn [default from_option id]. case_decide; [done|].
    rewrite Hstored. cbn [default from_option id]. by rewrite Hhit.
  - intros fuel deepPath file st' r' Hregistered.
    pose proof (Hleaves _ Hregistered) as Hleaf. destruct Hregistered as (t & Ht & Hreal).
    rewrite TransformFile_leaf by done.
    apply leafOutcome_cases; rewrite Ht; cbn [default from_option id]; try done.
    + intros content cached _ _ Hcached Hcachedhit [= _ <-].
      apply isCacheHit_true in Hcachedhit. intros [? ?]. destruct Hcachedhit; done.
    + intros content w' output _ _ _ _ [= _ <-].
      destruct (signerResult_shape ext t (Last deepPath) output Hreal) as [[? ?]|[? ?]];
        intros [? ?]; done.
Qed.

End Shapes.

Lemma first_signing_run :
  TransformFile Fixture.ext 1 linuxBinary (BytesReader [x7f]) (initialState 0%nat)
  = (stateAfterFirstSigning, Ok detachedSignature).
Proof.
  unfold stateAfterFirstSigning.
  rewrite (surjective_pairing (TransformFile _ _ _ _ _)) at 1.
  apply (f_equal (pair _)). vm_compute. reflexivity.
Qed.

Lemma walk_to_stateAfterFirstSigning :
  walk Fixture.ext (initialState 0%nat) stateAfterFirstSigning.
Proof. eapply walk_call; [apply first_signing_run|apply walk_done]. Qed.

(** C4 as stated fails: [GPGSignTransform], reached through [TransformFile]
    for a path registered for GPG signing, returns a sibling blob and no
    replacement bytes, which is none of the three shapes of the claim. *)
Lemma GPGSign_result_has_sibling_without_replacement :
  produced Fixture.ext detachedSignature
  /\ newFile detachedSignature = None
  /\ siblingFile detachedSignature = Some [x2d]
  /\ ~ (isUnchanged detachedSignature \/ isReplace detachedSignature
        \/ isReplaceAndAddSibling detachedSignature).
Proof.
  split.
  - eapply produced_TransformFile; [apply walk_done|apply first_signing_run].
  - split; [done|]. split; [done|].
    unfold isUnchanged, isReplace, isReplaceAndAddSibling. cbn. intros [[? ?]|[[? ?]|[? ?]]]; done.
Qed.

(** C4 at a concrete input: the detached signature of the fixture run. *)
Lemma produced_results_have_one_shape_witness :
  exactlyOneOf (isUnchanged detachedSignature) (isReplace detachedSignature)
    (isAddSibling detachedSignature)
  /\ ~ isReplaceAndAddSibling detachedSignature.
Proof.
  apply (produced_results_have_one_shape Fixture.ext detachedSignature).
  eapply produced_TransformFile; [apply walk_done|apply first_signing_run].
Defined.

(** C10 at a concrete input: the entry the fixture run stored. *)
Lemma TransformCache_entries_are_hits_witness :
  isCacheHit detachedSignature = true
  /\ TransformFile Fixture.ext 1 linuxArmhfBinary (BytesReader [x7f]) stateAfterFirstSigning
     = (mkState (delete linuxArmhfBinary (filesToTransform stateAfterFirstSigning))
          (TransformCache stateAfterFirstSigning) (world stateAfterFirstSigning)
          (events stateAfterFirstSigning), Ok detachedSignature).
Proof.
  destruct (TransformCache_entries_are_hits Fixture.ext 0%nat stateAfterFirstSigning
              (Fixture.fx_sha256_Sum [x7f]) detachedSignature)
    as (_ & Hhit & _ & Hserved & _ & _).
  - apply walk_to_stateAfterFirstSigning.
  - vm_compute. reflexivity.
  - split; [exact Hhit|].
    apply (Hserved 0%nat linuxArmhfBinary [x7f]).
    + exists GPGSign. split; [vm_compute; reflexivity|done].
    + reflexivity.
Defined.

(** ** The cache: entries persist, and each digest is signed once *)

Section Cache.

Context {World : Type}.
Variable ext : Externals World.

Lemma walk_trans (a b c : State World) : walk ext a b -> walk ext b c -> walk ext a c.
Proof.
  induction 1 as [|st fuel deepPath file st1 r st2 Hcall _ IH]; [done|].
  intros Hc. eapply walk_call; [exact Hcall|]. by apply IH.
Qed.

Lemma leaf_cachePersists rec (deepPath : DeepPath) (file : Reader) :
  looksLikeArchive deepPath = false ->
  triple anyState cachePersists anyStates (TransformFile_body ext rec deepPath file)
    (fun _ => True).
Proof.
  intros Hleaf st _. rewrite TransformFile_body_leaf by done.
  apply leafOutcome_cases; try done.
  - intros _. split; [done|]. split; [|done]. by intros h r.
  - intros content cached _ _ _ _. split; [done|]. split; [|done]. by intros h r.
  - intros content w output _ _ Hmiss _. split; [done|]. split; [|done].
    intros h r Hr Hhit. cbn [TransformCache]. rewrite lookup_insert.
    case_decide as Hh; [|done]. subst h. rewrite Hr in Hmiss. cbn in Hmiss. congruence.
Qed.

Lemma TransformFile_cachePersists fuel deepPath file :
  triple anyState cachePersists anyStates (TransformFile ext fuel deepPath file)
    (fun _ => True).
Proof.
  apply TransformFile_triple; try done.
  - by intros st h r.
  - intros a b c Hab Hbc h r Hr Hhit. apply Hbc; [|done]. by apply Hab.
  - apply leaf_cachePersists.
Qed.

Lemma walk_cachePersists (st st' : State World) : walk ext st st' -> cachePersists st st'.
Proof.
  induction 1 as [|st fuel deepPath file st1 r st2 Hcall _ IH]; [by intros h r|].
  pose proof (TransformFile_cachePersists fuel deepPath file st I) as H.
  rewrite Hcall in H. destruct H as (_ & H & _).
  intros h r' Hr Hhit. apply IH; [|done]. by apply H.
Qed.

Lemma signerRunDigests_app (evs evs' : list Event) :
  signerRunDigests ext (evs ++ evs')
  = (signerRunDigests ext evs ++ signerRunDigests ext evs')%list.
Proof. apply omap_app. Qed.

Lemma leaf_signedOncePerDigest rec (deepPath : DeepPath) (file : Reader) :
  looksLikeArchive deepPath = false ->
  triple (signedOncePerDigest ext) anyStates (noDigestSignedTwice ext)
    (TransformFile_body ext rec deepPath file) (fun _ => True).
Proof.
  intros Hleaf st [Hnodup Hhits]. rewrite TransformFile_body_leaf by done.
  assert (Hfresh : forall content t,
    isCacheHit (default zeroFileTransformResult
                  (TransformCache st !! sha256_Sum ext content)) = false ->
    NoDup (signerRunDigests ext
             (events st ++ [signingLogLine t deepPath; SignerRun t content]))).
  { intros content t Hmiss. rewrite signerRunDigests_app.
    replace (signerRunDigests ext [signingLogLine t deepPath; SignerRun t content])
      with [sha256_Sum ext content] by (by destruct t).
    apply list.NoDup_app. split; [done|]. split; [|apply NoDup_singleton].
    intros h Hin ->%list_elem_of_singleton. apply Hhits in Hin. congruence. }
  apply leafOutcome_cases; try done.
  - intros content w e _ _ Hmiss _. by apply Hfresh.
  - intros content w output Htype _ Hmiss _.
    split; [|done]. split; [by apply Hfresh|].
    intros h. cbn [events TransformCache]. rewrite signerRunDigests_app.
    replace (signerRunDigests ext [signingLogLine _ deepPath; SignerRun _ content])
      with [sha256_Sum ext content]
      by (by destruct (default NoTransform (filesToTransform st !! deepPath))).
    rewrite lookup_insert. case_decide as Hh.
    + intros _. cbn. by apply isCacheHit_shape, signerResult_shape.
    + intros [Hin|Hin%list_elem_of_singleton]%elem_of_app; [by apply Hhits|done].
Qed.

Lemma TransformFile_signedOncePerDigest fuel deepPath file :
  triple (signedOncePerDigest ext) anyStates (noDigestSignedTwice ext)
    (TransformFile ext fuel deepPath file) (fun _ => True).
Proof.
  apply TransformFile_triple; try done.
  - by intros st [? ?].
  - apply leaf_signedOncePerDigest.
Qed.

Lemma initialState_signedOncePerDigest (w : World) : signedOncePerDigest ext (initialState w).
Proof. split; [apply NoDup_nil_2|]. intros h Hin. by apply elem_of_nil in Hin. Qed.

Lemma walk_signedOncePerDigest (st st' : State World) :
  walk ext st st' -> signedOncePerDigest ext st -> signedOncePerDigest ext st'.
Proof.
  induction 1 as [|st fuel deepPath file st1 r st2 Hcall _ IH]; [done|].
  intros HI. apply IH.
  pose proof (TransformFile_signedOncePerDigest fuel deepPath file st HI) as H.
  rewrite Hcall in H. apply H.
Qed.

(** C1, as the code has it.  In a run from the initial state, let
    [TransformFile] process the bytes [b] at a path registered for signing
    and return [r1], and let it later process the same bytes at a path that
    is registered for signing at that moment (another path: the first call
    consumed the entry of its own).  The later call returns the same result
    [r1], taken from the cache: it consumes the registry entry and runs no
    signing tool.  The first call returned the entry already cached under
    the digest of [b] without running a tool, or ran the path's signing
    tool once on [b] and stored its result under that digest.  Throughout
    the run no digest is handed to a signing tool twice. *)
Theorem TransformFile_cache_hit_equivalence (w : World) (st1 st1' st2 : State World)
    (fuel1 fuel2 : nat) (deepPath1 deepPath2 : DeepPath) (b : bytes)
    (r1 : FileTransformResult) :
  walk ext (initialState w) st1 ->
  registeredForSigning st1 deepPath1 ->
  TransformFile ext (S fuel1) deepPath1 (BytesReader b) st1 = (st1', Ok r1) ->
  walk ext st1' st2 ->
  registeredForSigning st2 deepPath2 ->
  TransformFile ext (S fuel2) deepPath2 (BytesReader b) st2
  = (mkState (delete deepPath2 (filesToTransform st2)) (TransformCache st2) (world st2)
       (events st2), Ok r1)
  /\ TransformCache st1' !! sha256_Sum ext b = Some r1
  /\ TransformCache st2 !! sha256_Sum ext b = Some r1
  /\ ((TransformCache st1 !! sha256_Sum ext b = Some r1 /\ events st1' = events st1
       /\ world st1' = world st1)
      \/ (exists transformType output,
            filesToTransform st1 !! deepPath1 = Some transformType
            /\ isCacheHit (default zeroFileTransformResult
                             (TransformCache st1 !! sha256_Sum ext b)) = false
            /\ signerTool ext transformType (Last deepPath1) b (world st1)
               = (world st1', inr output)
            /\ r1 = signerResult ext transformType (Last deepPath1) output
            /\ events st1' = (events st1 ++ [signingLogLine transformType deepPath1;
                                             SignerRun transformType b])%list))
  /\ NoDup (signerRunDigests ext (events st2)).
Proof.
  intros Hwalk1 (t1 & Ht1 & Hreal1) Hcall1 Hwalk2 (t2 & Ht2 & Hreal2).
  assert (Hleaf1 : looksLikeArchive deepPath1 = false).
  { apply (registered_paths_are_leaves ext w st1); [done|by exists t1]. }
  assert (Hwalk : walk ext (initialState w) st2).
  { eapply walk_trans; [exact Hwalk1|]. by eapply walk_call. }
  assert (Hleaf2 : looksLikeArchive deepPath2 = false).
  { apply (registered_paths_are_leaves ext w st2); [done|by exists t2]. }
  rewrite TransformFile_leaf in Hcall1 by done.
  assert (Hfirst : TransformCache st1' !! sha256_Sum ext b = Some r1 /\ isCacheHit r1 = true
    /\ ((TransformCache st1 !! sha256_Sum ext b = Some r1 /\ events st1' = events st1
         /\ world st1' = world st1)
        \/ (exists transformType output,
              filesToTransform st1 !! deepPath1 = Some transformType
              /\ isCacheHit (default zeroFileTransformResult
                               (TransformCache st1 !! sha256_Sum ext b)) = false
              /\ signerTool ext transformType (Last deepPath1) b (world st1)
                 = (world st1', inr output)
              /\ r1 = signerResult ext transformType (Last deepPath1) output
              /\ events st1' = (events st1 ++ [signingLogLine transformType deepPath1;
                                               SignerRun transformType b])%list))).
  { revert Hcall1. apply leafOutcome_cases; rewrite Ht1; cbn [default from_option id];
      try done.
    - intros content cached _ [= <-] Hcached Hhit [= <- <-]. cbn.
      split; [done|]. split; [done|]. by left.
    - intros content w' output _ [= <-] Hmiss Htool [= <- <-]. cbn.
      rewrite lookup_insert_eq. split; [done|].
      split; [by apply isCacheHit_shape, signerResult_shape|].
      right. exists t1, output. done. }
  destruct Hfirst as (Hstored1 & Hhit1 & Hhow).
  pose proof (walk_cachePersists _ _ Hwalk2 _ _ Hstored1 Hhit1) as Hstored2.
  split; [|split; [done|split; [done|split; [done|]]]].
  - rewrite TransformFile_leaf by done. unfold leafOutcome. cbv zeta.
    rewrite Ht2. cbn [default from_option id]. case_decide; [done|].
    rewrite Hstored2. cbn [default from_option id]. by rewrite Hhit1.
  - apply (walk_signedOncePerDigest _ _ Hwalk (initialState_signedOncePerDigest w)).
Qed.

End Cache.

(** C1 at a concrete input: in the fixture run the bytes [[x7f]] are signed
    at [linuxBinary] and met again at [linuxArmhfBinary]. *)
Lemma TransformFile_cache_hit_equivalence_witness :
  TransformFile Fixture.ext 1 linuxArmhfBinary (BytesReader [x7f]) stateAfterFirstSigning
  = (mkState (delete linuxArmhfBinary (filesToTransform stateAfterFirstSigning))
       (TransformCache stateAfterFirstSigning) (world stateAfterFirstSigning)
       (events stateAfterFirstSigning), Ok detachedSignature)
  /\ NoDup (signerRunDigests Fixture.ext (events stateAfterFirstSigning)).
Proof.
  destruct (TransformFile_cache_hit_equivalence Fixture.ext 0%nat (initialState 0%nat)
              stateAfterFirstSigning stateAfterFirstSigning 0 0 linuxBinary linuxArmhfBinary
              [x7f] detachedSignature) as (Hsecond & _ & _ & _ & Honce).
  - apply walk_done.
  - exists GPGSign. split; [vm_compute; reflexivity|done].
  - apply first_signing_run.
  - apply walk_done.
  - exists GPGSign. split; [vm_compute; reflexivity|done].
  - split; [exact Hsecond|exact Honce].
Defined.

(** C1 as stated fails for a second occurrence at the same Deep Path: the
    first call consumes the path's registry entry, so the second call on
    the same bytes at the same path finds the path unregistered and returns
    the unchanged result, not the signature the first call returned. *)
Lemma TransformFile_twice_at_the_same_path_differs :
  registeredForSigning (initialState 0%nat) linuxBinary
  /\ TransformFile Fixture.ext 1 linuxBinary (BytesReader [x7f]) (initialState 0%nat)
     = (stateAfterFirstSigning, Ok detachedSignature)
  /\ filesToTransform stateAfterFirstSigning !! linuxBinary = None
  /\ (TransformFile Fixture.ext 1 linuxBinary (BytesReader [x7f]) stateAfterFirstSigning).2
     = Ok NoOpTransform
  /\ detachedSignature <> NoOpTransform.
Proof.
  split; [exists GPGSign; split; [vm_compute; reflexivity|done]|].
  split; [apply first_signing_run|].
  split; [vm_compute; reflexivity|].
  split; [vm_compute; reflexivity|done].
Qed.

(** ** Archives take priority over the registry *)

Section Priority.

Context {World : Type}.
Variable ext : Externals World.

Lemma archivesUntouched_refl (st : State World) : archivesUntouched st st.
Proof.
  split; [done|]. exists []. split; [by rewrite app_nil_r|].
  intros ev deepPath Hin. by apply elem_of_nil in Hin.
Qed.

Lemma archivesUntouched_trans (a b c : State World) :
  archivesUntouched a b -> archivesUntouched b c -> archivesUntouched a c.
Proof.
  intros [Hab (evs1 & Hevs1 & Hlog1)] [Hbc (evs2 & Hevs2 & Hlog2)]. split.
  - intros deepPath Harchive. rewrite Hbc, Hab; done.
  - exists (evs1 ++ evs2)%list. split; [by rewrite Hevs2, Hevs1, app_assoc|].
    intros ev deepPath [Hin|Hin]%elem_of_app; eauto.
Qed.

Lemma leaf_archivesUntouched rec (deepPath : DeepPath) (file : Reader) :
  looksLikeArchive deepPath = false ->
  triple anyState archivesUntouched archivesUntouched
    (TransformFile_body ext rec deepPath file) (fun _ => True).
Proof.
  intros Hleaf st _. rewrite TransformFile_body_leaf by done.
  assert (Hdelete : forall k, looksLikeArchive k = true ->
            delete deepPath (filesToTransform st) !! k = filesToTransform st !! k).
  { intros k Hk. apply lookup_delete_ne. intros ->. congruence. }
  assert (Hlogged : forall t content ev k,
            ev ∈ [signingLogLine t deepPath; SignerRun t content] ->
            signingLogPath ev = Some k -> looksLikeArchive k = false).
  { intros t content ev k Hin Hk.
    apply elem_of_cons in Hin as [->|Hin].
    - destruct t; cbn in Hk; by simplify_eq.
    - apply list_elem_of_singleton in Hin as ->. done. }
  apply leafOutcome_cases.
  - intros _. split; [done|]. split; [apply archivesUntouched_refl|done].
  - intros e _ _. apply archivesUntouched_refl.
  - intros content cached _ _ _ _. split; [done|]. split; [|done].
    split; [done|]. exists []. split; [by rewrite app_nil_r|].
    intros ev k Hin. by apply elem_of_nil in Hin.
  - intros content w e _ _ _ _. split; [done|]. eexists. split; [done|]. apply Hlogged.
  - intros content w output _ _ _ _. split; [done|]. split; [|done].
    split; [done|]. eexists. split; [done|]. apply Hlogged.
Qed.

Lemma TransformFile_archivesUntouched fuel deepPath file :
  triple anyState archivesUntouched archivesUntouched
    (TransformFile ext fuel deepPath file) (fun _ => True).
Proof.
  apply TransformFile_triple; try done.
  - apply archivesUntouched_refl.
  - apply archivesUntouched_trans.
  - intros st _. apply archivesUntouched_refl.
  - apply archivesUntouched_trans.
  - apply leaf_archivesUntouched.
Qed.

(** C3.  On a Deep Path whose last segment has a tar+gzip or a zip-family
    suffix, [TransformFile] is the call of the matching rebuilder (for a
    zip, once the file is read); what it returns is the rebuilt archive as
    a replace result; and, whatever the registry holds for that path, its
    entry is still there afterwards and no signing of that path is logged:
    neither the registry, the cache nor a signer is asked about the
    archive itself. *)
Theorem TransformFile_archive_takes_priority (fuel : nat) (deepPath : DeepPath)
    (file : Reader) (st : State World) :
  looksLikeArchive deepPath = true ->
  let call := TransformFile ext (S fuel) deepPath file st in
  call = (if PathLooksLikeTarGz (Last deepPath)
          then TransformTarGz ext (TransformFile ext fuel) deepPath file st
          else match file with
               | BytesReader content =>
                 TransformZip ext (TransformFile ext fuel) deepPath content st
               | BrokenReader e => (st, Err e)
               end)
  /\ (forall r, call.2 = Ok r ->
        siblingFile r = None /\ isReplace r
        /\ if PathLooksLikeTarGz (Last deepPath)
           then exists written,
                  TransformTarGzToFile ext (TransformFile ext fuel) deepPath file st
                  = (call.1, Ok written)
                  /\ newFile r = Some (targz_Bytes ext written)
           else exists content written,
                  file = BytesReader content
                  /\ TransformZipToFile ext (TransformFile ext fuel) deepPath content st
                     = (call.1, Ok written)
                  /\ newFile r = Some (zip_Bytes ext written))
  /\ filesToTransform call.1 !! deepPath = filesToTransform st !! deepPath
  /\ exists evs,
       events call.1 = (events st ++ evs)%list
       /\ forall ev, ev ∈ evs -> signingLogPath ev <> Some deepPath.
Proof.
  intros Harchive call.
  assert (Hcall : call = (if PathLooksLikeTarGz (Last deepPath)
          then TransformTarGz ext (TransformFile ext fuel) deepPath file st
          else match file with
               | BytesReader content =>
                 TransformZip ext (TransformFile ext fuel) deepPath content st
               | BrokenReader e => (st, Err e)
               end)).
  { subst call. cbn [TransformFile]. unfold TransformFile_body.
    unfold looksLikeArchive in Harchive.
    destruct (PathLooksLikeTarGz (Last deepPath)); [done|].
    cbn in Harchive. rewrite Harchive. by destruct file. }
  split; [exact Hcall|]. split; [|].
  - intros r Hr. rewrite Hcall in Hr |- *.
    destruct (PathLooksLikeTarGz (Last deepPath)).
    + unfold TransformTarGz, bind, ret in Hr |- *.
      destruct (TransformTarGzToFile ext (TransformFile ext fuel) deepPath file st)
        as [st1 [written| | | |]]; try done.
      cbn in Hr. injection Hr as <-. cbn. split; [done|]. split; [by split|]. by eexists.
    + destruct file as [content|e]; [|done].
      unfold TransformZip, bind, ret in Hr |- *.
      destruct (TransformZipToFile ext (TransformFile ext fuel) deepPath content st)
        as [st1 [written| | | |]] eqn:Hto; try done.
      cbn in Hr. injection Hr as <-. cbn. split; [done|]. split; [by split|].
      by exists content, written.
  - pose proof (TransformFile_archivesUntouched (S fuel) deepPath file st I) as H.
    fold call in H.
    assert (Huntouched : archivesUntouched st call.1).
    { destruct call as [st' [r| | | |]]; cbn; [apply H|done..]. }
    destruct Huntouched as [Hreg (evs & Hevs & Hlog)].
    split; [by apply Hreg|]. exists evs. split; [done|].
    intros ev Hin Hpath. specialize (Hlog ev deepPath Hin Hpath). congruence.
Qed.

End Priority.

Lemma TransformFile_archive_takes_priority_witness :
  filesToTransform
    (TransformFile Fixture.ext 3 (NewDeepPath "outer.tar.gz")
       (BytesReader Fixture.outerTarGz) registeredArchive).1
    !! NewDeepPath "outer.tar.gz"
  = filesToTransform registeredArchive !! NewDeepPath "outer.tar.gz".
Proof.
  destruct (TransformFile_archive_takes_priority Fixture.ext 2 (NewDeepPath "outer.tar.gz")
              (BytesReader Fixture.outerTarGz) registeredArchive) as (_ & _ & Hreg & _).
  - reflexivity.
  - exact Hreg.
Defined.

(** ** Round trips through the rebuilders *)

Section RoundTrip.

Context {World : Type}.
Variable ext : Externals World.

Lemma TransformFile_plain_leaf (fuel : nat) (deepPath : DeepPath) (file : Reader)
    (st : State World) :
  looksLikeArchive deepPath = false ->
  filesToTransform st !! deepPath = None ->
  TransformFile ext (S fuel) deepPath file st = (st, Ok NoOpTransform).
Proof.
  intros Hleaf Hreg. rewrite TransformFile_leaf by done.
  unfold leafOutcome. cbv zeta. rewrite Hreg. cbn [default from_option id].
  by case_decide.
Qed.

Lemma TransformTarGzEntry_plain (fuel : nat) (tarGzDeepPath : DeepPath)
    (entry : tar.Header * bytes) (st : State World) :
  plainTarEntry ext st tarGzDeepPath entry ->
  TransformTarGzEntry ext (TransformFile ext (S fuel)) tarGzDeepPath entry st
  = (st, Ok [entry]).
Proof.
  destruct entry as [header fileContent].
  intros (Hsize & Hheader & (n & Hwrite & Hn) & deepPath & Happend & Hleaf & Hreg).
  cbn [fst snd] in *. unfold TransformTarGzEntry.
  rewrite decide_True by done. unfold bind at 1, lift at 1. rewrite Happend.
  unfold bind at 1. rewrite TransformFile_plain_leaf by done.
  cbn [newFile siblingFile NoOpTransform default from_option id UpdateTarHeader].
  unfold bind, WriteTarEntry. rewrite Hheader, Hwrite. rewrite decide_True by done.
  done.
Qed.

Lemma TransformTarGzEntries_plain (fuel : nat) (tarGzDeepPath : DeepPath)
    (entries : list (tar.Header * bytes)) (st : State World) :
  Forall (plainTarEntry ext st tarGzDeepPath) entries ->
  TransformTarGzEntries ext (TransformFile ext (S fuel)) tarGzDeepPath entries None st
  = (st, Ok entries).
Proof.
  induction 1 as [|entry entries Hentry _ IH]; [done|].
  cbn [TransformTarGzEntries]. unfold bind at 1.
  rewrite TransformTarGzEntry_plain by done.
  unfold bind at 1. rewrite IH. done.
Qed.

Lemma TransformZipEntry_plain (fuel : nat) (zipDeepPath : DeepPath) (zipEntry : zip.File)
    (st : State World) :
  plainZipEntry ext st zipDeepPath zipEntry ->
  TransformZipEntry ext (TransformFile ext (S fuel)) zipDeepPath zipEntry st
  = (st, Ok [rawCopy ext zipEntry]).
Proof.
  intros ((zipEntryFile & Hopen) & (raw & Hraw) & Hcreate & deepPath & Happend & Hleaf & Hreg).
  unfold TransformZipEntry, rawCopy.
  unfold bind at 1. rewrite Hopen. cbn [liftSum ret].
  unfold bind at 1, lift at 1. rewrite Happend.
  unfold bind at 1. rewrite TransformFile_plain_leaf by done.
  cbn [newFile siblingFile NoOpTransform UpdateZipHeader].
  unfold bind. rewrite Hraw, Hcreate. done.
Qed.

Lemma TransformZipEntries_plain (fuel : nat) (zipDeepPath : DeepPath)
    (files : list zip.File) (st : State World) :
  Forall (plainZipEntry ext st zipDeepPath) files ->
  TransformZipEntries ext (TransformFile ext (S fuel)) zipDeepPath files st
  = (st, Ok (rawCopy ext <$> files)).
Proof.
  induction 1 as [|zipEntry files Hentry _ IH]; [done|].
  cbn [TransformZipEntries]. unfold bind at 1.
  rewrite TransformZipEntry_plain by done.
  unfold bind at 1. rewrite IH. done.
Qed.

(** Archives without nested archives: a tar.gz archive none of whose
    entries is in the registry or is itself an archive is rebuilt from
    exactly its entries, in their order, each with its header and its
    content byte for byte; a zip archive of that kind is rebuilt from the
    raw copies of its entries.  The state stays as it was. *)
Lemma plain_archives_round_trip (fuel : nat) (st : State World)
    (deepPath : DeepPath) :
  (forall sourceFile entries,
     targz_Read ext sourceFile = (entries, None) ->
     Forall (plainTarEntry ext st deepPath) entries ->
     TransformTarGzToFile ext (TransformFile ext (S fuel)) deepPath sourceFile st
     = (st, Ok entries)
     /\ TransformTarGz ext (TransformFile ext (S fuel)) deepPath sourceFile st
        = (st, Ok {| newFile := Some (targz_Bytes ext entries); siblingFile := None;
                     siblingFileName := "" |}))
  /\ (forall sourceFile files,
        zip_NewReader ext sourceFile = inr files ->
        Forall (plainZipEntry ext st deepPath) files ->
        TransformZipToFile ext (TransformFile ext (S fuel)) deepPath sourceFile st
        = (st, Ok (rawCopy ext <$> files))
        /\ TransformZip ext (TransformFile ext (S fuel)) deepPath sourceFile st
           = (st, Ok {| newFile := Some (zip_Bytes ext (rawCopy ext <$> files));
                        siblingFile := None; siblingFileName := "" |})).
Proof.
  split.
  - intros sourceFile entries Hread Hplain.
    assert (Hto : TransformTarGzToFile ext (TransformFile ext (S fuel)) deepPath sourceFile st
                  = (st, Ok entries)).
    { unfold TransformTarGzToFile. rewrite Hread. by apply TransformTarGzEntries_plain. }
    split; [done|]. unfold TransformTarGz, bind. by rewrite Hto.
  - intros sourceFile files Hread Hplain.
    assert (Hto : TransformZipToFile ext (TransformFile ext (S fuel)) deepPath sourceFile st
                  = (st, Ok (rawCopy ext <$> files))).
    { unfold TransformZipToFile, bind at 1. rewrite Hread. cbn [liftSum ret].
      by apply TransformZipEntries_plain. }
    split; [done|]. unfold TransformZip, bind. by rewrite Hto.
Qed.

End RoundTrip.

(** The fixture's flat archives are of that kind. *)
Example flatTarGz_round_trip :
  TransformTarGzToFile Fixture.ext (TransformFile Fixture.ext 1) (NewDeepPath "flat.tar.gz")
    (BytesReader Fixture.flatTarGz) (initialState 0%nat)
  = (initialState 0%nat,
     Ok [(Fixture.tarEntryHeader "README" 1, [x52]);
         (Fixture.tarEntryHeader "bin/tool" 2, [x7f; x45])]).
Proof.
  apply (plain_archives_round_trip Fixture.ext 0 (initialState 0%nat)
           (NewDeepPath "flat.tar.gz")); [reflexivity|].
  repeat apply Forall_cons_2; [| |apply Forall_nil_2].
  - split; [reflexivity|]. split; [reflexivity|]. split; [by exists 1|].
    eexists. split; [reflexivity|]. split; [reflexivity|vm_compute; reflexivity].
  - split; [reflexivity|]. split; [reflexivity|]. split; [by exists 2|].
    eexists. split; [reflexivity|]. split; [reflexivity|vm_compute; reflexivity].
Qed.

Example flatZip_round_trip :
  TransformZipToFile Fixture.ext (TransformFile Fixture.ext 1) (NewDeepPath "flat.zip")
    Fixture.flatZip (initialState 0%nat)
  = (initialState 0%nat,
     Ok [zip.Raw (Fixture.zipEntryHeader "tool.txt" 1) [x74];
         zip.Raw (Fixture.zipEntryHeader "bin/tool.exe" 2) [x4d; x5a]]).
Proof.
  edestruct (proj2 (plain_archives_round_trip Fixture.ext 0 (initialState 0%nat)
                      (NewDeepPath "flat.zip")) Fixture.flatZip _ eq_refl) as [Hto _];
    [|exact Hto].
  repeat apply Forall_cons_2; [| |apply Forall_nil_2].
  - split; [by eexists|]. split; [by eexists|]. split; [reflexivity|].
    eexists. split; [reflexivity|]. split; [reflexivity|vm_compute; reflexivity].
  - split; [by eexists|]. split; [by eexists|]. split; [reflexivity|].
    eexists. split; [reflexivity|]. split; [reflexivity|vm_compute; reflexivity].
Qed.

(** *** Archives with nested archives *)

Section DeepRoundTrip.

Context {World : Type}.
Variable ext : Externals World.
Variable st : State World.

Lemma WriteTarEntry_takes (header : tar.Header) (content : bytes) :
  tarWriterTakes ext header content -> WriteTarEntry ext header content st = (st, Ok tt).
Proof.
  intros (Hheader & n & Hwrite & Hn). unfold WriteTarEntry.
  rewrite Hheader, Hwrite. by rewrite decide_True.
Qed.







End DeepRoundTrip.




(** ** The double-signing check *)

Section HashTables.

Variable destinationDirHashes : gmap DeepPath SHA256Hash.

Local Abbreviation destOf := (destinationHashOf destinationDirHashes).
Local Abbreviation tablesAfter :=
  (foldl (recordHashes destinationDirHashes) emptyHashTables).

Lemma recordHashes_sourceToDestinationHashes (t : HashTables) (path : DeepPath)
    (sourceHash : SHA256Hash) :
  sourceToDestinationHashes (recordHashes destinationDirHashes t (path, sourceHash))
  = <[sourceHash := <[destOf path := true]>
                      (default ∅ (sourceToDestinationHashes t !! sourceHash))]>
      (sourceToDestinationHashes t).
Proof.
  unfold recordHashes. cbn [sourceToDestinationHashes].
  destruct (sourceToDestinationHashes t !! sourceHash) as [g|] eqn:Hg.
  - by rewrite Hg.
  - rewrite lookup_insert_eq. cbn. by rewrite insert_insert_eq.
Qed.

(** After the first loop has met the entries [visited], a destination
    digest is in the group of a source digest exactly when some visited
    path has both. *)
Lemma tablesAfter_groups (visited : list (DeepPath * SHA256Hash))
    (sourceHash destinationHash : SHA256Hash) :
  is_Some (default ∅ (sourceToDestinationHashes (tablesAfter visited) !! sourceHash)
             !! destinationHash)
  <-> exists path, (path, sourceHash) ∈ visited /\ destOf path = destinationHash.
Proof.
  induction visited as [|[path h] visited IH] using rev_ind.
  - cbn. rewrite lookup_empty. cbn. rewrite lookup_empty. split; [by intros [? ?]|].
    intros (p & Hin & _). by apply elem_of_nil in Hin.
  - rewrite foldl_snoc, recordHashes_sourceToDestinationHashes.
    rewrite lookup_insert. case_decide as Hh.
    + subst h. cbn [default from_option id]. rewrite lookup_insert. case_decide as Hd.
      * split; [|by eexists]. intros _. exists path. split; [|done].
        apply elem_of_app. right. by apply list_elem_of_singleton.
      * rewrite IH. split.
        -- intros (p & Hin & Hp). exists p. split; [|done]. apply elem_of_app. by left.
        -- intros (p & [Hin|Hin%list_elem_of_singleton]%elem_of_app & Hp).
           ++ by exists p.
           ++ by simplify_eq.
    + rewrite IH. split.
      * intros (p & Hin & Hp). exists p. split; [|done]. apply elem_of_app. by left.
      * intros (p & [Hin|Hin%list_elem_of_singleton]%elem_of_app & Hp).
        -- by exists p.
        -- by simplify_eq.
Qed.

(** A source digest has a group exactly when some visited path has it. *)
Lemma tablesAfter_group_keys (visited : list (DeepPath * SHA256Hash))
    (sourceHash : SHA256Hash) :
  is_Some (sourceToDestinationHashes (tablesAfter visited) !! sourceHash)
  <-> exists path, (path, sourceHash) ∈ visited.
Proof.
  induction visited as [|[path h] visited IH] using rev_ind.
  - cbn. rewrite lookup_empty. split; [by intros [? ?]|].
    intros (p & Hin). by apply elem_of_nil in Hin.
  - rewrite foldl_snoc, recordHashes_sourceToDestinationHashes.
    rewrite lookup_insert. case_decide as Hh.
    + subst h. split; [|by eexists]. intros _. exists path.
      apply elem_of_app. right. by apply list_elem_of_singleton.
    + rewrite IH. split.
      * intros (p & Hin). exists p. apply elem_of_app. by left.
      * intros (p & [Hin|Hin%list_elem_of_singleton]%elem_of_app).
        -- by exists p.
        -- by simplify_eq.
Qed.

(** The paths listed under a destination digest are the visited paths
    with that digest, in the order of the visit. *)
Lemma tablesAfter_destinationHashToPaths (visited : list (DeepPath * SHA256Hash))
    (destinationHash : SHA256Hash) :
  default [] (destinationHashToPaths (tablesAfter visited) !! destinationHash)
  = (filter (fun e => destOf e.1 = destinationHash) visited).*1.
Proof.
  induction visited as [|[path h] visited IH] using rev_ind; [done|].
  rewrite foldl_snoc. unfold recordHashes at 1. cbn [destinationHashToPaths].
  rewrite list.filter_app, fmap_app, lookup_insert. case_decide as Hd.
  - subst destinationHash. cbn [default from_option id]. rewrite IH.
    rewrite filter_cons_True by done. by rewrite filter_nil.
  - rewrite IH. rewrite filter_cons_False by done. rewrite filter_nil.
    by rewrite app_nil_r.
Qed.

Lemma representative_spec (visited : list (DeepPath * SHA256Hash))
    (destinationHash : SHA256Hash) :
  (exists path sourceHash,
     (path, sourceHash) ∈ visited /\ destOf path = destinationHash) ->
  default [] (destinationHashToPaths (tablesAfter visited) !! destinationHash) <> []
  /\ destOf (representative (destinationHashToPaths (tablesAfter visited)) destinationHash)
     = destinationHash
  /\ exists sourceHash,
       (representative (destinationHashToPaths (tablesAfter visited)) destinationHash,
        sourceHash) ∈ visited.
Proof.
  intros (path & h & Hin & Hd). unfold representative.
  rewrite tablesAfter_destinationHashToPaths.
  assert (Hpath : (path, h) ∈ filter (fun e => destOf e.1 = destinationHash) visited).
  { by apply list_elem_of_filter. }
  destruct (filter (fun e => destOf e.1 = destinationHash) visited)
    as [|[first h'] rest] eqn:Hfilter; [by apply elem_of_nil in Hpath|].
  assert (Hfirst : (first, h') ∈ filter (fun e => destOf e.1 = destinationHash) visited).
  { rewrite Hfilter. apply elem_of_cons. by left. }
  apply list_elem_of_filter in Hfirst as [Hfirst1 Hfirst2].
  cbn. split; [done|]. split; [done|]. by exists h'.
Qed.

End HashTables.

Lemma map_size_gt_1 {K} `{Countable K} {V} (m : gmap K V) :
  (1 < size m)%nat <-> exists k1 k2, k1 <> k2 /\ is_Some (m !! k1) /\ is_Some (m !! k2).
Proof.
  split.
  - intros Hsize.
    destruct (map_size_ne_0_lookup_1 m ltac:(lia)) as [k1 Hk1].
    assert (Hrest : size (delete k1 m) <> 0%nat).
    { rewrite map_size_delete_Some by done. lia. }
    destruct (map_size_ne_0_lookup_1 _ Hrest) as [k2 Hk2].
    exists k1, k2. destruct (decide (k1 = k2)) as [->|Hne].
    + rewrite lookup_delete_eq in Hk2. by destruct Hk2.
    + rewrite lookup_delete_ne in Hk2 by done. done.
  - intros (k1 & k2 & Hne & Hk1 & Hk2).
    assert (Hrest : size (delete k1 m) <> 0%nat).
    { apply (map_size_ne_0_lookup_2 _ k2). by rewrite lookup_delete_ne. }
    rewrite map_size_delete_Some in Hrest by done.
    destruct (size m) as [|[|n]]; cbn in Hrest; [done|done|lia].
Qed.

Lemma withEvents_nil {World} (st : State World) : withEvents st [] = st.
Proof. unfold withEvents. rewrite app_nil_r. by destruct st. Qed.

Lemma withEvents_app {World} (st : State World) (evs evs' : list Event) :
  withEvents (withEvents st evs) evs' = withEvents st (evs ++ evs')%list.
Proof. unfold withEvents. cbn. by rewrite app_assoc. Qed.

Lemma badConversionLines_length (paths : list DeepPath) (previousPath : option DeepPath) :
  length (badConversionLines paths previousPath)
  = match previousPath with
    | Some _ => length paths
    | None => pred (length paths)
    end.
Proof.
  revert previousPath. induction paths as [|path paths IH]; intros previousPath.
  - by destruct previousPath.
  - cbn [badConversionLines]. rewrite length_app, IH. by destruct previousPath.
Qed.

(** Every line names a path and the path met just before it. *)
Lemma badConversionLines_adjacent (paths : list DeepPath) (previousPath : option DeepPath)
    (ev : Event) :
  ev ∈ badConversionLines paths previousPath ->
  exists i path previous,
    ev = LogDifferentHashes path previous
    /\ (option_list previousPath ++ paths)%list !! i = Some previous
    /\ (option_list previousPath ++ paths)%list !! S i = Some path.
Proof.
  revert previousPath. induction paths as [|path paths IH]; intros previousPath.
  - intros Hin. by apply elem_of_nil in Hin.
  - cbn [badConversionLines]. intros [Hin|Hin]%elem_of_app.
    + destruct previousPath as [previous|]; [|by apply elem_of_nil in Hin].
      apply list_elem_of_singleton in Hin as ->. by exists 0%nat, path, previous.
    + destruct (IH _ Hin) as (i & p & q & -> & Hq & Hp). cbn in Hq, Hp.
      destruct previousPath as [previous|]; cbn.
      * by exists (S i), p, q.
      * by exists i, p, q.
Qed.

Section DoubleSigning.

Context {World : Type}.
Variable ext : Externals World.
Variable mr : MapRange.

Lemma prettyPrintBadConversion_loop_spec (destinationHashToPaths : gmap SHA256Hash (list DeepPath))
    (visit : list (SHA256Hash * bool)) (previousPath : option DeepPath) (st : State World) :
  Forall (fun e => default [] (destinationHashToPaths !! e.1) <> []) visit ->
  prettyPrintBadConversion_loop destinationHashToPaths visit previousPath st
  = (withEvents st
       (badConversionLines (representative destinationHashToPaths <$> visit.*1) previousPath),
     Ok tt).
Proof.
  intros Hvisit. revert previousPath st.
  induction Hvisit as [|[destinationHash b] visit Hhead _ IH]; intros previousPath st.
  - cbn. by rewrite withEvents_nil.
  - cbn [prettyPrintBadConversion_loop fmap list_fmap fst badConversionLines].
    cbn [fst] in Hhead.
    destruct (default [] (destinationHashToPaths !! destinationHash)) as [|path rest]
      eqn:Hpaths; [done|].
    assert (Hrep : representative destinationHashToPaths destinationHash = path).
    { unfold representative. by rewrite Hpaths. }
    rewrite Hrep. unfold bind.
    destruct previousPath as [previous|]; cbn [emit ret].
    + rewrite IH. fold (withEvents st [LogDifferentHashes path previous]).
      by rewrite withEvents_app.
    + by rewrite IH.
Qed.

Lemma CheckDoubleSigning_loop_spec (destinationHashToPaths : gmap SHA256Hash (list DeepPath))
    (visit : list (SHA256Hash * gmap SHA256Hash bool)) (detectedBug : bool)
    (st : State World) :
  Forall (fun group => forall destinationHash,
            is_Some (group.2 !! destinationHash) ->
            default [] (destinationHashToPaths !! destinationHash) <> []) visit ->
  CheckDoubleSigning_loop mr destinationHashToPaths visit detectedBug st
  = (withEvents st (flat_map (groupLines mr destinationHashToPaths) visit),
     Ok (detectedBug
         || bool_decide (Exists (fun group => (1 < size group.2)%nat) visit))).
Proof.
  intros Hvisit. revert detectedBug st.
  induction Hvisit as [|[sourceHash destinationHashes] visit Hhead _ IH];
    intros detectedBug st.
  - cbn. rewrite withEvents_nil, orb_false_r. done.
  - cbn [CheckDoubleSigning_loop flat_map]. unfold groupLines at 1. cbn [snd].
    case_decide as Hsize.
    + unfold bind, prettyPrintBadConversion.
      rewrite prettyPrintBadConversion_loop_spec.
      * rewrite IH, withEvents_app.
        rewrite (bool_decide_eq_true_2 (Exists _ (_ :: _))) by (by left).
        by rewrite orb_true_r.
      * apply list.Forall_forall. intros [d b] Hin. cbn [fst]. apply Hhead. cbn [snd].
        exists b. apply (elem_of_map_to_list destinationHashes d b).
        rewrite <- (range_Permutation mr). exact Hin.
    + rewrite IH. cbn [app]. do 3 f_equal. apply bool_decide_ext.
      rewrite Exists_cons. cbn [snd]. tauto.
Qed.

End DoubleSigning.

Section DoubleSigningCheck.

Context {World : Type}.
Variable ext : Externals World.
Variable mr : MapRange.
Variables sourceDirHashes destinationDirHashes : gmap DeepPath SHA256Hash.

Local Abbreviation destOf := (destinationHashOf destinationDirHashes).
Local Abbreviation visited := (range mr sourceDirHashes).
Local Abbreviation tables :=
  (foldl (recordHashes destinationDirHashes) emptyHashTables (range mr sourceDirHashes)).

Lemma visited_spec (path : DeepPath) (sourceHash : SHA256Hash) :
  (path, sourceHash) ∈ visited <-> sourceDirHashes !! path = Some sourceHash.
Proof. rewrite (range_Permutation mr). apply elem_of_map_to_list. Qed.

Lemma range_spec {K} `{Countable K} {V} (m : gmap K V) (k : K) (v : V) :
  (k, v) ∈ range mr m <-> m !! k = Some v.
Proof. rewrite (range_Permutation mr). apply elem_of_map_to_list. Qed.

Lemma range_keys_NoDup {K} `{Countable K} {V} (m : gmap K V) : NoDup (range mr m).*1.
Proof. rewrite (range_Permutation mr). apply NoDup_fst_map_to_list. Qed.

Lemma range_length {K} `{Countable K} {V} (m : gmap K V) : length (range mr m) = size m.
Proof. rewrite (range_Permutation mr). apply length_map_to_list. Qed.

Lemma group_member (sourceHash destinationHash : SHA256Hash) (group : gmap SHA256Hash bool) :
  sourceToDestinationHashes tables !! sourceHash = Some group ->
  is_Some (group !! destinationHash)
  <-> exists path,
        sourceDirHashes !! path = Some sourceHash /\ destOf path = destinationHash.
Proof.
  intros Hgroup.
  pose proof (tablesAfter_groups destinationDirHashes visited sourceHash destinationHash) as H.
  rewrite Hgroup in H. cbn [default from_option id] in H. rewrite H.
  split; intros (path & Hin & Hd); exists path; by rewrite visited_spec in *.
Qed.

Lemma representative_of_member (sourceHash destinationHash : SHA256Hash)
    (group : gmap SHA256Hash bool) :
  sourceToDestinationHashes tables !! sourceHash = Some group ->
  is_Some (group !! destinationHash) ->
  default [] (destinationHashToPaths tables !! destinationHash) <> []
  /\ destOf (representative (destinationHashToPaths tables) destinationHash) = destinationHash
  /\ is_Some (sourceDirHashes
                !! representative (destinationHashToPaths tables) destinationHash).
Proof.
  intros Hgroup (path & Hpath & Hd)%(group_member _ _ _ Hgroup).
  destruct (representative_spec destinationDirHashes visited destinationHash)
    as (Hne & Hdest & h & Hin).
  { exists path, sourceHash. by rewrite visited_spec. }
  split; [done|]. split; [done|]. exists h. by apply visited_spec.
Qed.

(** A group with more than one destination digest is what a violating
    pair of paths looks like in the tables. *)
Lemma bad_group_iff (sourceHash : SHA256Hash) :
  (exists group, sourceToDestinationHashes tables !! sourceHash = Some group
                 /\ (1 < size group)%nat)
  <-> exists path1 path2,
        violatingPair sourceDirHashes destinationDirHashes sourceHash path1 path2.
Proof.
  split.
  - intros (group & Hgroup & (d1 & d2 & Hne & Hd1 & Hd2)%map_size_gt_1).
    apply (group_member _ _ _ Hgroup) in Hd1 as (path1 & Hpath1 & Hdest1).
    apply (group_member _ _ _ Hgroup) in Hd2 as (path2 & Hpath2 & Hdest2).
    exists path1, path2. split; [done|]. split; [done|]. congruence.
  - intros (path1 & path2 & Hpath1 & Hpath2 & Hne).
    destruct (proj2 (tablesAfter_group_keys destinationDirHashes visited sourceHash))
      as [group Hgroup].
    { exists path1. by apply visited_spec. }
    exists group. split; [done|]. apply map_size_gt_1.
    exists (destOf path1), (destOf path2). split; [done|].
    split; apply (group_member _ _ _ Hgroup); [by exists path1|by exists path2].
Qed.

(** What the lines logged for one group say. *)
Lemma groupLines_reported (sourceHash : SHA256Hash) (group : gmap SHA256Hash bool)
    (ev : Event) :
  sourceToDestinationHashes tables !! sourceHash = Some group ->
  ev ∈ groupLines mr (destinationHashToPaths tables) (sourceHash, group) ->
  exists path previous,
    ev = LogDifferentHashes path previous
    /\ reportedFor sourceDirHashes destinationDirHashes sourceHash path previous.
Proof.
  intros Hgroup. unfold groupLines. cbn [snd].
  case_decide as Hsize; [|intros Hin; by apply elem_of_nil in Hin].
  intros (i & path & previous & -> & Hprevious & Hpath)%badConversionLines_adjacent.
  unfold option_list in Hprevious, Hpath. cbn [option_rect app] in Hprevious, Hpath.
  rewrite list_lookup_fmap in Hprevious, Hpath.
  destruct ((range mr group).*1 !! i) as [dPrevious|] eqn:HdPrevious; [|done].
  destruct ((range mr group).*1 !! S i) as [dPath|] eqn:HdPath; [|done].
  cbn in Hprevious, Hpath. injection Hprevious as <-. injection Hpath as <-.
  assert (Hne : dPath <> dPrevious).
  { intros ->.
    pose proof (NoDup_lookup _ _ _ _ (range_keys_NoDup group) HdPrevious HdPath). lia. }
  assert (Hmember : forall j d, (range mr group).*1 !! j = Some d -> is_Some (group !! d)).
  { intros j d Hj. apply list_lookup_fmap_Some in Hj as ([d' b] & -> & Hlookup).
    exists b. apply range_spec. by eapply list_elem_of_lookup_2. }
  pose proof (Hmember _ _ HdPrevious) as HmPrevious.
  pose proof (Hmember _ _ HdPath) as HmPath.
  destruct (representative_of_member _ _ _ Hgroup HmPrevious) as (_ & HrepPrevious & HsrcPrevious).
  destruct (representative_of_member _ _ _ Hgroup HmPath) as (_ & HrepPath & HsrcPath).
  eexists _, _. split; [done|].
  split; [done|]. split; [done|]. split; [congruence|].
  apply (group_member _ _ _ Hgroup) in HmPrevious as (path2 & Hpath2 & Hdest2).
  apply (group_member _ _ _ Hgroup) in HmPath as (path1 & Hpath1 & Hdest1).
  split; [exists path1|exists path2]; split; congruence.
Qed.

(** A group with more than one destination digest gets one line less than
    it has destination digests, so at least one. *)
Lemma groupLines_length (sourceHash : SHA256Hash) (group : gmap SHA256Hash bool) :
  (1 < size group)%nat ->
  length (groupLines mr (destinationHashToPaths tables) (sourceHash, group))
  = pred (size group).
Proof.
  intros Hsize. unfold groupLines. cbn [snd]. rewrite decide_True by done.
  by rewrite badConversionLines_length, !length_fmap, range_length.
Qed.

(** The run of the check in closed form: the lines of every group, in the
    order the groups are visited, and an error when some group has more
    than one destination digest. *)
Lemma CheckDoubleSigning_run (sourceDir destinationDir : string) (st : State World) :
  DeepHashDirectory ext sourceDir = inr sourceDirHashes ->
  DeepHashDirectory ext destinationDir = inr destinationDirHashes ->
  CheckDoubleSigning ext mr sourceDir destinationDir st
  = (withEvents st
       (flat_map (groupLines mr (destinationHashToPaths tables))
          (range mr (sourceToDestinationHashes tables))),
     if bool_decide (Exists (fun group : SHA256Hash * gmap SHA256Hash bool =>
                               (1 < size group.2)%nat)
                       (range mr (sourceToDestinationHashes tables)))
     then Err (Errorf "bug detected in sign-release.go")
     else Ok tt).
Proof.
  intros Hsource Hdestination.
  unfold CheckDoubleSigning, bind. rewrite Hsource, Hdestination. cbn [liftSum ret].
  rewrite CheckDoubleSigning_loop_spec.
  - cbn [orb]. by destruct (bool_decide _).
  - apply list.Forall_forall. intros [h group] Hin%range_spec d Hd. cbn [snd] in Hd.
    by apply (representative_of_member h d group).
Qed.

(** Two paths met one after the other get their line. *)
Lemma badConversionLines_adjacent_2 (paths : list DeepPath) (previousPath : option DeepPath)
    (i : nat) (path previous : DeepPath) :
  (option_list previousPath ++ paths)%list !! i = Some previous ->
  (option_list previousPath ++ paths)%list !! S i = Some path ->
  LogDifferentHashes path previous ∈ badConversionLines paths previousPath.
Proof.
  revert previousPath i. induction paths as [|path0 paths IH]; intros previousPath i.
  - destruct previousPath; [destruct i|]; done.
  - cbn [badConversionLines]. destruct previousPath as [p|]; cbn.
    + destruct i as [|i]; cbn.
      * intros [= ->] [= ->]. apply elem_of_cons. by left.
      * intros Hprevious Hpath. apply elem_of_cons. right.
        by apply (IH (Some path0) i).
    + intros Hprevious Hpath. by apply (IH (Some path0) i).
Qed.

(** In a chain through two paths or more, every path is named by a line. *)
Lemma badConversionLines_names_all (paths : list DeepPath) (named : DeepPath) :
  (2 <= length paths)%nat -> named ∈ paths ->
  exists path previous,
    LogDifferentHashes path previous ∈ badConversionLines paths None
    /\ (path = named \/ previous = named).
Proof.
  intros Hlength [i Hi]%list_elem_of_lookup. destruct i as [|i].
  - destruct (lookup_lt_is_Some_2 paths 1%nat) as [path Hpath]; [lia|].
    exists path, named. split; [|by right].
    by apply (badConversionLines_adjacent_2 paths None 0%nat).
  - destruct (lookup_lt_is_Some_2 paths i) as [previous Hprevious].
    { apply lookup_lt_Some in Hi. lia. }
    exists named, previous. split; [|by left].
    by apply (badConversionLines_adjacent_2 paths None i).
Qed.

(** The source digests that get lines, each with its destination
    digests in the order [prettyPrintBadConversion] visits them. *)
Lemma groupLines_chains :
  flat_map (groupLines mr (destinationHashToPaths tables))
    (range mr (sourceToDestinationHashes tables))
  = flat_map (fun chain : SHA256Hash * list SHA256Hash =>
                badConversionLines
                  (representative (destinationHashToPaths tables) <$> chain.2) None)
      ((fun group : SHA256Hash * gmap SHA256Hash bool => (group.1, (range mr group.2).*1))
         <$> filter (fun group : SHA256Hash * gmap SHA256Hash bool => (1 < size group.2)%nat)
               (range mr (sourceToDestinationHashes tables))).
Proof.
  induction (range mr (sourceToDestinationHashes tables)) as [|group groups IH]; [done|].
  rewrite filter_cons. cbn [flat_map]. rewrite IH. unfold groupLines at 1.
  case_decide; [|done]. by rewrite fmap_cons.
Qed.

(** C2, as the code has it.  When both trees have been hashed,
    [CheckDoubleSigning] returns an error if and only if two paths have
    equal source digests and different destination digests (a path missing
    from the destination map counts with the zero digest); when no such
    pair exists it logs nothing and returns nil.  Otherwise it logs, before
    it returns its single error, at least one line for every source digest
    that has such a pair; every line names two hashed paths whose
    destination digests differ and are both destination digests of files
    with one such source digest (one representative path per destination
    digest, so not every violating pair of paths is named).  Nothing but
    the log changes, and the check does not panic.

    The log, exactly: every source digest that has such a pair gets, once,
    a chain of lines through all the destination digests of its files, [k]
    of them, in some order and each by a representative path, a hashed
    path with that destination digest: [k - 1] lines, each naming the
    representative of one destination digest and the representative of
    the one visited before it, so that every destination digest of the
    source digest is named.  Nothing else is logged. *)
Theorem CheckDoubleSigning_detects_double_signing (sourceDir destinationDir : string)
    (st : State World) :
  DeepHashDirectory ext sourceDir = inr sourceDirHashes ->
  DeepHashDirectory ext destinationDir = inr destinationDirHashes ->
  exists logged,
    (CheckDoubleSigning ext mr sourceDir destinationDir st).1 = withEvents st logged
    /\ ((exists e, (CheckDoubleSigning ext mr sourceDir destinationDir st).2 = Err e)
        <-> doubleSigned sourceDirHashes destinationDirHashes)
    /\ (doubleSigned sourceDirHashes destinationDirHashes ->
          (CheckDoubleSigning ext mr sourceDir destinationDir st).2
          = Err (Errorf "bug detected in sign-release.go"))
    /\ (~ doubleSigned sourceDirHashes destinationDirHashes ->
          (CheckDoubleSigning ext mr sourceDir destinationDir st).2 = Ok tt
          /\ logged = [])
    /\ (forall sourceHash path1 path2,
          violatingPair sourceDirHashes destinationDirHashes sourceHash path1 path2 ->
          exists path previous,
            LogDifferentHashes path previous ∈ logged
            /\ reportedFor sourceDirHashes destinationDirHashes sourceHash path previous)
    /\ (forall ev, ev ∈ logged ->
          exists sourceHash path previous,
            ev = LogDifferentHashes path previous
            /\ reportedFor sourceDirHashes destinationDirHashes sourceHash path previous)
    /\ exists (chains : list (SHA256Hash * list SHA256Hash))
          (representativeOf : SHA256Hash -> DeepPath),
         logged
         = flat_map (fun chain : SHA256Hash * list SHA256Hash =>
                       badConversionLines (representativeOf <$> chain.2) None) chains
         /\ NoDup chains.*1
         /\ (forall sourceHash,
               sourceHash ∈ chains.*1
               <-> exists path1 path2,
                     violatingPair sourceDirHashes destinationDirHashes sourceHash
                       path1 path2)
         /\ forall sourceHash destinationHashes,
              (sourceHash, destinationHashes) ∈ chains ->
              NoDup destinationHashes
              /\ (2 <= length destinationHashes)%nat
              /\ (forall destinationHash,
                    destinationHash ∈ destinationHashes
                    <-> exists path,
                          sourceDirHashes !! path = Some sourceHash
                          /\ destOf path = destinationHash)
              /\ (forall destinationHash,
                    destinationHash ∈ destinationHashes ->
                    is_Some (sourceDirHashes !! representativeOf destinationHash)
                    /\ destOf (representativeOf destinationHash) = destinationHash)
              /\ length (badConversionLines (representativeOf <$> destinationHashes) None)
                 = pred (length destinationHashes)
              /\ (forall destinationHash,
                    destinationHash ∈ destinationHashes ->
                    exists path previous,
                      LogDifferentHashes path previous ∈ logged
                      /\ (path = representativeOf destinationHash
                          \/ previous = representativeOf destinationHash)).
Proof.
  intros Hsource Hdestination.
  set (logged := flat_map (groupLines mr (destinationHashToPaths tables))
                   (range mr (sourceToDestinationHashes tables))).
  set (bad := Exists (fun group : SHA256Hash * gmap SHA256Hash bool =>
                        (1 < size group.2)%nat)
                (range mr (sourceToDestinationHashes tables))).
  pose proof (CheckDoubleSigning_run sourceDir destinationDir st Hsource Hdestination)
    as Hrun.
  fold logged bad in Hrun.
  assert (Hbad : bad <-> doubleSigned sourceDirHashes destinationDirHashes).
  { unfold bad, doubleSigned. rewrite list.Exists_exists. split.
    - intros ([h group] & Hin%range_spec & Hsize). exists h.
      apply bad_group_iff. by exists group.
    - intros (h & (group & Hgroup & Hsize)%bad_group_iff).
      exists (h, group). split; [by apply range_spec|done]. }
  assert (Hlogged : forall ev, ev ∈ logged <->
            exists h group, sourceToDestinationHashes tables !! h = Some group
              /\ ev ∈ groupLines mr (destinationHashToPaths tables) (h, group)).
  { intros ev. unfold logged. rewrite list_elem_of_In, in_flat_map. split.
    - intros ([h group] & Hin%list_elem_of_In%range_spec & Hev%list_elem_of_In).
      by exists h, group.
    - intros (h & group & Hgroup & Hev). exists (h, group).
      split; apply list_elem_of_In; [by apply range_spec|done]. }
  exists logged. rewrite Hrun. cbn [fst snd].
  split; [done|]. split; [|split; [|split; [|split; [|split]]]].
  - rewrite <- Hbad. case_bool_decide; split; try done.
    + intros _. by eexists.
    + by intros [e ?].
  - intros Hdouble%Hbad. by rewrite bool_decide_eq_true_2.
  - intros Hnone. rewrite <- Hbad in Hnone. rewrite bool_decide_eq_false_2 by done.
    split; [done|].
    destruct logged as [|ev rest] eqn:Hevs; [done|]. exfalso.
    destruct (proj1 (Hlogged ev)) as (h & group & Hgroup & Hev).
    { apply elem_of_cons. by left. }
    unfold groupLines in Hev. cbn [snd] in Hev.
    case_decide as Hsize; [|by apply elem_of_nil in Hev].
    apply Hnone. unfold bad. apply list.Exists_exists. exists (h, group).
    split; [by apply range_spec|done].
  - intros h path1 path2 Hpair.
    destruct (proj2 (bad_group_iff h)) as (group & Hgroup & Hsize); [by eexists _, _|].
    pose proof (groupLines_length h group Hsize) as Hlength.
    destruct (groupLines mr (destinationHashToPaths tables) (h, group))
      as [|ev rest] eqn:Hlines; [cbn in Hlength; lia|].
    assert (Hev : ev ∈ groupLines mr (destinationHashToPaths tables) (h, group)).
    { rewrite Hlines. apply elem_of_cons. by left. }
    destruct (groupLines_reported h group ev Hgroup Hev) as (path & previous & -> & Hrep).
    exists path, previous. split; [|done]. apply Hlogged. by exists h, group.
  - intros ev (h & group & Hgroup & Hev)%Hlogged.
    destruct (groupLines_reported h group ev Hgroup Hev) as (path & previous & -> & Hrep).
    by exists h, path, previous.
  - set (bad_group := fun group : SHA256Hash * gmap SHA256Hash bool =>
                        (1 < size group.2)%nat).
    set (chain_of := fun group : SHA256Hash * gmap SHA256Hash bool =>
                       (group.1, (range mr group.2).*1)).
    set (chains := chain_of <$> filter bad_group (range mr (sourceToDestinationHashes tables))).
    assert (Hchain : forall h ds,
              (h, ds) ∈ chains <->
              exists group, sourceToDestinationHashes tables !! h = Some group
                            /\ (1 < size group)%nat /\ ds = (range mr group).*1).
    { intros h ds. unfold chains. rewrite list_elem_of_fmap. split.
      - intros ([h' group] & [= -> ->] & [Hsize Hin%range_spec]%list_elem_of_filter).
        by exists group.
      - intros (group & Hgroup & Hsize & ->). exists (h, group). split; [done|].
        apply list_elem_of_filter. split; [done|]. by apply range_spec. }
    exists chains, (representative (destinationHashToPaths tables)).
    split; [apply groupLines_chains|]. split; [|split].
    + unfold chains. rewrite <- list_fmap_compose.
      apply (sublist_NoDup _ (range mr (sourceToDestinationHashes tables)).*1);
        [apply range_keys_NoDup|].
      apply fmap_sublist, sublist_filter.
    + intros h. rewrite <- bad_group_iff. rewrite list_elem_of_fmap. split.
      * intros ([h' ds] & -> & (group & Hgroup & Hsize & _)%Hchain). by exists group.
      * intros (group & Hgroup & Hsize). exists (h, (range mr group).*1).
        split; [done|]. apply Hchain. by exists group.
    + intros h ds (group & Hgroup & Hsize & ->)%Hchain.
      assert (Hmember : forall d, d ∈ (range mr group).*1 <-> is_Some (group !! d)).
      { intros d. rewrite list_elem_of_fmap. split.
        - intros ([d' b] & -> & Hin%range_spec). by exists b.
        - intros [b Hb]. exists (d, b). split; [done|]. by apply range_spec. }
      assert (Hlength : length (range mr group).*1 = size group)
        by (by rewrite length_fmap, range_length).
      split; [apply range_keys_NoDup|]. split; [lia|]. split; [|split; [|split]].
      * intros d. rewrite Hmember. by apply group_member.
      * intros d Hd%Hmember.
        by destruct (representative_of_member h d group Hgroup Hd) as (_ & ? & ?).
      * by rewrite badConversionLines_length, length_fmap.
      * intros d Hd.
        destruct (badConversionLines_names_all
                    (representative (destinationHashToPaths tables) <$> (range mr group).*1)
                    (representative (destinationHashToPaths tables) d))
          as (path & previous & Hline & Hnamed).
        { rewrite length_fmap. lia. }
        { apply list_elem_of_fmap. by exists d. }
        exists path, previous. split; [|done]. apply Hlogged. exists h, group.
        split; [done|]. unfold groupLines. cbn [snd]. by rewrite decide_True.
Qed.

End DoubleSigningCheck.

(** C2 at a concrete input: the fixture's trees, where [a.exe], [b.exe]
    and [c.exe] have one source digest and [c.exe] another destination
    digest than the other two. *)
Lemma fixture_violatingPair :
  violatingPair Fixture.sourceHashes Fixture.destinationHashes (Fixture.fx_sha256_Sum [x01])
    (NewDeepPath "a.exe") (NewDeepPath "c.exe")
  /\ violatingPair Fixture.sourceHashes Fixture.destinationHashes (Fixture.fx_sha256_Sum [x01])
       (NewDeepPath "b.exe") (NewDeepPath "c.exe").
Proof.
  split; (split; [vm_compute; reflexivity|]); (split; [vm_compute; reflexivity|]);
    vm_compute; intros H; discriminate H.
Qed.

Lemma CheckDoubleSigning_detects_double_signing_witness :
  (CheckDoubleSigning Fixture.ext Fixture.mr "source" "destination" (initialState 0%nat)).2
  = Err (Errorf "bug detected in sign-release.go").
Proof.
  destruct (CheckDoubleSigning_detects_double_signing Fixture.ext Fixture.mr
              Fixture.sourceHashes Fixture.destinationHashes "source" "destination"
              (initialState 0%nat)) as (logged & _ & _ & Hfail & _).
  - reflexivity.
  - reflexivity.
  - apply Hfail. eexists _, _, _. apply fixture_violatingPair.
Defined.

Section UnreportedPair.

Variable mr : MapRange.

Local Abbreviation a := (NewDeepPath "a.exe").
Local Abbreviation b := (NewDeepPath "b.exe").
Local Abbreviation c := (NewDeepPath "c.exe").
Local Abbreviation h0 := (Fixture.fx_sha256_Sum [x01]).
Local Abbreviation dA := (Fixture.fx_sha256_Sum [x0a]).
Local Abbreviation dB := (Fixture.fx_sha256_Sum [x0b]).
Local Abbreviation fixtureTables :=
  (foldl (recordHashes Fixture.destinationHashes) emptyHashTables
     (range mr Fixture.sourceHashes)).

Lemma fixture_source_lookup (path : DeepPath) (sourceHash : SHA256Hash) :
  Fixture.sourceHashes !! path = Some sourceHash ->
  (path = a \/ path = b \/ path = c) /\ sourceHash = h0.
Proof.
  unfold Fixture.sourceHashes. cbn [list_to_map foldr uncurry curry].
  rewrite !lookup_insert, lookup_empty. repeat case_decide; naive_solver.
Qed.

Lemma fixture_destinationHashOf :
  destinationHashOf Fixture.destinationHashes a = dA
  /\ destinationHashOf Fixture.destinationHashes b = dA
  /\ destinationHashOf Fixture.destinationHashes c = dB
  /\ dA <> dB.
Proof. repeat split; try (vm_compute; reflexivity). vm_compute. intros H; discriminate H. Qed.

Lemma fixture_groups :
  exists group, sourceToDestinationHashes fixtureTables = {[h0 := group]} /\ size group = 2%nat.
Proof.
  destruct fixture_violatingPair as [(Ha & Hc & _) (Hb & _ & _)].
  destruct fixture_destinationHashOf as (HdA & HdA' & HdB & Hne).
  destruct (proj2 (tablesAfter_group_keys Fixture.destinationHashes
                     (range mr Fixture.sourceHashes) h0)) as [group Hgroup].
  { exists a. by apply visited_spec. }
  exists group. split.
  - apply map_eq. intros h. rewrite lookup_singleton. case_decide as Hh; [by subst|].
    apply eq_None_not_Some.
    intros (path & Hin%visited_spec%fixture_source_lookup)%tablesAfter_group_keys.
    destruct Hin as [_ Heq]. by apply Hh.
  - pose proof (group_member mr Fixture.sourceHashes Fixture.destinationHashes h0) as Hmember.
    destruct (proj2 (Hmember dA group Hgroup)) as [bA HbA]; [by exists a|].
    destruct (proj2 (Hmember dB group Hgroup)) as [bB HbB]; [by exists c|].
    assert (Hg : group = <[dA := bA]> {[dB := bB]}).
    { apply map_eq. intros d. rewrite lookup_insert. case_decide as HA; [by subst|].
      rewrite lookup_singleton. case_decide as HB; [by subst|].
      apply eq_None_not_Some.
      intros (path & Hpath & Hd)%(Hmember d group Hgroup).
      apply fixture_source_lookup in Hpath as [Hpath _].
      destruct Hpath as [-> | [-> | ->]]; congruence. }
    rewrite Hg. rewrite map_size_insert_None by (by rewrite lookup_singleton_ne).
    by rewrite map_size_singleton.
Qed.

(** Whatever the visiting order, the check logs exactly one line for the
    fixture's trees. *)
Lemma fixture_logs_one_line (st : State nat) :
  exists ev,
    CheckDoubleSigning Fixture.ext mr "source" "destination" st
    = (withEvents st [ev], Err (Errorf "bug detected in sign-release.go")).
Proof.
  rewrite (CheckDoubleSigning_run Fixture.ext mr Fixture.sourceHashes
             Fixture.destinationHashes) by reflexivity.
  destruct fixture_groups as (group & Hs2d & Hsize).
  assert (Hrange : range mr (sourceToDestinationHashes fixtureTables) = [(h0, group)]).
  { apply Permutation_singleton_r. rewrite (range_Permutation mr), Hs2d.
    by rewrite map_to_list_singleton. }
  rewrite Hrange. cbn [flat_map]. rewrite app_nil_r.
  rewrite bool_decide_eq_true_2 by (left; cbn; lia).
  pose proof (groupLines_length mr Fixture.sourceHashes Fixture.destinationHashes h0 group
                ltac:(lia)) as Hlength.
  rewrite Hsize in Hlength.
  destruct (groupLines mr _ (h0, group)) as [|ev [|ev' rest]]; try done.
  by exists ev.
Qed.

Lemma fixture_pair_unreported (st : State nat) :
  events st = [] ->
  exists path1 path2,
    violatingPair Fixture.sourceHashes Fixture.destinationHashes h0 path1 path2
    /\ (LogDifferentHashes path1 path2
         ∉ events ((CheckDoubleSigning Fixture.ext mr "source" "destination" st).1))
    /\ (LogDifferentHashes path2 path1
         ∉ events ((CheckDoubleSigning Fixture.ext mr "source" "destination" st).1)).
Proof.
  intros Hevents. destruct (fixture_logs_one_line st) as [ev ->].
  cbn [fst withEvents events]. rewrite Hevents. cbn [app].
  destruct fixture_violatingPair as [Hac Hbc].
  destruct (decide (ev = LogDifferentHashes a c \/ ev = LogDifferentHashes c a))
    as [Hev|Hev].
  - exists b, c. split; [done|].
    split; intros Hin%list_elem_of_singleton; destruct Hev as [Hev|Hev];
      rewrite Hev in Hin; discriminate Hin.
  - exists a, c. split; [done|].
    split; intros Hin%list_elem_of_singleton; apply Hev; auto.
Qed.

End UnreportedPair.

(** C2 as stated fails: in the fixture's trees the pairs [a.exe], [c.exe]
    and [b.exe], [c.exe] both violate the invariant, but the check names one
    representative path per destination digest, one line in all; so,
    whatever the order in which the maps are visited, the check fails with
    a violating pair that no line of the log names, in either order. *)
Lemma CheckDoubleSigning_leaves_a_violating_pair_unreported :
  (violatingPair Fixture.sourceHashes Fixture.destinationHashes (Fixture.fx_sha256_Sum [x01])
     (NewDeepPath "a.exe") (NewDeepPath "c.exe")
   /\ violatingPair Fixture.sourceHashes Fixture.destinationHashes
        (Fixture.fx_sha256_Sum [x01]) (NewDeepPath "b.exe") (NewDeepPath "c.exe"))
  /\ forall mr : MapRange,
       (CheckDoubleSigning Fixture.ext mr "source" "destination" (initialState 0%nat)).2
       = Err (Errorf "bug detected in sign-release.go")
       /\ exists path1 path2,
            violatingPair Fixture.sourceHashes Fixture.destinationHashes
              (Fixture.fx_sha256_Sum [x01]) path1 path2
            /\ (LogDifferentHashes path1 path2
                 ∉ events ((CheckDoubleSigning Fixture.ext mr "source" "destination"
                              (initialState 0%nat)).1))
            /\ (LogDifferentHashes path2 path1
                 ∉ events ((CheckDoubleSigning Fixture.ext mr "source" "destination"
                              (initialState 0%nat)).1)).
Proof.
  split; [apply fixture_violatingPair|]. intros mr. split.
  - destruct (fixture_logs_one_line mr (initialState 0%nat)) as [ev ->]. done.
  - by apply fixture_pair_unreported.
Qed.

(** * Further properties of the program *)

(** ** Deep Paths: how [Append] and [Last] compose *)

(** On a Deep Path without gaps that has room left, appending a non-empty
    segment gives a Deep Path without gaps whose last segment is the one
    appended: the name under which the dispatcher sees an archive entry is
    the entry's own name. *)
Theorem Last_of_Append_is_the_child (p : DeepPath) (child : string) :
  contiguous p -> parts2 p = "" -> child <> "" ->
  exists q, (Append p child).2 = Ok q /\ Last q = child /\ contiguous q.
Proof.
  destruct p as [a b d]. unfold contiguous, Append, Last. cbn [parts0 parts1 parts2].
  intros [H0 H1] -> Hchild.
  destruct (String.eqb_spec a "") as [->|Ha].
  - rewrite (H0 eq_refl). eexists. split; [done|]. cbn.
    destruct (String.eqb_spec child ""); done.
  - destruct (String.eqb_spec b "") as [->|Hb].
    + eexists. split; [done|]. cbn.
      destruct (String.eqb_spec child ""); [done|]. cbn. by split.
    + cbn. eexists. split; [done|]. cbn.
      destruct (String.eqb_spec child ""); [done|]. cbn. by split.
Qed.

Lemma Last_of_Append_is_the_child_witness :
  exists q, (Append (NewDeepPath "manual/linux.tar.gz") "bin/quick-lint-js").2 = Ok q
            /\ Last q = "bin/quick-lint-js" /\ contiguous q.
Proof.
  apply (Last_of_Append_is_the_child (NewDeepPath "manual/linux.tar.gz") "bin/quick-lint-js").
  - by split.
  - reflexivity.
  - discriminate.
Defined.

(** Appending the empty segment changes nothing: as long as a cell is
    free, the Deep Path returned is the receiver itself, so an archive
    entry with an empty name is dispatched under the Deep Path of the
    archive that holds it.  On a full Deep Path the call still ends in
    [log.Fatal]. *)
Theorem Append_of_the_empty_segment (p : DeepPath) :
  match firstUnused p with
  | Some _ => (Append p "").2 = Ok p /\ forall q, (Append p "").2 = Ok q -> Last q = Last p
  | None => (Append p "").2 = Fatal
  end.
Proof.
  destruct p as [a b d]. unfold firstUnused, Append. cbn [parts0 parts1 parts2].
  destruct (String.eqb_spec a "") as [->|Ha]; [split; [done|by intros q [= <-]]|].
  destruct (String.eqb_spec b "") as [->|Hb]; [split; [done|by intros q [= <-]]|].
  destruct (String.eqb_spec d "") as [->|Hd]; [split; [done|by intros q [= <-]]|].
  done.
Qed.

(** ** The two archive tests exclude each other *)

Lemma HasSuffix_last (s suffix : string) :
  HasSuffix s suffix = true -> suffix <> "" ->
  String.get (String.length s - 1) s = String.get (String.length suffix - 1) suffix.
Proof.
  unfold HasSuffix. intros [Hlen Heq%String.eqb_eq]%andb_true_iff Hne.
  apply Nat.leb_le in Hlen.
  assert (0 < String.length suffix)%nat as Hpos by (destruct suffix; [done|cbn; lia]).
  transitivity (String.get (String.length suffix - 1)
                  (String.substring (String.length s - String.length suffix)
                     (String.length suffix) s)); [|by rewrite Heq].
  rewrite String.substring_correct1 by lia. f_equal. lia.
Qed.

(** No name passes both [PathLooksLikeTarGz] and [PathLooksLikeZip] (the
    suffixes of the first end in [z], those of the second in [g], [x] and
    [p]), so the order of the two tests in [TransformFile] decides nothing. *)
Theorem PathLooksLikeTarGz_excludes_PathLooksLikeZip (path : string) :
  PathLooksLikeTarGz path && PathLooksLikeZip path = false.
Proof.
  apply not_true_is_false.
  unfold PathLooksLikeTarGz, PathLooksLikeZip.
  rewrite andb_true_iff, !orb_true_iff.
  intros [[Ht|Ht] [[Hz|Hz]|Hz]];
    apply HasSuffix_last in Ht; try discriminate;
    apply HasSuffix_last in Hz; try discriminate;
    rewrite Ht in Hz; discriminate Hz.
Qed.

(** ** Calls that returned: what their parts returned *)

Section Inversion.

Context {World : Type}.
Variable ext : Externals World.

Lemma bind_Ok {A B} (m : M A) (k : A -> M B) (st st' : State World) (b : B) :
  bind m k st = (st', Ok b) <->
  exists st1 a, m st = (st1, Ok a) /\ k a st1 = (st', Ok b).
Proof.
  unfold bind. split.
  - destruct (m st) as [st1 [a| | | |]]; try done. by exists st1, a.
  - by intros (st1 & a & -> & ?).
Qed.

Lemma lift_Ok {A} (o : Outcome A) (st st' : State World) (a : A) :
  lift o st = (st', Ok a) <-> st' = st /\ o = Ok a.
Proof. unfold lift. split; [by intros [= -> ->]|by intros [-> ->]]. Qed.

Lemma ret_Ok {A} (a a' : A) (st st' : State World) :
  ret a st = (st', Ok a') <-> st' = st /\ a' = a.
Proof. unfold ret. split; [by intros [= -> ->]|by intros [-> ->]]. Qed.

Lemma liftSum_Ok {A} (r : error + A) (st st' : State World) (a : A) :
  liftSum r st = (st', Ok a) <-> st' = st /\ r = inr a.
Proof. destruct r; cbn; split; try done; [by intros [_ [=]]|by intros [= -> ->]|by intros [-> [= ->]]]. Qed.

Lemma liftErr_Ok (r : option error) (st st' : State World) (u : unit) :
  liftErr r st = (st', Ok u) <-> st' = st /\ r = None.
Proof. destruct r, u; cbn; split; try done; [by intros [_ [=]]|by intros [= ->]|by intros [-> _]]. Qed.

Lemma WriteTarEntry_Ok (header : tar.Header) (fileContent : bytes) (st st' : State World)
    (u : unit) :
  WriteTarEntry ext header fileContent st = (st', Ok u) ->
  st' = st /\ tarWriterTakes ext header fileContent.
Proof.
  unfold WriteTarEntry, tarWriterTakes.
  destruct (tar_WriteHeader ext header); [done|].
  destruct (tar_Write ext header fileContent) as [n [e|]]; [done|].
  case_decide; [|done]. intros [= ->]. eauto.
Qed.

End Inversion.

(** ** Header updates compose: the last replacement wins *)

Section HeaderUpdates.

Context {World : Type}.
Variable ext : Externals World.

(** Updating a header for one result and then for another is updating it
    for the second alone when the second carries replacement bytes, and for
    the first alone when it carries none.  In particular updating twice for
    the same result is updating once. *)
Theorem UpdateHeader_last_replacement_wins (first second : FileTransformResult)
    (tarHeader : tar.Header) (zipHeader : zip.FileHeader) :
  UpdateTarHeader ext second (UpdateTarHeader ext first tarHeader)
  = match newFile second with
    | Some _ => UpdateTarHeader ext second tarHeader
    | None => UpdateTarHeader ext first tarHeader
    end
  /\ UpdateZipHeader ext second (UpdateZipHeader ext first zipHeader)
     = match newFile second with
       | Some _ => UpdateZipHeader ext second zipHeader
       | None => UpdateZipHeader ext first zipHeader
       end
  /\ UpdateTarHeader ext first (UpdateTarHeader ext first tarHeader)
     = UpdateTarHeader ext first tarHeader
  /\ UpdateZipHeader ext first (UpdateZipHeader ext first zipHeader)
     = UpdateZipHeader ext first zipHeader.
Proof.
  unfold UpdateTarHeader, UpdateZipHeader.
  repeat split; destruct (newFile second), (newFile first); cbn; try done;
    by repeat case_match.
Qed.

End HeaderUpdates.

(** ** What the rebuilders write *)

Section Rebuilt.

Context {World : Type}.
Variable ext : Externals World.
Variable rec : DeepPath -> Reader -> @M World FileTransformResult.

Lemma UpdateTarHeader_Name (r : FileTransformResult) (header : tar.Header) :
  tar.Name (UpdateTarHeader ext r header) = tar.Name header.
Proof. unfold UpdateTarHeader. by destruct (newFile r). Qed.

Lemma UpdateZipHeader_Name (r : FileTransformResult) (header : zip.FileHeader) :
  zip.Name (UpdateZipHeader ext r header) = zip.Name header.
Proof. unfold UpdateZipHeader. by destruct (newFile r). Qed.

(** What one turn of the tar loop wrote when it went through. *)
Lemma TransformTarGzEntry_Ok (tarGzDeepPath : DeepPath) (header : tar.Header)
    (fileContent : bytes) (st st' : State World) (written : list (tar.Header * bytes)) :
  TransformTarGzEntry ext rec tarGzDeepPath (header, fileContent) st = (st', Ok written) ->
  int64 (len fileContent) = tar.Size header
  /\ exists deepPath r,
       (Append tarGzDeepPath (tar.Name header)).2 = Ok deepPath
       /\ rec deepPath (BytesReader fileContent) st = (st', Ok r)
       /\ let updated := UpdateTarHeader ext r header in
          tarWriterTakes ext updated (default fileContent (newFile r))
          /\ match siblingFile r with
             | None => written = [(updated, default fileContent (newFile r))]
             | Some sibling =>
               tarWriterTakes ext (siblingTarHeader ext updated r sibling) sibling
               /\ written = [(updated, default fileContent (newFile r));
                             (siblingTarHeader ext updated r sibling, sibling)]
             end.
Proof.
  unfold TransformTarGzEntry. case_decide as Hsize; [|done]. intros H. split; [done|].
  apply bind_Ok in H as (st1 & deepPath & [-> Happend]%lift_Ok & H).
  apply bind_Ok in H as (st2 & r & Hrec & H).
  apply bind_Ok in H as (st3 & [] & [-> Hmain]%WriteTarEntry_Ok & H).
  exists deepPath, r. split; [done|].
  destruct (siblingFile r) as [sibling|].
  - apply bind_Ok in H as (st4 & [] & [-> Hsibling]%WriteTarEntry_Ok & [-> ->]%ret_Ok).
    by repeat (split; [done|]).
  - apply ret_Ok in H as [-> ->]. by repeat (split; [done|]).
Qed.

(** When the dispatcher's result for a tar entry carries a sibling (a
    detached signature), the rebuilder writes the entry and, right after
    it, a second entry for the sibling: a regular file in USTAR format,
    next to the signed entry and named as the result says, with the
    sibling's length as its size, the process start time as its
    modification time, the owner of the signed entry, and the mode of the
    signed entry without its three execute bits (octal 0111), every other
    bit of the mode kept.  Without a sibling it writes the entry alone.
    The entry itself keeps its name. *)
Theorem tar_sibling_entry_is_not_executable (tarGzDeepPath : DeepPath)
    (entry : tar.Header * bytes) (st st' : State World)
    (written : list (tar.Header * bytes)) :
  TransformTarGzEntry ext rec tarGzDeepPath entry st = (st', Ok written) ->
  exists deepPath r main,
    (Append tarGzDeepPath (tar.Name entry.1)).2 = Ok deepPath
    /\ rec deepPath (BytesReader entry.2) st = (st', Ok r)
    /\ main = (UpdateTarHeader ext r entry.1, default entry.2 (newFile r))
    /\ tar.Name main.1 = tar.Name entry.1
    /\ match siblingFile r with
       | None => written = [main]
       | Some sibling =>
         exists siblingHeader,
           written = [main; (siblingHeader, sibling)]
           /\ tar.Typeflag siblingHeader = tar.TypeReg
           /\ tar.Format siblingHeader = tar.FormatUSTAR
           /\ tar.Name siblingHeader
              = filepath_Join ext (filepath_Dir ext (tar.Name entry.1)) (siblingFileName r)
           /\ tar.Size siblingHeader = int64 (len sibling)
           /\ tar.ModTime siblingHeader = ProgramStartTime ext
           /\ tar.Uid siblingHeader = tar.Uid entry.1
           /\ tar.Gid siblingHeader = tar.Gid entry.1
           /\ tar.Uname siblingHeader = tar.Uname entry.1
           /\ tar.Gname siblingHeader = tar.Gname entry.1
           /\ Z.land (tar.Mode siblingHeader) 73 = 0
           /\ forall n : nat,
                Z.testbit (tar.Mode siblingHeader) (Z.of_nat n)
                = Z.testbit (tar.Mode entry.1) (Z.of_nat n)
                  && negb (bool_decide (n ∈ [0; 3; 6]%nat))
       end.
Proof.
  destruct entry as [header fileContent].
  intros (_ & deepPath & r & Happend & Hrec & _ & Hwritten)%TransformTarGzEntry_Ok.
  exists deepPath, r, (UpdateTarHeader ext r header, default fileContent (newFile r)).
  cbn [fst snd]. repeat (split; [done || apply UpdateTarHeader_Name|]).
  destruct (siblingFile r) as [sibling|]; [|done].
  destruct Hwritten as [_ ->]. eexists. split; [done|].
  unfold siblingTarHeader.
  cbn [tar.Typeflag tar.Format tar.Name tar.Size tar.ModTime tar.Uid tar.Gid tar.Uname
       tar.Gname tar.Mode].
  rewrite UpdateTarHeader_Name.
  assert (Hkept : forall h : tar.Header,
            tar.Uid (UpdateTarHeader ext r h) = tar.Uid h
            /\ tar.Gid (UpdateTarHeader ext r h) = tar.Gid h
            /\ tar.Uname (UpdateTarHeader ext r h) = tar.Uname h
            /\ tar.Gname (UpdateTarHeader ext r h) = tar.Gname h
            /\ tar.Mode (UpdateTarHeader ext r h) = tar.Mode h).
  { intros h. unfold UpdateTarHeader. by destruct (newFile r). }
  destruct (Hkept header) as (-> & -> & -> & -> & ->).
  repeat (split; [done|]). split.
  - apply Z.bits_inj'. intros n Hn.
    rewrite Z.land_spec, Z.ldiff_spec, Z.bits_0.
    destruct (Z.testbit 73 n); [|by rewrite andb_false_r].
    by rewrite andb_false_r.
  - intros n. rewrite Z.ldiff_spec. f_equal.
    destruct n as [|[|[|[|[|[|[|n]]]]]]]; try (vm_compute; reflexivity).
    rewrite bool_decide_eq_false_2.
    + cbn [negb]. f_equal.
      replace (Z.of_nat (S (S (S (S (S (S (S n)))))))) with (Z.of_nat n + 7) by lia.
      change 73 with (Z.land 73 (Z.ones 7)).
      rewrite Z.land_spec, Z.testbit_ones_nonneg by lia.
      rewrite (proj2 (Z.ltb_ge _ _)) by lia. by rewrite andb_false_r.
    + intros Hin. repeat (apply elem_of_cons in Hin as [Hin|Hin]; [lia|]).
      by apply elem_of_nil in Hin.
Qed.

End Rebuilt.

Section RebuiltArchives.

Context {World : Type}.
Variable ext : Externals World.
Variable rec : DeepPath -> Reader -> @M World FileTransformResult.

Lemma TransformTarGzEntries_Ok (tarGzDeepPath : DeepPath)
    (entries : list (tar.Header * bytes)) (ending : option error) (st st' : State World)
    (written : list (tar.Header * bytes)) :
  TransformTarGzEntries ext rec tarGzDeepPath entries ending st = (st', Ok written) ->
  ending = None
  /\ Forall (fun entry => int64 (len entry.2) = tar.Size entry.1) entries
  /\ (tar.Name ∘ fst <$> entries) `sublist_of` (tar.Name ∘ fst <$> written)
  /\ (length entries <= length written <= 2 * length entries)%nat.
Proof.
  revert st written. induction entries as [|[header fileContent] entries IH];
    intros st written; cbn [TransformTarGzEntries].
  - destruct ending; [done|]. intros [-> ->]%ret_Ok. repeat split; cbn; auto; lia.
  - intros (st1 & first & Hfirst & H)%bind_Ok.
    apply bind_Ok in H as (st2 & more & Hmore & [-> ->]%ret_Ok).
    apply IH in Hmore as (-> & Hsizes & Hnames & Hlength).
    apply TransformTarGzEntry_Ok in Hfirst
      as (Hsize & deepPath & r & _ & _ & _ & Hfirst).
    split; [done|]. split; [by apply Forall_cons_2|].
    rewrite length_app, fmap_app. cbn [length fmap list_fmap].
    destruct (siblingFile r) as [sibling|]; [destruct Hfirst as [_ ->]|subst first];
      cbn [length fmap list_fmap app compose fst]; rewrite UpdateTarHeader_Name;
      (split; [|lia]).
    + apply sublist_skip. by apply sublist_cons.
    + by apply sublist_skip.
Qed.

(** When the tar+gzip rebuilder returns without error, whatever the
    dispatcher did to the entries: the source archive was read to its end,
    every entry had the size its header declares, and the names of the
    entries read are, in their order, among the names of the entries
    written; at most one entry (a sibling) was written on top of each. *)
Theorem tar_rebuilder_keeps_every_entry (tarGzDeepPath : DeepPath) (sourceFile : Reader)
    (st st' : State World) (written : list (tar.Header * bytes)) :
  TransformTarGzToFile ext rec tarGzDeepPath sourceFile st = (st', Ok written) ->
  exists entries,
    targz_Read ext sourceFile = (entries, None)
    /\ Forall (fun entry => int64 (len entry.2) = tar.Size entry.1) entries
    /\ (tar.Name ∘ fst <$> entries) `sublist_of` (tar.Name ∘ fst <$> written)
    /\ (length entries <= length written <= 2 * length entries)%nat
    /\ TransformTarGz ext rec tarGzDeepPath sourceFile st
       = (st', Ok (replaceWith (targz_Bytes ext written))).
Proof.
  intros Hto. unfold TransformTarGz, bind. rewrite Hto.
  unfold TransformTarGzToFile in Hto.
  destruct (targz_Read ext sourceFile) as [entries ending].
  apply TransformTarGzEntries_Ok in Hto as (-> & Hsizes & Hnames & Hlength).
  by exists entries.
Qed.

(** What one turn of the zip loop wrote when it went through. *)
Lemma TransformZipEntry_Ok (zipDeepPath : DeepPath) (zipEntry : zip.File)
    (st st' : State World) (written : list zip.Written) :
  TransformZipEntry ext rec zipDeepPath zipEntry st = (st', Ok written) ->
  (exists zipEntryFile, zip_Open ext zipEntry = inr zipEntryFile)
  /\ exists first rest,
       written = first :: rest
       /\ writtenName first = zip.Name (zip.Header zipEntry)
       /\ (length rest <= 1)%nat.
Proof.
  unfold TransformZipEntry.
  intros (st1 & zipEntryFile & [-> Hopen]%liftSum_Ok & H)%bind_Ok.
  split; [by exists zipEntryFile|].
  apply bind_Ok in H as (st2 & deepPath & [-> Happend]%lift_Ok & H).
  apply bind_Ok in H as (st3 & r & Hrec & H).
  apply bind_Ok in H as (st4 & first & Hfirst & H).
  assert (Hname : writtenName first = zip.Name (zip.Header zipEntry)).
  { destruct (newFile r) as [newFileContent|].
    - apply bind_Ok in Hfirst as (? & [] & _ & [_ ->]%ret_Ok).
      apply UpdateZipHeader_Name.
    - apply bind_Ok in Hfirst as (? & raw & _ & Hfirst).
      apply bind_Ok in Hfirst as (? & [] & _ & [_ ->]%ret_Ok).
      apply UpdateZipHeader_Name. }
  destruct (siblingFile r) as [sibling|].
  - apply bind_Ok in H as (? & [] & _ & [_ ->]%ret_Ok).
    eexists _, _. split; [done|]. split; [done|]. cbn. lia.
  - apply ret_Ok in H as [_ ->].
    eexists _, _. split; [done|]. split; [done|]. cbn. lia.
Qed.

Lemma TransformZipEntries_Ok (zipDeepPath : DeepPath) (files : list zip.File)
    (st st' : State World) (written : list zip.Written) :
  TransformZipEntries ext rec zipDeepPath files st = (st', Ok written) ->
  Forall (fun zipEntry => exists zipEntryFile, zip_Open ext zipEntry = inr zipEntryFile) files
  /\ (zip.Name ∘ zip.Header <$> files) `sublist_of` (writtenName <$> written)
  /\ (length files <= length written <= 2 * length files)%nat.
Proof.
  revert st written. induction files as [|zipEntry files IH];
    intros st written; cbn [TransformZipEntries].
  - intros [-> ->]%ret_Ok. repeat split; cbn; auto; lia.
  - intros (st1 & first & Hfirst & H)%bind_Ok.
    apply bind_Ok in H as (st2 & more & Hmore & [-> ->]%ret_Ok).
    apply IH in Hmore as (Hopen & Hnames & Hlength).
    apply TransformZipEntry_Ok in Hfirst
      as (Hopened & entry & rest & -> & Hname & Hrest).
    split; [by apply Forall_cons_2|].
    rewrite length_app, fmap_app. cbn [length fmap list_fmap app compose].
    rewrite Hname. split; [|lia].
    apply sublist_skip. by apply sublist_inserts_l.
Qed.

(** The same for the zip rebuilder: when it returns without error, the
    source was a readable zip archive, every entry could be opened, and the
    names of the entries read are, in their order, among the names of the
    entries written, with at most one sibling written on top of each. *)
Theorem zip_rebuilder_keeps_every_entry (zipDeepPath : DeepPath) (sourceFile : bytes)
    (st st' : State World) (written : list zip.Written) :
  TransformZipToFile ext rec zipDeepPath sourceFile st = (st', Ok written) ->
  exists files,
    zip_NewReader ext sourceFile = inr files
    /\ Forall (fun zipEntry => exists zipEntryFile, zip_Open ext zipEntry = inr zipEntryFile)
         files
    /\ (zip.Name ∘ zip.Header <$> files) `sublist_of` (writtenName <$> written)
    /\ (length files <= length written <= 2 * length files)%nat
    /\ TransformZip ext rec zipDeepPath sourceFile st
       = (st', Ok (replaceWith (zip_Bytes ext written))).
Proof.
  intros Hto. unfold TransformZip, bind. rewrite Hto.
  unfold TransformZipToFile in Hto.
  apply bind_Ok in Hto as (st1 & files & [-> Hread]%liftSum_Ok & Hto).
  apply TransformZipEntries_Ok in Hto as (Hopen & Hnames & Hlength).
  by exists files.
Qed.

End RebuiltArchives.

(** ** The registry in a run *)

(** Every entry of the registry literal names a real signing operation
    and a file inside an archive: an outermost segment with an archive
    suffix, a second segment, which has an archive suffix when a third
    follows it, and a last segment without an archive suffix. *)
Lemma filesToTransform_initial_nested (deepPath : DeepPath) (t : FileTransformType) :
  filesToTransform_initial !! deepPath = Some t ->
  (deepPath, t) ∈ filesToTransform_literal
  /\ t <> NoTransform
  /\ looksLikeArchive deepPath = false
  /\ parts1 deepPath <> ""
  /\ looksLikeArchive (NewDeepPath (parts0 deepPath)) = true
  /\ (parts2 deepPath <> "" ->
      looksLikeArchive (NewDeepPath2 (parts0 deepPath) (parts1 deepPath)) = true).
Proof.
  intros Hin%elem_of_list_to_map_2. split; [done|]. apply list_elem_of_In in Hin.
  assert (Hall : forallb (fun e : DeepPath * FileTransformType =>
                   negb (bool_decide (e.2 = NoTransform))
                   && negb (looksLikeArchive e.1)
                   && negb (String.eqb (parts1 e.1) "")
                   && looksLikeArchive (NewDeepPath (parts0 e.1))
                   && (String.eqb (parts2 e.1) ""
                       || looksLikeArchive (NewDeepPath2 (parts0 e.1) (parts1 e.1))))
                   filesToTransform_literal = true) by (vm_compute; reflexivity).
  rewrite forallb_forall in Hall. specialize (Hall _ Hin). cbn [fst snd] in Hall.
  repeat (apply andb_true_iff in Hall as [Hall ?]).
  repeat split.
  - apply negb_true_iff in Hall. by apply bool_decide_eq_false in Hall.
  - by apply negb_true_iff.
  - intros Heq. rewrite Heq in *. done.
  - done.
  - intros Hne. apply orb_true_iff in H as [Heq%String.eqb_eq|?]; done.
Qed.

Section RegistryInARun.

Context {World : Type}.
Variable ext : Externals World.

(** In a run from the initial state the registry holds entries of its
    literal only (the dispatcher adds none), so every path it holds names a
    real signing operation, has no archive suffix itself, and lies inside
    an archive the dispatcher would open: its outermost segment has an
    archive suffix, and so has its second segment when a third follows. *)
Theorem registered_paths_lie_inside_archives (w : World) (st : State World)
    (deepPath : DeepPath) (transformType : FileTransformType) :
  walk ext (initialState w) st ->
  filesToTransform st !! deepPath = Some transformType ->
  (deepPath, transformType) ∈ filesToTransform_literal
  /\ transformType <> NoTransform
  /\ looksLikeArchive deepPath = false
  /\ parts1 deepPath <> ""
  /\ looksLikeArchive (NewDeepPath (parts0 deepPath)) = true
  /\ (parts2 deepPath <> "" ->
      looksLikeArchive (NewDeepPath2 (parts0 deepPath) (parts1 deepPath)) = true).
Proof.
  intros Hwalk%walk_registryShrinks Hlookup.
  apply filesToTransform_initial_nested.
  unfold registryShrinks in Hwalk. rewrite map_subseteq_spec in Hwalk. by apply Hwalk.
Qed.

End RegistryInARun.

Lemma registered_paths_lie_inside_archives_witness :
  (linuxBinary, GPGSign) ∈ filesToTransform_literal
  /\ looksLikeArchive (NewDeepPath (parts0 linuxBinary)) = true.
Proof.
  destruct (registered_paths_lie_inside_archives Fixture.ext 0%nat (initialState 0%nat)
              linuxBinary GPGSign) as (Hin & _ & _ & _ & Harchive & _).
  - apply walk_done.
  - vm_compute. reflexivity.
  - by split.
Defined.

(** ** The dispatcher at a leaf path: failure and success *)

Section LeafCalls.

Context {World : Type}.
Variable ext : Externals World.
Variable mr : MapRange.

(** A call at a path without an archive suffix can fail in two ways only,
    and only at a path registered for signing: the file cannot be read
    (nothing has happened then), or the signing tool fails after its log
    line.  Either way the registry still holds the path and the cache is
    as it was: nothing is stored for a failed signing, and the check for
    unsigned files will still name the path. *)
Theorem TransformFile_failure_keeps_the_registry_entry (fuel : nat) (deepPath : DeepPath)
    (file : Reader) (st st' : State World) (e : error) :
  looksLikeArchive deepPath = false ->
  TransformFile ext (S fuel) deepPath file st = (st', Err e) ->
  registeredForSigning st deepPath
  /\ filesToTransform st' = filesToTransform st
  /\ TransformCache st' = TransformCache st
  /\ ((file = BrokenReader e /\ st' = st)
      \/ exists content transformType,
           file = BytesReader content
           /\ filesToTransform st !! deepPath = Some transformType
           /\ signerTool ext transformType (Last deepPath) content (world st)
              = (world st', inl e)
           /\ events st'
              = (events st ++ [signingLogLine transformType deepPath;
                               SignerRun transformType content])%list).
Proof.
  intros Hleaf. rewrite TransformFile_leaf by done.
  assert (Hreg : default NoTransform (filesToTransform st !! deepPath) <> NoTransform ->
                 registeredForSigning st deepPath
                 /\ filesToTransform st !! deepPath
                    = Some (default NoTransform (filesToTransform st !! deepPath))).
  { unfold registeredForSigning.
    destruct (filesToTransform st !! deepPath) as [t|]; [|done]. cbn. eauto. }
  apply leafOutcome_cases; try done.
  - intros e' Htype -> [= <- <-]. destruct (Hreg Htype) as [? _].
    repeat (split; [done|]). by left.
  - intros content w e' Htype -> _ Htool [= <- <-]. destruct (Hreg Htype) as [? Hlookup].
    repeat (split; [done|]). right. exists content. eexists. eauto.
Qed.

(** In a run from the initial state, a call at a path without an archive
    suffix that returns has consumed the path's registry entry, if there
    was one; no later call brings it back, so when [CheckUnsignedFiles]
    runs at the end it logs no line for that path. *)
Theorem processed_path_is_not_reported_unsigned (w : World) (fuel : nat)
    (deepPath : DeepPath) (file : Reader) (st st1 st2 : State World)
    (r : FileTransformResult) :
  walk ext (initialState w) st ->
  looksLikeArchive deepPath = false ->
  TransformFile ext (S fuel) deepPath file st = (st1, Ok r) ->
  walk ext st1 st2 ->
  filesToTransform st1 = delete deepPath (filesToTransform st)
  /\ filesToTransform st2 !! deepPath = None
  /\ exists logged,
       events (CheckUnsignedFiles mr st2).1 = (events st2 ++ logged)%list
       /\ (LogShouldHaveBeenSigned deepPath ∉ logged).
Proof.
  intros Hrun%walk_registryShrinks Hleaf Hcall Hwalk.
  assert (Hdeleted : filesToTransform st1 = delete deepPath (filesToTransform st)).
  { revert Hcall. rewrite TransformFile_leaf by done.
    apply leafOutcome_cases; try done.
    - intros Htype [= <- _]. symmetry. apply delete_id.
      destruct (filesToTransform st !! deepPath) as [t|] eqn:Hlookup; [|done].
      cbn in Htype. subst t. unfold registryShrinks in Hrun.
      rewrite map_subseteq_spec in Hrun. apply Hrun in Hlookup.
      by apply filesToTransform_initial_nested in Hlookup as (_ & ? & _).
    - by intros content cached _ _ _ _ [= <- _].
    - by intros content w' output _ _ _ _ [= <- _]. }
  assert (Hgone : filesToTransform st2 !! deepPath = None).
  { apply walk_registryShrinks in Hwalk. unfold registryShrinks in Hwalk.
    apply eq_None_not_Some. intros [t Ht].
    rewrite map_subseteq_spec in Hwalk. apply Hwalk in Ht.
    by rewrite Hdeleted, lookup_delete_eq in Ht. }
  repeat (split; [done|]).
  exists (map (fun entry => LogShouldHaveBeenSigned entry.1) (range mr (filesToTransform st2))).
  split.
  - unfold CheckUnsignedFiles, bind at 1, gets at 1. unfold bind at 1.
    rewrite CheckUnsignedFiles_loop_spec. by case_match.
  - intros ([path t] & [= <-] & Hin)%list_elem_of_fmap.
    rewrite (range_Permutation mr) in Hin. apply elem_of_map_to_list in Hin.
    cbn in Hin. congruence.
Qed.

End LeafCalls.

(** ** The registry only shrinks, the cache only grows *)

Section Monotone.

Context {World : Type}.
Variable ext : Externals World.

Lemma registryShrinksCacheGrows_refl (st : State World) : registryShrinksCacheGrows st st.
Proof. by split. Qed.

Lemma registryShrinksCacheGrows_trans (a b c : State World) :
  registryShrinksCacheGrows a b -> registryShrinksCacheGrows b c ->
  registryShrinksCacheGrows a c.
Proof. intros [? ?] [? ?]. split; by etrans. Qed.

Lemma leaf_registryShrinksCacheGrows rec (deepPath : DeepPath) (file : Reader) :
  looksLikeArchive deepPath = false ->
  triple cacheHoldsSignerOutputs registryShrinksCacheGrows registryShrinksCacheGrows
    (TransformFile_body ext rec deepPath file) (fun _ => True).
Proof.
  intros Hleaf st HI. rewrite TransformFile_body_leaf by done.
  apply leafOutcome_cases.
  - intros _. split; [done|]. split; [|done]. apply registryShrinksCacheGrows_refl.
  - intros e _ _. apply registryShrinksCacheGrows_refl.
  - intros content cached _ _ _ _. split; [done|]. split; [|done].
    split; [apply delete_subseteq|done].
  - intros content w e _ _ _ _. by split.
  - intros content w output Htype _ Hmiss _.
    pose proof (signerResult_shape ext _ (Last deepPath) output Htype) as Hshape.
    assert (Hfresh : TransformCache st !! sha256_Sum ext content = None).
    { destruct (TransformCache st !! sha256_Sum ext content) as [cached|] eqn:Hcached;
        [|done].
      apply HI, isCacheHit_shape in Hcached. cbn in Hmiss. congruence. }
    split; [|split; [|done]].
    + intros h r. cbn [TransformCache]. rewrite lookup_insert.
      case_decide; [by intros [= <-]|apply HI].
    + split; [apply delete_subseteq|]. by apply insert_subseteq.
Qed.

Lemma TransformFile_registryShrinksCacheGrows fuel deepPath file :
  triple cacheHoldsSignerOutputs registryShrinksCacheGrows registryShrinksCacheGrows
    (TransformFile ext fuel deepPath file) (fun _ => True).
Proof.
  apply TransformFile_triple;
    [apply registryShrinksCacheGrows_refl|apply registryShrinksCacheGrows_trans
    |intros st _; apply registryShrinksCacheGrows_refl
    |apply registryShrinksCacheGrows_trans|done|apply leaf_registryShrinksCacheGrows].
Qed.

(** In a run from the initial state, every call of the dispatcher, however
    it ends (a result, an error, [log.Fatal]), leaves a registry that has
    lost entries at most and a cache that has gained entries at most: no
    cached result is ever overwritten or dropped, and no path is ever
    registered again. *)
Theorem registry_only_shrinks_and_cache_only_grows (w : World) (st : State World)
    (fuel : nat) (deepPath : DeepPath) (file : Reader) :
  walk ext (initialState w) st ->
  filesToTransform (TransformFile ext fuel deepPath file st).1 ⊆ filesToTransform st
  /\ TransformCache st ⊆ TransformCache (TransformFile ext fuel deepPath file st).1
  /\ filesToTransform st ⊆ filesToTransform_initial.
Proof.
  intros Hwalk.
  pose proof (walk_cacheHoldsSignerOutputs ext _ _ Hwalk
                (initialState_cacheHoldsSignerOutputs w)) as HI.
  pose proof (TransformFile_registryShrinksCacheGrows fuel deepPath file st HI) as H.
  apply walk_registryShrinks in Hwalk.
  destruct (TransformFile ext fuel deepPath file st) as [st' [r| | | |]]; cbn [fst];
    [destruct H as (_ & [? ?] & _)|destruct H as [? ?]..]; done.
Qed.

(** ** Files at the top level of the source tree *)

(** [main] calls the dispatcher with one-segment Deep Paths.  In a run
    from the initial state such a call never returns a result with a
    sibling file: for a name with an archive suffix the result carries the
    rebuilt archive; any other name is not in the registry, so the result
    is the unchanged one and the state is as it was.  (So the panic of
    [CopyFileOrTransformArchive] on a sibling file is out of reach.) *)
Theorem top_level_results_have_no_sibling (w : World) (st st' : State World)
    (fuel : nat) (path : string) (file : Reader) (r : FileTransformResult) :
  walk ext (initialState w) st ->
  TransformFile ext fuel (NewDeepPath path) file st = (st', Ok r) ->
  siblingFile r = None
  /\ if looksLikeArchive (NewDeepPath path) then isReplace r
     else r = NoOpTransform /\ st' = st.
Proof.
  intros Hwalk%walk_registryShrinks Hcall. destruct fuel as [|fuel]; [done|].
  destruct (looksLikeArchive (NewDeepPath path)) eqn:Harchive.
  - assert (Hshape : isReplace r); [|by destruct Hshape].
    cbn [TransformFile] in Hcall. unfold TransformFile_body in Hcall.
    unfold looksLikeArchive in Harchive.
    destruct (PathLooksLikeTarGz (Last (NewDeepPath path))).
    + by apply TransformTarGz_shape in Hcall.
    + cbn [orb] in Harchive. rewrite Harchive in Hcall.
      apply bind_Ok in Hcall as (st1 & content & _ & Hcall).
      by apply TransformZip_shape in Hcall.
  - rewrite TransformFile_leaf in Hcall by done.
    assert (Hlookup : filesToTransform st !! NewDeepPath path = None).
    { apply eq_None_not_Some. intros [t Ht].
      unfold registryShrinks in Hwalk. rewrite map_subseteq_spec in Hwalk.
      apply Hwalk in Ht. by apply filesToTransform_initial_nested in Ht as (_ & _ & _ & ? & _). }
    unfold leafOutcome in Hcall. rewrite Hlookup in Hcall. cbn in Hcall.
    by injection Hcall as <- <-.
Qed.

(** ** The depth of nesting *)

Lemma Append_full (p : DeepPath) (child : string) :
  firstUnused p = None -> (Append p child).2 = Fatal.
Proof.
  unfold firstUnused, Append. cbv zeta. by repeat case_match.
Qed.

Lemma archive_at_a_full_Deep_Path_run (fuel : nat) (deepPath : DeepPath)
    (file : Reader) (st : State World) :
  firstUnused deepPath = None ->
  looksLikeArchive deepPath = true ->
  (if PathLooksLikeTarGz (Last deepPath)
   then exists entry entries ending,
          targz_Read ext file = (entry :: entries, ending)
          /\ int64 (len entry.2) = tar.Size entry.1
   else exists content zipEntry files zipEntryFile,
          file = BytesReader content
          /\ zip_NewReader ext content = inr (zipEntry :: files)
          /\ zip_Open ext zipEntry = inr zipEntryFile) ->
  TransformFile ext (S fuel) deepPath file st = (st, Fatal).
Proof.
  intros Hfull Harchive Hfirst. cbn [TransformFile]. unfold TransformFile_body.
  unfold looksLikeArchive in Harchive.
  destruct (PathLooksLikeTarGz (Last deepPath)).
  - destruct Hfirst as ([header fileContent] & entries & ending & Hread & Hsize).
    unfold TransformTarGz, TransformTarGzToFile. rewrite Hread.
    cbn [TransformTarGzEntries TransformTarGzEntry fst snd] in *.
    rewrite decide_True by done. unfold bind, lift. by rewrite Append_full.
  - cbn [orb] in Harchive. rewrite Harchive.
    destruct Hfirst as (content & zipEntry & files & zipEntryFile & -> & Hread & Hopen).
    unfold bind at 1. cbn [lift io_ReadAll].
    unfold TransformZip, TransformZipToFile, bind at 1 2. rewrite Hread.
    cbn [liftSum ret TransformZipEntries]. unfold TransformZipEntry.
    unfold bind, lift. rewrite Hopen. cbn [liftSum ret]. by rewrite Append_full.
Qed.

(** A Deep Path has three cells, so an archive found at a Deep Path that
    fills all three cannot be opened: as soon as the rebuilder has read
    its first entry (of the declared size, for tar; one that can be opened,
    for zip), [Append] has no cell left and the program ends in
    [log.Fatal], which prints its message and exits.  Nothing has been
    signed by then: the registry, the cache and the world the signing
    tools run in are as they were when the call began. *)
Theorem archive_at_a_full_Deep_Path_is_fatal (fuel : nat) (deepPath : DeepPath)
    (file : Reader) (st : State World) :
  firstUnused deepPath = None ->
  looksLikeArchive deepPath = true ->
  (if PathLooksLikeTarGz (Last deepPath)
   then exists entry entries ending,
          targz_Read ext file = (entry :: entries, ending)
          /\ int64 (len entry.2) = tar.Size entry.1
   else exists content zipEntry files zipEntryFile,
          file = BytesReader content
          /\ zip_NewReader ext content = inr (zipEntry :: files)
          /\ zip_Open ext zipEntry = inr zipEntryFile) ->
  (TransformFile ext (S fuel) deepPath file st).2 = Fatal
  /\ filesToTransform (TransformFile ext (S fuel) deepPath file st).1 = filesToTransform st
  /\ TransformCache (TransformFile ext (S fuel) deepPath file st).1 = TransformCache st
  /\ world (TransformFile ext (S fuel) deepPath file st).1 = world st.
Proof.
  intros Hfull Harchive Hfirst.
  by rewrite (archive_at_a_full_Deep_Path_run fuel deepPath file st Hfull Harchive Hfirst).
Qed.

End Monotone.

(** ** The further properties at concrete inputs *)

Lemma signed_tar_entry_run :
  TransformTarGzEntry Fixture.ext (TransformFile Fixture.ext 1)
    (NewDeepPath "manual/linux.tar.gz")
    (Fixture.tarEntryHeader "quick-lint-js/bin/quick-lint-js" 1, [x7f]) (initialState 0%nat)
  = (stateAfterFirstSigning,
     Ok [(Fixture.tarEntryHeader "quick-lint-js/bin/quick-lint-js" 1, [x7f]);
         (siblingTarHeader Fixture.ext
            (Fixture.tarEntryHeader "quick-lint-js/bin/quick-lint-js" 1)
            detachedSignature [x2d], [x2d])]).
Proof.
  unfold TransformTarGzEntry. rewrite decide_True by reflexivity.
  unfold bind at 1, lift at 1.
  change (Append _ _).2 with (Ok linuxBinary).
  unfold bind at 1. rewrite first_signing_run.
  cbn [newFile siblingFile detachedSignature default from_option id UpdateTarHeader].
  unfold bind at 1. rewrite WriteTarEntry_takes.
  - unfold bind at 1. rewrite WriteTarEntry_takes; [done|].
    split; [reflexivity|]. exists 1. split; reflexivity.
  - split; [reflexivity|]. exists 1. split; reflexivity.
Qed.

(** The GPG-signed Linux binary of the fixture run: the signature comes
    out as [quick-lint-js/bin/quick-lint-js.asc], mode 0644 for the
    binary's 0755. *)
Lemma tar_sibling_entry_is_not_executable_witness :
  exists siblingHeader,
    tar.Name siblingHeader = "quick-lint-js/bin/quick-lint-js.asc"
    /\ tar.Mode siblingHeader = 420
    /\ Z.land (tar.Mode siblingHeader) 73 = 0.
Proof.
  destruct (tar_sibling_entry_is_not_executable Fixture.ext (TransformFile Fixture.ext 1)
              (NewDeepPath "manual/linux.tar.gz")
              (Fixture.tarEntryHeader "quick-lint-js/bin/quick-lint-js" 1, [x7f])
              (initialState 0%nat) stateAfterFirstSigning _ signed_tar_entry_run)
    as (deepPath & r & main & Happend & Hrec & _ & _ & Hsibling).
  injection Happend as <-.
  assert (Hr : (stateAfterFirstSigning, Ok r)
               = (stateAfterFirstSigning, Ok detachedSignature))
    by (rewrite <- Hrec; exact first_signing_run).
  apply (f_equal snd) in Hr. cbn [snd] in Hr. injection Hr as ->.
  destruct Hsibling
    as (siblingHeader & Hwritten & _ & _ & Hname & _ & _ & _ & _ & _ & _ & Hmode & _).
  exists siblingHeader. split; [rewrite Hname; reflexivity|]. split; [|exact Hmode].
  injection Hwritten as _ Heq. rewrite <- Heq. reflexivity.
Defined.

Lemma tar_rebuilder_keeps_every_entry_witness :
  exists entries,
    targz_Read Fixture.ext (BytesReader Fixture.flatTarGz) = (entries, None)
    /\ (tar.Name ∘ fst <$> entries) = ["README"; "bin/tool"].
Proof.
  destruct (tar_rebuilder_keeps_every_entry Fixture.ext (TransformFile Fixture.ext 1)
              (NewDeepPath "flat.tar.gz") (BytesReader Fixture.flatTarGz)
              (initialState 0%nat) (initialState 0%nat) _ flatTarGz_round_trip)
    as (entries & Hread & _).
  exists entries. split; [exact Hread|].
  injection Hread as <-. reflexivity.
Defined.

Lemma zip_rebuilder_keeps_every_entry_witness :
  exists files,
    zip_NewReader Fixture.ext Fixture.flatZip = inr files
    /\ (zip.Name ∘ zip.Header <$> files) = ["tool.txt"; "bin/tool.exe"].
Proof.
  destruct (zip_rebuilder_keeps_every_entry Fixture.ext (TransformFile Fixture.ext 1)
              (NewDeepPath "flat.zip") Fixture.flatZip
              (initialState 0%nat) (initialState 0%nat) _ flatZip_round_trip)
    as (files & Hread & _).
  exists files. split; [exact Hread|].
  injection Hread as <-. reflexivity.
Defined.

Lemma linuxBinary_is_registered :
  filesToTransform (initialState 0%nat) !! linuxBinary = Some GPGSign.
Proof. vm_compute. reflexivity. Qed.

Lemma unreadable_binary_run :
  TransformFile Fixture.ext 1 linuxBinary (BrokenReader (ExternalError 7))
    (initialState 0%nat)
  = (initialState 0%nat, Err (ExternalError 7)).
Proof.
  rewrite TransformFile_leaf by reflexivity. unfold leafOutcome.
  rewrite linuxBinary_is_registered. cbn [default from_option id].
  by case_decide.
Qed.

Lemma TransformFile_failure_keeps_the_registry_entry_witness :
  registeredForSigning (initialState 0%nat) linuxBinary.
Proof.
  destruct (TransformFile_failure_keeps_the_registry_entry Fixture.ext 0 linuxBinary
              (BrokenReader (ExternalError 7)) (initialState 0%nat) (initialState 0%nat)
              (ExternalError 7)) as (Hregistered & _).
  - reflexivity.
  - apply unreadable_binary_run.
  - exact Hregistered.
Defined.

Lemma processed_path_is_not_reported_unsigned_witness :
  filesToTransform stateAfterFirstSigning !! linuxBinary = None.
Proof.
  destruct (processed_path_is_not_reported_unsigned Fixture.ext Fixture.mr 0%nat 0 linuxBinary
              (BytesReader [x7f]) (initialState 0%nat) stateAfterFirstSigning
              stateAfterFirstSigning detachedSignature) as (_ & Hgone & _).
  - apply walk_done.
  - reflexivity.
  - apply first_signing_run.
  - apply walk_done.
  - exact Hgone.
Defined.

Lemma registry_only_shrinks_and_cache_only_grows_witness :
  filesToTransform stateAfterFirstSigning ⊆ filesToTransform (initialState 0%nat)
  /\ TransformCache (initialState 0%nat) ⊆ TransformCache stateAfterFirstSigning.
Proof.
  destruct (registry_only_shrinks_and_cache_only_grows Fixture.ext 0%nat (initialState 0%nat)
              1 linuxBinary (BytesReader [x7f])) as (Hregistry & Hcache & _).
  - apply walk_done.
  - split; [exact Hregistry|exact Hcache].
Defined.

Lemma readme_run :
  TransformFile Fixture.ext 1 (NewDeepPath "README.md") (BytesReader [x52])
    (initialState 0%nat)
  = (initialState 0%nat, Ok NoOpTransform).
Proof.
  rewrite TransformFile_leaf by reflexivity. unfold leafOutcome.
  replace (filesToTransform (initialState 0%nat) !! NewDeepPath "README.md")
    with (@None FileTransformType) by (vm_compute; reflexivity).
  cbn [default from_option id]. by case_decide.
Qed.

Lemma top_level_results_have_no_sibling_witness :
  siblingFile NoOpTransform = None /\ NoOpTransform = NoOpTransform.
Proof.
  destruct (top_level_results_have_no_sibling Fixture.ext 0%nat (initialState 0%nat)
              (initialState 0%nat) 1 "README.md" (BytesReader [x52]) NoOpTransform)
    as (Hsibling & Hresult & _).
  - apply walk_done.
  - apply readme_run.
  - split; [exact Hsibling|exact Hresult].
Defined.

Lemma archive_at_a_full_Deep_Path_is_fatal_witness :
  (TransformFile Fixture.ext 1 (NewDeepPath3 "a.nupkg" "tools/b.zip" "c.tar.gz")
     (BytesReader Fixture.flatTarGz) nothingRegistered).2
  = Fatal.
Proof.
  apply (archive_at_a_full_Deep_Path_is_fatal Fixture.ext 0
           (NewDeepPath3 "a.nupkg" "tools/b.zip" "c.tar.gz")
           (BytesReader Fixture.flatTarGz) nothingRegistered).
  - reflexivity.
  - reflexivity.
  - eexists _, _, _. split; reflexivity.
Defined.

(** ** Signing a file inside an archive *)

Lemma Append_Ok_Last (p q : DeepPath) (child : string) :
  contiguous p -> child <> "" -> (Append p child).2 = Ok q -> Last q = child.
Proof.
  destruct p as [a b d]. unfold contiguous, Append, Last. cbn [parts0 parts1 parts2].
  intros [H0 H1] Hchild.
  destruct (String.eqb_spec a "") as [->|Ha].
  - rewrite (H1 (H0 eq_refl)), (H0 eq_refl). intros [= <-]. cbn.
    by destruct (String.eqb_spec child "").
  - destruct (String.eqb_spec b "") as [->|Hb].
    + rewrite (H1 eq_refl). intros [= <-]. cbn. by destruct (String.eqb_spec child "").
    + destruct (String.eqb_spec d "") as [->|Hd]; [|done]. intros [= <-]. cbn.
      by destruct (String.eqb_spec child "").
Qed.

Section SignedEntries.

Context {World : Type}.
Variable ext : Externals World.

(** The dispatcher at a registered leaf path whose content is not in the
    cache, when the signing tool succeeds. *)
Lemma TransformFile_signs (fuel : nat) (deepPath : DeepPath) (content output : bytes)
    (transformType : FileTransformType) (st : State World) (w : World) :
  looksLikeArchive deepPath = false ->
  filesToTransform st !! deepPath = Some transformType ->
  transformType <> NoTransform ->
  isCacheHit (default zeroFileTransformResult (TransformCache st !! sha256_Sum ext content))
  = false ->
  signerTool ext transformType (Last deepPath) content (world st) = (w, inr output) ->
  TransformFile ext (S fuel) deepPath (BytesReader content) st
  = (mkState (delete deepPath (filesToTransform st))
       (<[sha256_Sum ext content := signerResult ext transformType (Last deepPath) output]>
          (TransformCache st)) w
       (events st ++ [signingLogLine transformType deepPath;
                      SignerRun transformType content]),
     Ok (signerResult ext transformType (Last deepPath) output)).
Proof.
  intros Hleaf Hregistered Hreal Hmiss Htool.
  rewrite TransformFile_leaf by done. unfold leafOutcome.
  rewrite Hregistered. cbn [default from_option id].
  rewrite decide_False by done. rewrite Hmiss, Htool. done.
Qed.

(** Signing inside a tar+gzip archive.  Let an entry with a non-empty
    name, of the size its header declares, lie at a registered path, with
    content that is not in the cache, and let the signing tool (which is
    given the entry's name) succeed and the tar writer take what it is
    handed.  Then the path leaves the registry, the result enters the cache
    under the content's digest, and the rebuilder writes:
    for GPG, the entry as it was, header and content, followed by the
    signature as a sibling named after the entry with [.asc] appended;
    for codesign and osslsigncode, the one entry, with the signed bytes as
    content and its header updated for them. *)
Theorem tar_entry_is_signed_in_place (fuel : nat) (tarGzDeepPath deepPath : DeepPath)
    (header : tar.Header) (content output : bytes) (transformType : FileTransformType)
    (st : State World) (w : World) :
  contiguous tarGzDeepPath ->
  tar.Name header <> "" ->
  (Append tarGzDeepPath (tar.Name header)).2 = Ok deepPath ->
  looksLikeArchive deepPath = false ->
  int64 (len content) = tar.Size header ->
  filesToTransform st !! deepPath = Some transformType ->
  transformType <> NoTransform ->
  isCacheHit (default zeroFileTransformResult (TransformCache st !! sha256_Sum ext content))
  = false ->
  signerTool ext transformType (tar.Name header) content (world st) = (w, inr output) ->
  tarWriterTakesResult ext header content
    (signerResult ext transformType (tar.Name header) output) ->
  exists st' written,
    TransformTarGzEntry ext (TransformFile ext (S fuel)) tarGzDeepPath (header, content) st
    = (st', Ok written)
    /\ filesToTransform st' = delete deepPath (filesToTransform st)
    /\ TransformCache st'
       = <[sha256_Sum ext content := signerResult ext transformType (tar.Name header) output]>
           (TransformCache st)
    /\ world st' = w
    /\ match transformType with
       | GPGSign =>
         exists siblingHeader,
           written = [(header, content); (siblingHeader, output)]
           /\ tar.Name siblingHeader
              = filepath_Join ext (filepath_Dir ext (tar.Name header))
                  (filepath_Base ext (tar.Name header) ++ ".asc")
           /\ tar.Size siblingHeader = int64 (len output)
       | _ =>
         exists updated,
           written = [(updated, output)]
           /\ tar.Name updated = tar.Name header
           /\ tar.Size updated = int64 (len output)
           /\ tar.ModTime updated = ProgramStartTime ext
           /\ tar.Mode updated = tar.Mode header
       end.
Proof.
  intros Hcontiguous Hname Happend Hleaf Hsize Hregistered Hreal Hmiss Htool
    [Hmain Hsibling].
  pose proof (Append_Ok_Last _ _ _ Hcontiguous Hname Happend) as Hlast.
  rewrite <- Hlast in Htool.
  pose proof (TransformFile_signs fuel deepPath content output transformType st w
                Hleaf Hregistered Hreal Hmiss Htool) as Hcall.
  rewrite Hlast in Hcall.
  set (r := signerResult ext transformType (tar.Name header) output) in *.
  exists (mkState (delete deepPath (filesToTransform st))
            (<[sha256_Sum ext content := r]> (TransformCache st)) w
            (events st ++ [signingLogLine transformType deepPath;
                           SignerRun transformType content])),
    ((UpdateTarHeader ext r header, default content (newFile r))
     :: match siblingFile r with
        | Some sibling =>
          [(siblingTarHeader ext (UpdateTarHeader ext r header) r sibling, sibling)]
        | None => []
        end).
  split.
  - unfold TransformTarGzEntry. rewrite decide_True by done.
    unfold bind at 1, lift at 1. rewrite Happend.
    unfold bind at 1. rewrite Hcall.
    unfold bind at 1. rewrite WriteTarEntry_takes by done.
    destruct (siblingFile r) as [sibling|] eqn:Hr; [|done].
    unfold bind at 1. rewrite WriteTarEntry_takes by auto. done.
  - cbn [filesToTransform TransformCache world]. repeat (split; [done|]).
    subst r. destruct transformType; [done|..]; cbn [signerResult newFile siblingFile default
      from_option id UpdateTarHeader siblingFileName]; by eexists.
Qed.

(** Signing inside a zip archive, under the same conditions, when the zip
    writer takes what it is handed: for GPG the rebuilder copies the entry
    raw, header and stored bytes, and creates the signature next to it;
    for codesign and osslsigncode it writes the signed bytes under the
    entry's header, updated for them. *)
Theorem zip_entry_is_signed_in_place (fuel : nat) (zipDeepPath deepPath : DeepPath)
    (zipEntry : zip.File) (content output raw : bytes) (transformType : FileTransformType)
    (st : State World) (w : World) :
  contiguous zipDeepPath ->
  zip.Name (zip.Header zipEntry) <> "" ->
  (Append zipDeepPath (zip.Name (zip.Header zipEntry))).2 = Ok deepPath ->
  looksLikeArchive deepPath = false ->
  zip_Open ext zipEntry = inr (BytesReader content) ->
  zip_OpenRaw ext zipEntry = inr raw ->
  filesToTransform st !! deepPath = Some transformType ->
  transformType <> NoTransform ->
  isCacheHit (default zeroFileTransformResult (TransformCache st !! sha256_Sum ext content))
  = false ->
  signerTool ext transformType (zip.Name (zip.Header zipEntry)) content (world st)
  = (w, inr output) ->
  zipWriterTakesResult ext zipEntry
    (signerResult ext transformType (zip.Name (zip.Header zipEntry)) output) ->
  exists st' written,
    TransformZipEntry ext (TransformFile ext (S fuel)) zipDeepPath zipEntry st
    = (st', Ok written)
    /\ filesToTransform st' = delete deepPath (filesToTransform st)
    /\ TransformCache st'
       = <[sha256_Sum ext content :=
             signerResult ext transformType (zip.Name (zip.Header zipEntry)) output]>
           (TransformCache st)
    /\ world st' = w
    /\ match transformType with
       | GPGSign =>
         written
         = [zip.Raw (zip.Header zipEntry) raw;
            zip.Created
              (filepath_Join ext (filepath_Dir ext (zip.Name (zip.Header zipEntry)))
                 (filepath_Base ext (zip.Name (zip.Header zipEntry)) ++ ".asc"))
              output]
       | _ =>
         exists updated,
           written = [zip.WithHeader updated output]
           /\ zip.Name updated = zip.Name (zip.Header zipEntry)
           /\ zip.UncompressedSize64 updated = uint64 (len output)
           /\ zip.Modified updated = ProgramStartTime ext
           /\ zip.Method updated = zip.Method (zip.Header zipEntry)
       end.
Proof.
  intros Hcontiguous Hname Happend Hleaf Hopen Hraw Hregistered Hreal Hmiss Htool
    [Hmain Hsibling].
  pose proof (Append_Ok_Last _ _ _ Hcontiguous Hname Happend) as Hlast.
  rewrite <- Hlast in Htool.
  pose proof (TransformFile_signs fuel deepPath content output transformType st w
                Hleaf Hregistered Hreal Hmiss Htool) as Hcall.
  rewrite Hlast in Hcall.
  set (r := signerResult ext transformType (zip.Name (zip.Header zipEntry)) output) in *.
  set (updated := UpdateZipHeader ext r (zip.Header zipEntry)) in *.
  exists (mkState (delete deepPath (filesToTransform st))
            (<[sha256_Sum ext content := r]> (TransformCache st)) w
            (events st ++ [signingLogLine transformType deepPath;
                           SignerRun transformType content])),
    (match newFile r with
     | None => zip.Raw updated raw
     | Some newFileContent => zip.WithHeader updated newFileContent
     end
     :: match siblingFile r with
        | Some sibling =>
          [zip.Created
             (filepath_Join ext (filepath_Dir ext (zip.Name (zip.Header zipEntry)))
                (siblingFileName r)) sibling]
        | None => []
        end).
  split.
  - unfold TransformZipEntry.
    unfold bind at 1. rewrite Hopen. cbn [liftSum ret].
    unfold bind at 1, lift at 1. rewrite Happend.
    unfold bind at 1. rewrite Hcall. fold r. fold updated.
    unfold bind at 1.
    destruct (newFile r) as [newFileContent|].
    + unfold bind at 1. rewrite Hmain. cbn [liftErr ret].
      destruct (siblingFile r) as [sibling|]; [|done].
      unfold bind at 1. rewrite (Hsibling sibling eq_refl). done.
    + unfold bind at 1. rewrite Hraw. cbn [liftSum ret].
      unfold bind at 1. rewrite Hmain. cbn [liftErr ret].
      destruct (siblingFile r) as [sibling|]; [|done].
      unfold bind at 1. rewrite (Hsibling sibling eq_refl). done.
  - cbn [filesToTransform TransformCache world]. repeat (split; [done|]).
    subst updated r. destruct transformType; [done|..]; cbn [signerResult newFile siblingFile
      UpdateZipHeader siblingFileName]; [by eexists|done|by eexists].
Qed.

End SignedEntries.

(** The Linux binary of the fixture run inside [manual/linux.tar.gz]: it
    is written as it was, followed by its detached signature. *)
Lemma tar_entry_is_signed_in_place_witness :
  exists st' siblingHeader,
    TransformTarGzEntry Fixture.ext (TransformFile Fixture.ext 1)
      (NewDeepPath "manual/linux.tar.gz")
      (Fixture.tarEntryHeader "quick-lint-js/bin/quick-lint-js" 1, [x7f]) (initialState 0%nat)
    = (st', Ok [(Fixture.tarEntryHeader "quick-lint-js/bin/quick-lint-js" 1, [x7f]);
                (siblingHeader, [x2d])])
    /\ tar.Name siblingHeader = "quick-lint-js/bin/quick-lint-js.asc".
Proof.
  destruct (tar_entry_is_signed_in_place Fixture.ext 0 (NewDeepPath "manual/linux.tar.gz")
              linuxBinary (Fixture.tarEntryHeader "quick-lint-js/bin/quick-lint-js" 1)
              [x7f] [x2d] GPGSign (initialState 0%nat) 1%nat)
    as (st' & written & Hrun & _ & _ & _ & siblingHeader & -> & Hname & _).
  - by split.
  - discriminate.
  - reflexivity.
  - reflexivity.
  - reflexivity.
  - apply linuxBinary_is_registered.
  - discriminate.
  - reflexivity.
  - reflexivity.
  - split.
    + split; [reflexivity|]. exists 1. split; reflexivity.
    + intros sibling [= <-]. split; [reflexivity|]. exists 1. split; reflexivity.
  - exists st', siblingHeader. split; [exact Hrun|]. rewrite Hname. reflexivity.
Defined.

Lemma windowsBinary_is_registered :
  filesToTransform (initialState 0%nat) !! windowsBinary = Some MicrosoftOsslsigncode.
Proof. vm_compute. reflexivity. Qed.

(** The Windows binary inside [manual/windows.zip]: it is replaced by the
    bytes osslsigncode returns, three for its two. *)
Lemma zip_entry_is_signed_in_place_witness :
  exists st' updated,
    TransformZipEntry Fixture.ext (TransformFile Fixture.ext 1)
      (NewDeepPath "manual/windows.zip")
      (zip.mkFile (Fixture.zipEntryHeader "bin/quick-lint-js.exe" 2) [x4d; x5a])
      (initialState 0%nat)
    = (st', Ok [zip.WithHeader updated [x4d; x5a; x4f]])
    /\ zip.UncompressedSize64 updated = 3.
Proof.
  destruct (zip_entry_is_signed_in_place Fixture.ext 0 (NewDeepPath "manual/windows.zip")
              windowsBinary
              (zip.mkFile (Fixture.zipEntryHeader "bin/quick-lint-js.exe" 2) [x4d; x5a])
              [x4d; x5a] [x4d; x5a; x4f] [x4d; x5a] MicrosoftOsslsigncode
              (initialState 0%nat) 1%nat)
    as (st' & written & Hrun & _ & _ & _ & updated & -> & _ & Hsize & _).
  - by split.
  - discriminate.
  - reflexivity.
  - reflexivity.
  - reflexivity.
  - reflexivity.
  - apply windowsBinary_is_registered.
  - discriminate.
  - reflexivity.
  - reflexivity.
  - split; [reflexivity|]. intros sibling [=].
  - exists st', updated. split; [exact Hrun|]. rewrite Hsize. reflexivity.
Defined.

(** ** Copying a file of the source tree *)

Section NoPanic.

Context {World : Type}.
Variable ext : Externals World.

(** A call that does not end in a panic. *)
Local Abbreviation noPanic m := (forall st : State World, (m st).2 <> Panic).

Lemma noPanic_bind {A B} (m : M A) (k : A -> M B) :
  noPanic m -> (forall a, noPanic (k a)) -> noPanic (bind m k).
Proof.
  intros Hm Hk st. unfold bind. specialize (Hm st).
  destruct (m st) as [st1 [a| | | |]]; cbn in *; done.
Qed.

Lemma noPanic_liftSum {A} (r : error + A) : noPanic (liftSum r).
Proof. by destruct r. Qed.

Lemma noPanic_liftErr (r : option error) : noPanic (liftErr r).
Proof. by destruct r. Qed.

Lemma noPanic_Append (p : DeepPath) (child : string) :
  noPanic (lift (World := World) (Append p child).2).
Proof. intros st. unfold Append, lift. cbv zeta. by repeat case_match. Qed.

Lemma noPanic_WriteTarEntry (header : tar.Header) (content : bytes) :
  noPanic (WriteTarEntry ext header content).
Proof.
  intros st. unfold WriteTarEntry. destruct (tar_WriteHeader ext header); [done|].
  destruct (tar_Write ext header content) as [n [e|]]; [done|]. by case_decide.
Qed.

Section Rebuilders.

Variable rec : DeepPath -> Reader -> @M World FileTransformResult.
Hypothesis rec_noPanic : forall deepPath file, noPanic (rec deepPath file).

Lemma noPanic_TransformTarGz (deepPath : DeepPath) (file : Reader) :
  noPanic (TransformTarGz ext rec deepPath file).
Proof.
  unfold TransformTarGz, TransformTarGzToFile.
  destruct (targz_Read ext file) as [entries ending].
  apply noPanic_bind; [|done].
  induction entries as [|[header fileContent] entries IH]; cbn [TransformTarGzEntries].
  - by destruct ending.
  - apply noPanic_bind; [|intros written; by apply noPanic_bind].
    unfold TransformTarGzEntry. case_decide; [|done].
    apply noPanic_bind; [apply noPanic_Append|]. intros deepPath'.
    apply noPanic_bind; [apply rec_noPanic|]. intros r.
    apply noPanic_bind; [apply noPanic_WriteTarEntry|]. intros _.
    destruct (siblingFile r); [|done].
    apply noPanic_bind; [apply noPanic_WriteTarEntry|done].
Qed.

Lemma noPanic_TransformZip (deepPath : DeepPath) (content : bytes) :
  noPanic (TransformZip ext rec deepPath content).
Proof.
  unfold TransformZip, TransformZipToFile.
  apply noPanic_bind; [|done].
  apply noPanic_bind; [apply noPanic_liftSum|]. intros files.
  induction files as [|zipEntry files IH]; cbn [TransformZipEntries]; [done|].
  apply noPanic_bind; [|intros written; by apply noPanic_bind].
  unfold TransformZipEntry.
  apply noPanic_bind; [apply noPanic_liftSum|]. intros zipEntryFile.
  apply noPanic_bind; [apply noPanic_Append|]. intros deepPath'.
  apply noPanic_bind; [apply rec_noPanic|]. intros r.
  apply noPanic_bind.
  - destruct (newFile r).
    + apply noPanic_bind; [apply noPanic_liftErr|done].
    + apply noPanic_bind; [apply noPanic_liftSum|]. intros raw.
      apply noPanic_bind; [apply noPanic_liftErr|done].
  - intros first. destruct (siblingFile r); [|done].
    apply noPanic_bind; [apply noPanic_liftErr|done].
Qed.

End Rebuilders.

(** The dispatcher returns a result or an error, or ends the process in
    [log.Fatal]; it does not panic. *)
Lemma noPanic_TransformFile (fuel : nat) (deepPath : DeepPath) (file : Reader) :
  noPanic (TransformFile ext fuel deepPath file).
Proof.
  revert deepPath file. induction fuel as [|fuel IH]; intros deepPath file; [done|].
  cbn [TransformFile]. destruct (looksLikeArchive deepPath) eqn:Harchive.
  - unfold TransformFile_body. unfold looksLikeArchive in Harchive.
    destruct (PathLooksLikeTarGz (Last deepPath)); [by apply noPanic_TransformTarGz|].
    cbn [orb] in Harchive. rewrite Harchive.
    apply noPanic_bind; [by destruct file|]. intros content. by apply noPanic_TransformZip.
  - intros st. rewrite TransformFile_body_leaf by done.
    by apply leafOutcome_cases.
Qed.

End NoPanic.

Section CopyingFiles.

Context {World : Type}.
Variable ext : Externals World.
Variable fs : FileSystem World.

(** A result without replacement bytes comes from the registry look-up:
    the rebuilders return replacement bytes. *)
Lemma result_without_replacement_is_a_leaf_result (fuel : nat) (deepPath : DeepPath)
    (file : Reader) (st st' : State World) (r : FileTransformResult) :
  TransformFile ext fuel deepPath file st = (st', Ok r) -> newFile r = None ->
  looksLikeArchive deepPath = false.
Proof.
  destruct fuel as [|fuel]; [done|]. intros Hcall Hnone.
  destruct (looksLikeArchive deepPath) eqn:Harchive; [|done].
  cbn [TransformFile] in Hcall. unfold TransformFile_body in Hcall.
  unfold looksLikeArchive in Harchive.
  destruct (PathLooksLikeTarGz (Last deepPath)).
  - apply TransformTarGz_shape in Hcall as [? _]. done.
  - cbn [orb] in Harchive. rewrite Harchive in Hcall.
    apply bind_Ok in Hcall as (st1 & content & _ & Hcall).
    apply TransformZip_shape in Hcall as [? _]. done.
Qed.

(** The local [fileComplete] is set exactly on the ways out that return
    nil or panic, and beyond what the dispatcher did the state changes in
    its world only. *)
Lemma copyOrTransform_fileComplete (fuel : nat) (deepPath : DeepPath) (sourceFile : Reader)
    (destinationPath : string) (sourceInfo : FileInfo) (st st' : State World)
    (fileComplete : bool) (o : Outcome unit) :
  copyOrTransform ext fs fuel deepPath sourceFile destinationPath sourceInfo st
  = (st', fileComplete, o) ->
  fileComplete = match o with Ok _ | Panic => true | _ => false end
  /\ st' = withWorld (TransformFile ext fuel deepPath sourceFile st).1 (world st').
Proof.
  unfold copyOrTransform.
  pose proof (noPanic_TransformFile ext fuel deepPath sourceFile st) as HnoPanic.
  destruct (TransformFile ext fuel deepPath sourceFile st)
    as [[registry cache w evs] [r| | | |]];
    cbn [snd] in HnoPanic; try done; try by intros [= <- <- <-].
  unfold fsCall. cbn [world withWorld filesToTransform TransformCache events].
  destruct (newFile r).
  - destruct (File_Write fs _ _ _) as [w2 [e|]]; [by intros [= <- <- <-]|].
    destruct (siblingFile r); by intros [= <- <- <-].
  - destruct (io_Copy fs _ _ _) as [w2 [e|]]; [by intros [= <- <- <-]|].
    destruct (os_Chtimes fs _ _ _ _) as [w3 [e|]]; [by intros [= <- <- <-]|].
    destruct (siblingFile r); by intros [= <- <- <-].
Qed.

(** Once the destination file has been created, [CopyFileOrTransformArchive]
    runs its deferred calls on every way out but [log.Fatal]: the
    destination is closed, and removed again exactly when the function
    returns an error (the dispatcher failed, or a write, or [os.Chtimes]);
    then the source is closed.  When it returns nil the destination stays.
    When the dispatcher ends the process in [log.Fatal], nothing is
    closed or removed: the destination stays as [os.OpenFile] left it.
    The registry, the cache and the log are as the one call of the
    dispatcher leaves them. *)
Theorem CopyFileOrTransformArchive_removes_an_incomplete_destination (fuel : nat)
    (deepPath : DeepPath) (sourcePath destinationPath : string) (sourceInfo : FileInfo)
    (st : State World) (sourceFile : Reader) (w1 w2 : World) :
  IsRegular sourceInfo = true ->
  os_Open fs sourcePath (world st) = (w1, inr sourceFile) ->
  os_OpenFile fs destinationPath (Perm sourceInfo) w1 = (w2, None) ->
  exists w3 fileComplete o,
    copyOrTransform ext fs fuel deepPath sourceFile destinationPath sourceInfo
      (withWorld st w2)
    = (withWorld (TransformFile ext fuel deepPath sourceFile (withWorld st w2)).1 w3,
       fileComplete, o)
    /\ CopyFileOrTransformArchive ext fs fuel deepPath sourcePath destinationPath
         sourceInfo st
       = (withWorld (TransformFile ext fuel deepPath sourceFile (withWorld st w2)).1
            match o with
            | Ok _ | Panic => File_Close fs sourcePath (File_Close fs destinationPath w3)
            | Err _ =>
              File_Close fs sourcePath
                (os_Remove fs destinationPath (File_Close fs destinationPath w3))
            | Fatal | OutOfFuel => w3
            end, o).
Proof.
  intros Hregular Hopen Hcreate. unfold CopyFileOrTransformArchive.
  rewrite Hregular. cbn [negb]. rewrite Hopen.
  unfold fsCall at 1. cbn [world withWorld]. rewrite Hcreate.
  change (withWorld (withWorld st w1) w2) with (withWorld st w2).
  destruct (copyOrTransform _ _ _ _ _ _ _ _) as [[st' fileComplete] o] eqn:Hbody.
  apply copyOrTransform_fileComplete in Hbody as [-> Hstate].
  set (dispatched := (TransformFile ext fuel deepPath sourceFile (withWorld st w2)).1) in *.
  destruct st' as [registry' cache' w' evs'], dispatched as [registry cache w evs].
  injection Hstate as -> -> ->.
  exists w', (match o with Ok _ | Panic => true | _ => false end), o.
  split; [done|]. by destruct o.
Qed.

(** A file with an archive suffix is never copied: whatever its content
    and whatever the registry holds, when the dispatcher returns a result
    for it, the result carries the rebuilt archive, and that is what is
    written to the destination, in one write; the modification time of the
    source is not carried over ([os.Chtimes] is not called).  The call
    returns nil when the write succeeds; when it fails, the destination is
    removed and the error returned. *)
Theorem archive_file_is_replaced_by_its_rebuilt_form (fuel : nat) (deepPath : DeepPath)
    (sourcePath destinationPath : string) (sourceInfo : FileInfo) (st st1 : State World)
    (sourceFile : Reader) (w1 w2 : World) (r : FileTransformResult) :
  IsRegular sourceInfo = true ->
  looksLikeArchive deepPath = true ->
  os_Open fs sourcePath (world st) = (w1, inr sourceFile) ->
  os_OpenFile fs destinationPath (Perm sourceInfo) w1 = (w2, None) ->
  TransformFile ext fuel deepPath sourceFile (withWorld st w2) = (st1, Ok r) ->
  exists rebuilt,
    r = replaceWith rebuilt
    /\ CopyFileOrTransformArchive ext fs fuel deepPath sourcePath destinationPath
         sourceInfo st
       = match File_Write fs destinationPath rebuilt (world st1) with
         | (w3, None) =>
           (withWorld st1 (File_Close fs sourcePath (File_Close fs destinationPath w3)),
            Ok tt)
         | (w3, Some e) =>
           (withWorld st1
              (File_Close fs sourcePath
                 (os_Remove fs destinationPath (File_Close fs destinationPath w3))),
            Err e)
         end.
Proof.
  intros Hregular Harchive Hopen Hcreate Hcall.
  assert (Hshape : isReplace r).
  { destruct fuel as [|fuel]; [done|].
    cbn [TransformFile] in Hcall. unfold TransformFile_body in Hcall.
    unfold looksLikeArchive in Harchive.
    destruct (PathLooksLikeTarGz (Last deepPath)).
    - by apply TransformTarGz_shape in Hcall.
    - cbn [orb] in Harchive. rewrite Harchive in Hcall.
      apply bind_Ok in Hcall as (st' & content & _ & Hcall).
      by apply TransformZip_shape in Hcall. }
  destruct r as [[rebuilt|] [sibling|] name]; destruct Hshape as [Hnew Hsibling];
    try done.
  assert (Hname : name = "").
  { destruct fuel as [|fuel]; [done|].
    cbn [TransformFile] in Hcall. unfold TransformFile_body in Hcall.
    unfold looksLikeArchive in Harchive.
    destruct (PathLooksLikeTarGz (Last deepPath)).
    - unfold TransformTarGz in Hcall.
      apply bind_Ok in Hcall as (st' & written & _ & [_ [= _ <-]]%ret_Ok). done.
    - cbn [orb] in Harchive. rewrite Harchive in Hcall.
      apply bind_Ok in Hcall as (st' & content & _ & Hcall). unfold TransformZip in Hcall.
      apply bind_Ok in Hcall as (st'' & written & _ & [_ [= _ <-]]%ret_Ok). done. }
  subst name. exists rebuilt. split; [done|].
  unfold CopyFileOrTransformArchive. rewrite Hregular. cbn [negb]. rewrite Hopen.
  unfold fsCall at 1. cbn [world withWorld]. rewrite Hcreate.
  change (withWorld (withWorld st w1) w2) with (withWorld st w2).
  unfold copyOrTransform. rewrite Hcall. cbn [newFile siblingFile].
  unfold fsCall. destruct (File_Write fs destinationPath rebuilt (world st1)) as [w3 [e|]];
    by destruct st1.
Qed.

(** In a state whose registry holds entries of its literal only, a call
    of the dispatcher at a one-segment Deep Path returns no sibling file,
    and reads nothing and changes nothing when the name has no archive
    suffix. *)
Lemma top_level_result (fuel : nat) (path : string) (file : Reader)
    (st st' : State World) (r : FileTransformResult) :
  filesToTransform st ⊆ filesToTransform_initial ->
  TransformFile ext fuel (NewDeepPath path) file st = (st', Ok r) ->
  siblingFile r = None
  /\ (looksLikeArchive (NewDeepPath path) = false ->
      filesToTransform st !! NewDeepPath path = None /\ r = NoOpTransform /\ st' = st).
Proof.
  intros Hliteral Hcall. destruct fuel as [|fuel]; [done|].
  destruct (looksLikeArchive (NewDeepPath path)) eqn:Harchive.
  - split; [|done].
    destruct (newFile r) eqn:Hnew.
    + cbn [TransformFile] in Hcall. unfold TransformFile_body in Hcall.
      unfold looksLikeArchive in Harchive.
      destruct (PathLooksLikeTarGz (Last (NewDeepPath path))).
      * by apply TransformTarGz_shape in Hcall as [_ ?].
      * cbn [orb] in Harchive. rewrite Harchive in Hcall.
        apply bind_Ok in Hcall as (st1 & content & _ & Hcall).
        by apply TransformZip_shape in Hcall as [_ ?].
    + apply result_without_replacement_is_a_leaf_result in Hcall; [|done]. congruence.
  - rewrite TransformFile_leaf in Hcall by done.
    assert (Hlookup : filesToTransform st !! NewDeepPath path = None).
    { apply eq_None_not_Some. intros [t Ht].
      rewrite map_subseteq_spec in Hliteral. apply Hliteral in Ht.
      by apply filesToTransform_initial_nested in Ht as (_ & _ & _ & ? & _). }
    unfold leafOutcome in Hcall. rewrite Hlookup in Hcall. cbn in Hcall.
    by injection Hcall as <- <-.
Qed.

(** Files at the top level of the source tree, which [main] passes with a
    one-segment Deep Path, while the registry holds entries of its literal
    only.  The call never panics.  If the file is regular and its name has
    no archive suffix, and the file system calls succeed, the file is
    copied as it is: the destination is created with the permission bits of
    the source, receives with [io.Copy] all the bytes of the source, gets the
    modification time of the source as access and modification time, and is
    closed, then the source; the registry, the cache and the log are
    untouched and the call returns nil. *)
Theorem top_level_file_is_copied_verbatim (fuel : nat) (path sourcePath destinationPath : string)
    (sourceInfo : FileInfo) (st : State World) :
  filesToTransform st ⊆ filesToTransform_initial ->
  (CopyFileOrTransformArchive ext fs fuel (NewDeepPath path) sourcePath destinationPath
     sourceInfo st).2 <> Panic
  /\ forall content w1 w2 w3 w4,
       IsRegular sourceInfo = true ->
       looksLikeArchive (NewDeepPath path) = false ->
       os_Open fs sourcePath (world st) = (w1, inr (BytesReader content)) ->
       os_OpenFile fs destinationPath (Perm sourceInfo) w1 = (w2, None) ->
       io_Copy fs destinationPath (BytesReader content) w2 = (w3, None) ->
       os_Chtimes fs destinationPath (FileInfo_ModTime sourceInfo)
         (FileInfo_ModTime sourceInfo) w3 = (w4, None) ->
       CopyFileOrTransformArchive ext fs (S fuel) (NewDeepPath path) sourcePath
         destinationPath sourceInfo st
       = (withWorld st (File_Close fs sourcePath (File_Close fs destinationPath w4)), Ok tt).
Proof.
  intros Hliteral. split.
  - unfold CopyFileOrTransformArchive.
    destruct (IsRegular sourceInfo); [|done]. cbn [negb].
    destruct (os_Open fs sourcePath (world st)) as [w1 [e|sourceFile]]; [done|].
    unfold fsCall at 1. cbn [world withWorld].
    destruct (os_OpenFile fs destinationPath (Perm sourceInfo) w1) as [w2 [e|]];
      [done|].
    change (withWorld (withWorld st w1) w2) with (withWorld st w2).
    assert (Hbody : (copyOrTransform ext fs fuel (NewDeepPath path) sourceFile
                       destinationPath sourceInfo (withWorld st w2)).2 <> Panic).
    { unfold copyOrTransform.
      pose proof (noPanic_TransformFile ext fuel (NewDeepPath path) sourceFile
                    (withWorld st w2)) as HnoPanic.
      destruct (TransformFile ext fuel (NewDeepPath path) sourceFile (withWorld st w2))
        as [st1 [r| | | |]] eqn:Hcall; cbn [snd] in HnoPanic; try done.
      apply top_level_result in Hcall as [-> _]; [|done].
      destruct (newFile r).
      - by destruct (fsCall _ st1) as [st2 [e|]].
      - destruct (fsCall _ st1) as [st2 [e|]]; [done|].
        by destruct (fsCall _ st2) as [st3 [e|]]. }
    destruct (copyOrTransform _ _ _ _ _ _ _ _) as [[st' fileComplete] o].
    cbn [snd] in Hbody. by destruct o.
  - intros content w1 w2 w3 w4 Hregular Hleaf Hopen Hcreate Hwrite Htimes.
    unfold CopyFileOrTransformArchive. rewrite Hregular. cbn [negb]. rewrite Hopen.
    unfold fsCall at 1. cbn [world withWorld]. rewrite Hcreate.
    change (withWorld (withWorld st w1) w2) with (withWorld st w2).
    unfold copyOrTransform.
    destruct (TransformFile ext (S fuel) (NewDeepPath path) (BytesReader content)
                (withWorld st w2)) as [st1 o] eqn:Hcall.
    assert (Hresult : (st1, o) = (withWorld st w2, Ok NoOpTransform)).
    { rewrite <- Hcall. rewrite TransformFile_leaf by done. unfold leafOutcome.
      assert (Hlookup : filesToTransform (withWorld st w2) !! NewDeepPath path = None).
      { apply eq_None_not_Some. intros [t Ht]. cbn in Ht.
        rewrite map_subseteq_spec in Hliteral. apply Hliteral in Ht.
        by apply filesToTransform_initial_nested in Ht as (_ & _ & _ & ? & _). }
      rewrite Hlookup. cbn [default from_option id]. by case_decide. }
    injection Hresult as -> ->.
    cbn [newFile siblingFile NoOpTransform].
    unfold unreadSourceFile.
    replace (filesToTransform (withWorld st w2) !! NewDeepPath path)
      with (@None FileTransformType).
    + cbn [default from_option id]. rewrite decide_True by done.
      unfold fsCall. cbn [world withWorld]. rewrite Hwrite.
      cbn [world withWorld]. rewrite Htimes. cbn. done.
    + symmetry. apply eq_None_not_Some. intros [t Ht]. cbn in Ht.
      rewrite map_subseteq_spec in Hliteral. apply Hliteral in Ht.
      by apply filesToTransform_initial_nested in Ht as (_ & _ & _ & ? & _).
Qed.

End CopyingFiles.

(** A readable regular file [README.md] at the top of the fixture's
    source tree. *)
Lemma CopyFileOrTransformArchive_removes_an_incomplete_destination_witness :
  exists w3 o,
    CopyFileOrTransformArchive Fixture.ext fixtureFileSystem 1 (NewDeepPath "README.md")
      "source/README.md" "destination/README.md" (mkFileInfo true 420 7) (initialState 0%nat)
    = (withWorld
         (TransformFile Fixture.ext 1 (NewDeepPath "README.md") (BytesReader [x52])
            (withWorld (initialState 0%nat) 2%nat)).1
         match o with
         | Ok _ | Panic =>
           File_Close fixtureFileSystem "source/README.md"
             (File_Close fixtureFileSystem "destination/README.md" w3)
         | Err _ =>
           File_Close fixtureFileSystem "source/README.md"
             (os_Remove fixtureFileSystem "destination/README.md"
                (File_Close fixtureFileSystem "destination/README.md" w3))
         | Fatal | OutOfFuel => w3
         end, o).
Proof.
  destruct (CopyFileOrTransformArchive_removes_an_incomplete_destination Fixture.ext
              fixtureFileSystem 1 (NewDeepPath "README.md") "source/README.md"
              "destination/README.md" (mkFileInfo true 420 7) (initialState 0%nat)
              (BytesReader [x52]) 1%nat 2%nat) as (w3 & fileComplete & o & _ & Hcall);
    [reflexivity..|].
  exists w3, o. exact Hcall.
Defined.

Lemma top_level_file_is_copied_verbatim_witness :
  CopyFileOrTransformArchive Fixture.ext fixtureFileSystem 1 (NewDeepPath "README.md")
    "source/README.md" "destination/README.md" (mkFileInfo true 420 7) (initialState 0%nat)
  = (withWorld (initialState 0%nat) 6%nat, Ok tt).
Proof.
  destruct (top_level_file_is_copied_verbatim Fixture.ext fixtureFileSystem 0 "README.md"
              "source/README.md" "destination/README.md" (mkFileInfo true 420 7)
              (initialState 0%nat)) as [_ Hcopy].
  - done.
  - apply (Hcopy [x52] 1%nat 2%nat 3%nat 4%nat); reflexivity.
Defined.

(** ** Only registered files are signed *)

Section SignedFiles.

Context {World : Type}.
Variable ext : Externals World.

Lemma signsRegisteredOnly_refl (st : State World) : signsRegisteredOnly st st.
Proof. split; [done|]. exists []. cbn. by rewrite app_nil_r. Qed.

Lemma signsRegisteredOnly_trans (a b c : State World) :
  signsRegisteredOnly a b -> signsRegisteredOnly b c -> signsRegisteredOnly a c.
Proof.
  intros (Hab & signings1 & Hevents1 & Hregistered1)
         (Hbc & signings2 & Hevents2 & Hregistered2).
  split; [by etrans|]. exists (signings1 ++ signings2)%list. split.
  - unfold signingsOf in *. by rewrite Hevents2, Hevents1, flat_map_app, app_assoc.
  - apply Forall_app. split; [done|].
    eapply list.Forall_impl; [exact Hregistered2|]. intros s [Hs ?]. split; [|done].
    rewrite map_subseteq_spec in Hab. by apply Hab.
Qed.

Lemma leaf_signsRegisteredOnly rec (deepPath : DeepPath) (file : Reader) :
  looksLikeArchive deepPath = false ->
  triple anyState signsRegisteredOnly signsRegisteredOnly
    (TransformFile_body ext rec deepPath file) (fun _ => True).
Proof.
  intros Hleaf st _. rewrite TransformFile_body_leaf by done.
  assert (Hsigned : forall content w registry cache,
            default NoTransform (filesToTransform st !! deepPath) <> NoTransform ->
            registry ⊆ filesToTransform st ->
            signsRegisteredOnly st
              (mkState registry cache w
                 (events st
                  ++ [signingLogLine (default NoTransform (filesToTransform st !! deepPath))
                        deepPath;
                      SignerRun (default NoTransform (filesToTransform st !! deepPath))
                        content]))).
  { intros content w registry cache Htype Hsub. split; [done|].
    exists [(deepPath, default NoTransform (filesToTransform st !! deepPath), content)].
    split; [done|]. apply Forall_singleton. cbn [fst snd]. split; [|done].
    by destruct (filesToTransform st !! deepPath). }
  apply leafOutcome_cases.
  - intros _. split; [done|]. split; [|done]. apply signsRegisteredOnly_refl.
  - intros e _ _. apply signsRegisteredOnly_refl.
  - intros content cached _ _ _ _. split; [done|]. split; [|done].
    split; [apply delete_subseteq|]. exists []. cbn. by rewrite app_nil_r.
  - intros content w e Htype _ _ _. by apply Hsigned.
  - intros content w output Htype _ _ _. split; [done|]. split; [|done].
    apply Hsigned; [done|apply delete_subseteq].
Qed.

Lemma toolRuns_signingsOf (signings : list (DeepPath * FileTransformType * bytes)) :
  toolRuns (signingsOf signings) = (fun s => (s.1.2, s.2)) <$> signings.
Proof.
  induction signings as [|[[path transformType] content] signings IH]; [done|].
  unfold toolRuns, signingsOf in *. cbn [flat_map fst snd app fmap list_fmap].
  rewrite <- IH. by destruct transformType.
Qed.

(** Whatever a call of the dispatcher meets and however it ends, every
    signing tool it runs is run on a file at a path that was in the
    registry when the call began, with the operation the registry named
    for that path: no file outside the registry is handed to a signing
    tool, and none is signed with another tool than its own.  When the
    call returns, with a result or with an error, all it has added to the
    log are these signings, for each the line that announces it followed
    by the run of the tool: no tool runs unannounced.  (A call that ends
    in [log.Fatal] has also printed the message of [log.Fatal]; of such a
    call only the runs of the tools are stated.) *)
Theorem only_registered_files_are_signed (fuel : nat) (deepPath : DeepPath) (file : Reader)
    (st : State World) :
  exists signings,
    Forall (fun s => filesToTransform st !! s.1.1 = Some s.1.2 /\ s.1.2 <> NoTransform)
      signings
    /\ toolRuns (events (TransformFile ext fuel deepPath file st).1)
       = (toolRuns (events st) ++ ((fun s => (s.1.2, s.2)) <$> signings))%list
    /\ match (TransformFile ext fuel deepPath file st).2 with
       | Ok _ | Err _ =>
         events (TransformFile ext fuel deepPath file st).1
         = (events st ++ signingsOf signings)%list
       | Fatal | Panic | OutOfFuel => True
       end.
Proof.
  assert (H : triple anyState signsRegisteredOnly signsRegisteredOnly
                (TransformFile ext fuel deepPath file) (fun _ => True)).
  { apply TransformFile_triple;
      [apply signsRegisteredOnly_refl|apply signsRegisteredOnly_trans
      |intros a _; apply signsRegisteredOnly_refl|apply signsRegisteredOnly_trans
      |done|apply leaf_signsRegisteredOnly]. }
  specialize (H st I).
  assert (Hsigned : exists signings,
            events (TransformFile ext fuel deepPath file st).1
            = (events st ++ signingsOf signings)%list
            /\ Forall (fun s => filesToTransform st !! s.1.1 = Some s.1.2
                                /\ s.1.2 <> NoTransform) signings).
  { destruct (TransformFile ext fuel deepPath file st) as [st' [r| | | |]]; cbn [fst];
      [destruct H as (_ & [_ H] & _)|destruct H as [_ H]..]; exact H. }
  destruct Hsigned as (signings & Hevents & Hregistered).
  exists signings. split; [done|]. split.
  - rewrite Hevents. unfold toolRuns at 1. rewrite omap_app.
    by rewrite <- toolRuns_signingsOf.
  - by destruct (TransformFile ext fuel deepPath file st).2.
Qed.

End SignedFiles.

(** ** The depth of the recursion *)

Section Depth.

Context {World : Type}.
Variable ext : Externals World.
Hypothesis named : entriesAreNamed ext.

(** A call that does not run out of budget. *)
Local Abbreviation returns m := (forall st : State World, (m st).2 <> OutOfFuel).

Lemma returns_bind {A B} (m : M A) (k : A -> M B) :
  returns m -> (forall a st st', m st = (st', Ok a) -> returns (k a)) -> returns (bind m k).
Proof.
  intros Hm Hk st. unfold bind. specialize (Hm st). specialize (fun a => Hk a st).
  destruct (m st) as [st1 [a| | | |]]; cbn in *; try done. by eapply Hk.
Qed.

Lemma returns_WriteTarEntry (header : tar.Header) (content : bytes) :
  returns (WriteTarEntry ext header content).
Proof.
  intros st. unfold WriteTarEntry. destruct (tar_WriteHeader ext header); [done|].
  destruct (tar_Write ext header content) as [n [e|]]; [done|]. by case_decide.
Qed.

(** Appending a non-empty segment fills one more cell. *)
Lemma Append_filled (p q : DeepPath) (child : string) :
  contiguous p -> parts0 p <> "" -> child <> "" -> (Append p child).2 = Ok q ->
  contiguous q /\ parts0 q <> "" /\ filled q = S (filled p).
Proof.
  destruct p as [a b d]. unfold contiguous, Append, filled, firstUnused.
  cbn [parts0 parts1 parts2]. intros [H0 H1] Ha Hchild.
  destruct (String.eqb_spec a "") as [->|_]; [done|].
  destruct (String.eqb_spec b "") as [->|Hb].
  - rewrite (H1 eq_refl). intros [= <-]. cbn [parts0 parts1 parts2].
    destruct (String.eqb_spec a "") as [->|_]; [done|].
    destruct (String.eqb_spec child "") as [->|_]; [done|]. cbn. by repeat split.
  - destruct (String.eqb_spec d "") as [->|Hd]; [|done]. intros [= <-].
    cbn [parts0 parts1 parts2].
    destruct (String.eqb_spec a "") as [->|_]; [done|].
    destruct (String.eqb_spec b "") as [->|_]; [done|].
    destruct (String.eqb_spec child "") as [->|_]; [done|]. by repeat split.
Qed.

(** With named entries, an archive at a Deep Path of [n] cells leads to
    calls of the dispatcher at Deep Paths of [n + 1] cells only, and to
    none when [n] is three. *)
Lemma rebuilders_return (rec : DeepPath -> Reader -> @M World FileTransformResult)
    (deepPath : DeepPath) :
  contiguous deepPath -> parts0 deepPath <> "" ->
  (forall q file, contiguous q -> parts0 q <> "" -> filled q = S (filled deepPath) ->
     returns (rec q file)) ->
  (forall file, returns (TransformTarGz ext rec deepPath file))
  /\ (forall content, returns (TransformZip ext rec deepPath content)).
Proof.
  intros Hcontiguous Hfirst Hrec. destruct named as [Htar Hzip]. split.
  - intros file. unfold TransformTarGz, TransformTarGzToFile.
    pose proof (Htar file) as Hnames.
    destruct (targz_Read ext file) as [entries ending].
    specialize (Hnames _ _ eq_refl).
    apply returns_bind; [|done].
    induction Hnames as [|[header fileContent] entries Hname _ IH];
      cbn [TransformTarGzEntries]; [by destruct ending|].
    apply returns_bind; [|intros written ? ? _; by apply returns_bind].
    unfold TransformTarGzEntry. case_decide; [|done].
    apply returns_bind.
    { intros st. unfold Append, lift. cbv zeta. by repeat case_match. }
    intros q st st' [_ Happend]%lift_Ok.
    apply Append_filled in Happend as (? & ? & ?); [|done..].
    apply returns_bind; [by apply Hrec|]. intros r _ _ _.
    apply returns_bind; [apply returns_WriteTarEntry|]. intros _ _ _ _.
    destruct (siblingFile r); [|done].
    apply returns_bind; [apply returns_WriteTarEntry|done].
  - intros content. unfold TransformZip, TransformZipToFile.
    apply returns_bind; [|done].
    apply returns_bind; [by destruct (zip_NewReader ext content)|].
    intros files st st' [_ Hread]%liftSum_Ok. apply Hzip in Hread as Hnames.
    clear Hread. induction Hnames as [|zipEntry files Hname _ IH];
      cbn [TransformZipEntries]; [done|].
    apply returns_bind; [|intros written ? ? _; by apply returns_bind].
    unfold TransformZipEntry.
    apply returns_bind; [by destruct (zip_Open ext zipEntry)|]. intros zipEntryFile _ _ _.
    apply returns_bind.
    { intros st0. unfold Append, lift. cbv zeta. by repeat case_match. }
    intros q st0 st0' [_ Happend]%lift_Ok.
    apply Append_filled in Happend as (? & ? & ?); [|done..].
    apply returns_bind; [by apply Hrec|]. intros r _ _ _.
    apply returns_bind.
    + destruct (newFile r).
      * apply returns_bind; [by destruct (zip_CreateHeader ext _)|done].
      * apply returns_bind; [by destruct (zip_OpenRaw ext zipEntry)|]. intros raw _ _ _.
        apply returns_bind; [by destruct (zip_CreateRaw ext _)|done].
    + intros first _ _ _. destruct (siblingFile r); [|done].
      apply returns_bind; [by destruct (zip_Create ext _)|done].
Qed.

(** The dispatcher's recursion is at most three calls deep, one per cell
    of a Deep Path: when the archive readers deliver no entry with an empty
    name, a call at a Deep Path without gaps that uses [n] of its cells
    comes to an end (a result, an error or [log.Fatal], never a panic)
    within [4 - n] nested calls.  A budget of three is enough for every file [main]
    passes, whatever the archives hold. *)
Theorem TransformFile_recursion_is_three_deep (fuel : nat) (deepPath : DeepPath)
    (file : Reader) (st : State World) :
  contiguous deepPath -> parts0 deepPath <> "" -> (4 <= fuel + filled deepPath)%nat ->
  match (TransformFile ext fuel deepPath file st).2 with
  | Ok _ | Err _ | Fatal => True
  | Panic | OutOfFuel => False
  end.
Proof.
  intros Hcontiguous Hfirst Hfuel.
  pose proof (noPanic_TransformFile ext fuel deepPath file st) as HnoPanic.
  assert (Hreturns : (TransformFile ext fuel deepPath file st).2 <> OutOfFuel);
    [|by destruct (TransformFile ext fuel deepPath file st).2].
  clear HnoPanic. revert deepPath file st Hcontiguous Hfirst Hfuel.
  induction fuel as [|fuel IH]; intros deepPath file st Hcontiguous Hfirst Hfuel.
  - exfalso. unfold filled in Hfuel. destruct (firstUnused deepPath) as [i|] eqn:Hi; [|lia].
    unfold firstUnused in Hi. repeat case_match; simplify_eq; lia.
  - cbn [TransformFile]. destruct (looksLikeArchive deepPath) eqn:Harchive.
    + destruct (rebuilders_return (TransformFile ext fuel) deepPath Hcontiguous Hfirst)
        as [Htar Hzip].
      { intros q file' ? ? Hq st'. apply IH; [done..|lia]. }
      unfold TransformFile_body. unfold looksLikeArchive in Harchive.
      destruct (PathLooksLikeTarGz (Last deepPath)); [apply Htar|].
      cbn [orb] in Harchive. rewrite Harchive.
      apply returns_bind; [by destruct file|]. intros content _ _ _. apply Hzip.
    + rewrite TransformFile_body_leaf by done. by apply leafOutcome_cases.
Qed.

End Depth.

Lemma fixture_entriesAreNamed : entriesAreNamed Fixture.ext.
Proof.
  split.
  - intros [content|e] entries ending; cbn [targz_Read Fixture.ext Fixture.fx_targz_Read].
    + repeat case_decide; intros [= <- _]; repeat apply Forall_cons_2;
        try apply Forall_nil_2; discriminate.
    + intros [= <- _]. apply Forall_nil_2.
  - intros content files. cbn [zip_NewReader Fixture.ext]. unfold Fixture.fx_zip_NewReader.
    repeat case_decide; intros [= <-]; repeat apply Forall_cons_2;
      try apply Forall_nil_2; discriminate.
Qed.

Lemma TransformFile_recursion_is_three_deep_witness :
  match (TransformFile Fixture.ext 3 (NewDeepPath "outer.tar.gz")
           (BytesReader Fixture.outerTarGz) nothingRegistered).2 with
  | Ok _ | Err _ | Fatal => True
  | Panic | OutOfFuel => False
  end.
Proof.
  apply (TransformFile_recursion_is_three_deep Fixture.ext fixture_entriesAreNamed 3
           (NewDeepPath "outer.tar.gz") (BytesReader Fixture.outerTarGz) nothingRegistered).
  - by split.
  - discriminate.
  - cbn. lia.
Defined.

Lemma top_level_archive_run :
  TransformFile Fixture.ext 2 (NewDeepPath "flat.tar.gz") (BytesReader Fixture.flatTarGz)
    (withWorld (initialState 0%nat) 2%nat)
  = (withWorld (initialState 0%nat) 2%nat,
     Ok (replaceWith (Fixture.fx_targz_Bytes
                        [(Fixture.tarEntryHeader "README" 1, [x52]);
                         (Fixture.tarEntryHeader "bin/tool" 2, [x7f; x45])]))).
Proof.
  apply (plain_archives_round_trip Fixture.ext 0 (withWorld (initialState 0%nat) 2%nat)
           (NewDeepPath "flat.tar.gz")); [reflexivity|].
  repeat apply Forall_cons_2; [| |apply Forall_nil_2].
  - split; [reflexivity|]. split; [reflexivity|]. split; [by exists 1|].
    eexists. split; [reflexivity|]. split; [reflexivity|vm_compute; reflexivity].
  - split; [reflexivity|]. split; [reflexivity|]. split; [by exists 2|].
    eexists. split; [reflexivity|]. split; [reflexivity|vm_compute; reflexivity].
Qed.

(** The fixture's flat archive at the top of the source tree: the
    destination receives the rebuilt archive. *)
Lemma archive_file_is_replaced_by_its_rebuilt_form_witness :
  CopyFileOrTransformArchive Fixture.ext fixtureFileSystem 2 (NewDeepPath "flat.tar.gz")
    "source/flat.tar.gz" "destination/flat.tar.gz" (mkFileInfo true 420 7)
    (initialState 0%nat)
  = (withWorld (initialState 0%nat) 5%nat, Ok tt).
Proof.
  destruct (archive_file_is_replaced_by_its_rebuilt_form Fixture.ext fixtureFileSystem 2
              (NewDeepPath "flat.tar.gz") "source/flat.tar.gz" "destination/flat.tar.gz"
              (mkFileInfo true 420 7) (initialState 0%nat)
              (withWorld (initialState 0%nat) 2%nat) (BytesReader Fixture.flatTarGz)
              1%nat 2%nat _ eq_refl eq_refl eq_refl eq_refl top_level_archive_run)
    as (rebuilt & _ & Hcall).
  exact Hcall.
Defined.
